(** * pokemon_game: the battle engine, embedded and verified

    A shallow embedding of [src/game/pokemon.py], [src/game/trainer.py], the
    battle part of [src/game/game_engine.py] (with the starters, the
    trainers' creatures and the Pokemon Center) and the prompts of
    [src/utils/input_handler.py] that the battle uses.

    Conventions of the embedding.
    - Python [int] is [Z]; Python [float] is the kernel's binary64 [float],
      whose operations round to nearest-even exactly as CPython's do.
    - A Python exception is a value [Raise e] of the result type [res].
    - [random] is an oracle tape carried in the state ([Rng]).
    - [input()] reads the next line of a list of lines; at the end of the
      list it raises [EOFError], which every prompt of the game catches.
    - A mutable object shared by several names is stored once: the player's
      active creature is an index into the trainer's team.
    - The display and the logger only write text; they are left out, except
      where the display can raise. *)

From Stdlib Require Import ZArith Lia List String Ascii Bool.
From Stdlib Require Import Uint63 PrimFloat SpecFloat FloatOps FloatAxioms.
From stdpp Require Import base option list strings gmap.

Set Warnings "-inexact-float".
Local Open Scope string_scope.
Local Open Scope Z_scope.

(* ===================================================================== *)
(** * Python values *)
(* ===================================================================== *)

(** The exceptions the modelled code can raise. *)
Inductive exn : Set :=
| ZeroDivisionError
| OverflowError
| ValueError
| IndexError.

(** The result of a call that may raise. *)
Inductive res (A : Type) : Type :=
| Ok (a : A)
| Raise (e : exn).
Arguments Ok {A} a.
Arguments Raise {A} e.

#[global] Instance res_ret : MRet res := fun A a => Ok a.
#[global] Instance res_bind : MBind res :=
  fun A B f m => match m with Ok a => f a | Raise e => Raise e end.

Module Py.

(** [float(z)]: the binary64 nearest to [z], ties to even.  (CPython raises
    [OverflowError] beyond the largest float; here the conversion gives an
    infinity, which [int_of_float] then refuses.) *)
Definition float_of_Z (z : Z) : float :=
  SF2Prim (binary_normalize prec emax z 0 false).

(** [int(f)]: truncation toward zero. *)
Definition int_of_float (f : float) : res Z :=
  match Prim2SF f with
  | S754_zero _ => Ok 0
  | S754_finite s m e =>
      let mag := if 0 <=? e then Z.shiftl (Zpos m) e
                 else Z.shiftr (Zpos m) (- e) in
      Ok (if s then - mag else mag)
  | S754_infinity _ => Raise OverflowError
  | S754_nan => Raise ValueError
  end.

(** [a / b] on two ints (true division).  CPython returns the correctly
    rounded quotient; for operands of at most 53 bits, which every level and
    stat of the game is, that is the quotient of the two conversions. *)
Definition truediv (a b : Z) : res float :=
  if b =? 0 then Raise ZeroDivisionError
  else Ok (float_of_Z a / float_of_Z b)%float.

(** [x / y] on two floats. *)
Definition fdiv (x y : float) : res float :=
  if (y =? 0)%float then Raise ZeroDivisionError else Ok (x / y)%float.

(** [min(a, b)] and [max(a, b)] on floats: the first argument unless the
    second is strictly smaller (larger). *)
Definition fmin (a b : float) : float := if (b <? a)%float then b else a.
Definition fmax (a b : float) : float := if (a <? b)%float then b else a.

(** The position that [l[i]] names in a list of length [n], with Python's
    negative indices. *)
Definition position (n : nat) (i : Z) : res nat :=
  let j := if i <? 0 then i + Z.of_nat n else i in
  if (j <? 0) || (Z.of_nat n <=? j) then Raise IndexError
  else Ok (Z.to_nat j).

(** [l[i]] *)
Definition index {A} (l : list A) (i : Z) : res (nat * A) :=
  k ← position (length l) i;
  match l !! k with
  | Some a => Ok (k, a)
  | None => Raise IndexError
  end.

(** [s in l] for a list of strings. *)
Definition str_in (s : string) (l : list string) : bool :=
  existsb (String.eqb s) l.

(** [s.isdigit()] on an ASCII string. *)
Definition is_digit_char (c : ascii) : bool :=
  let n := nat_of_ascii c in (48 <=? n)%nat && (n <=? 57)%nat.

Fixpoint all_digits (s : string) : bool :=
  match s with
  | EmptyString => true
  | String c s' => is_digit_char c && all_digits s'
  end.

Definition isdigit (s : string) : bool :=
  match s with EmptyString => false | _ => all_digits s end.

(** [int(s)] on a string of ASCII digits. *)
Fixpoint int_of_digits (acc : Z) (s : string) : Z :=
  match s with
  | EmptyString => acc
  | String c s' =>
      int_of_digits (10 * acc + (Z.of_nat (nat_of_ascii c) - 48)) s'
  end.

Definition int_of_str (s : string) : Z := int_of_digits 0 s.

(** [s.lower()] on an ASCII string. *)
Definition lower_char (c : ascii) : ascii :=
  let n := nat_of_ascii c in
  if (65 <=? n)%nat && (n <=? 90)%nat then ascii_of_nat (n + 32) else c.

Fixpoint lower (s : string) : string :=
  match s with
  | EmptyString => EmptyString
  | String c s' => String (lower_char c) (lower s')
  end.

End Py.

(* ===================================================================== *)
(** * The random module, as an oracle tape *)
(* ===================================================================== *)

(** [floats] feeds [random.random()] (values in [0,1)) and [ints] feeds the
    integer generator behind [random.choice].  An exhausted tape reads 0. *)
Record Rng : Type := mkRng {
  floats : list float;
  ints : list nat
}.

Module Random.

(** [random.random()] *)
Definition random (r : Rng) : float * Rng :=
  (hd 0%float (floats r), mkRng (tl (floats r)) (ints r)).

(** [random.uniform(a, b)], which CPython computes as
    [a + (b - a) * random()]. *)
Definition uniform (a b : float) (r : Rng) : float * Rng :=
  let '(u, r') := random r in ((a + (b - a) * u)%float, r').

(** [random.choice(seq)]: an index below [len(seq)] from the integer
    generator; [IndexError] on an empty sequence. *)
Definition choice {A} (l : list A) (r : Rng) : res (A * Rng) :=
  match l with
  | [] => Raise IndexError
  | _ =>
      let i := (hd 0%nat (ints r) mod length l)%nat in
      match l !! i with
      | Some a => Ok (a, mkRng (floats r) (tl (ints r)))
      | None => Raise IndexError
      end
  end.

End Random.

(* ===================================================================== *)
(** * game/pokemon.py *)
(* ===================================================================== *)

(** [class PokemonType(Enum)] *)
Inductive PokemonType : Set :=
| NORMAL | FIRE | WATER | ELECTRIC | GRASS | ICE | FIGHTING | POISON | GROUND
| FLYING | PSYCHIC | BUG | ROCK | GHOST | DRAGON | DARK | STEEL | FAIRY.

#[global] Instance PokemonType_eq_dec : EqDecision PokemonType.
Proof. solve_decision. Defined.

(** [t in l] for a list of types. *)
Definition type_in (t : PokemonType) (l : list PokemonType) : bool :=
  existsb (fun u => bool_decide (t = u)) l.

(** [class Move]; its [description] and [effect] texts are left out. *)
Module Move.

Record t : Type := mk {
  name : string;
  type : PokemonType;
  power : Z;
  accuracy : Z;
  pp : Z;
  max_pp : Z
}.

(** [Move.use_move]: the move after the call, and the returned flag. *)
Definition use_move (m : t) : t * bool :=
  if 0 <? pp m
  then (mk (name m) (type m) (power m) (accuracy m) (pp m - 1) (max_pp m),
        true)
  else (m, false).

End Move.

(** [class Stats] *)
Module Stats.

Record t : Type := mk {
  hp : Z;
  attack : Z;
  defense : Z;
  special_attack : Z;
  special_defense : Z;
  speed : Z
}.

(** [Stats.calculate_stat], with [iv] at its default 15:
    [int(((2 * base_stat + iv) * level) / 100) + 5]. *)
Definition calculate_stat (base_stat level : Z) : res Z :=
  let iv := 15 in
  q ← Py.truediv ((2 * base_stat + iv) * level) 100;
  n ← Py.int_of_float q;
  mret (n + 5).

End Stats.

(** An entry of the species table of [Pokemon.get_species_data]. *)
Module Species.

Record evo : Type := mkEvolution {
  ev_level : option Z;       (* the key "level", when present *)
  ev_item : option string;   (* the key "item", when present *)
  evolves_to : string
}.

Record t : Type := mk {
  types : list PokemonType;
  base_stats : Stats.t;
  abilities : list string;
  evolution : option evo
}.

End Species.

(** [Pokemon.get_species_data] *)
Definition get_species_data (species : string) : Species.t :=
  let by_level l to := Some (Species.mkEvolution (Some l) None to) in
  if String.eqb species "Bulbasaur" then
    Species.mk [GRASS; POISON] (Stats.mk 45 49 49 65 65 45) ["Overgrow"]
      (by_level 16 "Ivysaur")
  else if String.eqb species "Charmander" then
    Species.mk [FIRE] (Stats.mk 39 52 43 60 50 65) ["Blaze"]
      (by_level 16 "Charmeleon")
  else if String.eqb species "Squirtle" then
    Species.mk [WATER] (Stats.mk 44 48 65 50 64 43) ["Torrent"]
      (by_level 16 "Wartortle")
  else if String.eqb species "Pikachu" then
    Species.mk [ELECTRIC] (Stats.mk 35 55 40 50 50 90) ["Static"]
      (Some (Species.mkEvolution None (Some "Thunder Stone") "Raichu"))
  else if String.eqb species "Rattata" then
    Species.mk [NORMAL] (Stats.mk 30 56 35 25 35 72) ["Run Away"; "Guts"]
      (by_level 20 "Raticate")
  else if String.eqb species "Caterpie" then
    Species.mk [BUG] (Stats.mk 45 30 35 20 20 45) ["Shield Dust"]
      (by_level 7 "Metapod")
  else if String.eqb species "Pidgey" then
    Species.mk [NORMAL; FLYING] (Stats.mk 40 45 40 35 35 56)
      ["Keen Eye"; "Tangled Feet"] (by_level 18 "Pidgeotto")
  else
    Species.mk [NORMAL] (Stats.mk 50 50 50 50 50 50) ["Unknown"] None.

(** The move table of [Pokemon.get_initial_moves]. *)
Definition move_database (name : string) : option Move.t :=
  if String.eqb name "Tackle" then Some (Move.mk "Tackle" NORMAL 40 100 35 35)
  else if String.eqb name "Growl" then Some (Move.mk "Growl" NORMAL 0 100 40 40)
  else if String.eqb name "Vine Whip" then
    Some (Move.mk "Vine Whip" GRASS 45 100 25 25)
  else if String.eqb name "Ember" then Some (Move.mk "Ember" FIRE 40 100 25 25)
  else if String.eqb name "Water Gun" then
    Some (Move.mk "Water Gun" WATER 40 100 25 25)
  else if String.eqb name "Thunder Shock" then
    Some (Move.mk "Thunder Shock" ELECTRIC 40 100 30 30)
  else if String.eqb name "Quick Attack" then
    Some (Move.mk "Quick Attack" NORMAL 40 100 30 30)
  else if String.eqb name "String Shot" then
    Some (Move.mk "String Shot" BUG 0 95 40 40)
  else if String.eqb name "Gust" then Some (Move.mk "Gust" FLYING 40 100 35 35)
  else None.

Definition species_moves (species : string) : list string :=
  if String.eqb species "Bulbasaur" then ["Tackle"; "Growl"; "Vine Whip"]
  else if String.eqb species "Charmander" then ["Tackle"; "Growl"; "Ember"]
  else if String.eqb species "Squirtle" then ["Tackle"; "Water Gun"]
  else if String.eqb species "Pikachu" then ["Thunder Shock"; "Quick Attack"]
  else if String.eqb species "Rattata" then ["Tackle"; "Quick Attack"]
  else if String.eqb species "Caterpie" then ["Tackle"; "String Shot"]
  else if String.eqb species "Pidgey" then ["Tackle"; "Gust"]
  else ["Tackle"].

(** [Pokemon.get_initial_moves] *)
Definition get_initial_moves (species : string) : list Move.t :=
  omap move_database (species_moves species).

(** [class Pokemon].  Left out: the shiny flag, the nature (with the
    constructor's draw of it), the ability, the friendship and the three
    stage modifiers.  The constructor sets them, [evolve] resets the
    ability, and a save copies the shiny flag, the nature and the friendship
    out and back; nothing else of the modelled code reads or writes them. *)
Record Pokemon : Type := mkPokemon {
  species : string;
  nickname : string;
  level : Z;
  experience : Z;
  experience_to_next_level : Z;
  species_data : Species.t;
  types : list PokemonType;
  base_stats : Stats.t;
  max_hp : Z;
  current_hp : Z;
  attack : Z;
  defense : Z;
  special_attack : Z;
  special_defense : Z;
  speed : Z;
  status_condition : option string;
  status_turns : Z;
  moves : list Move.t;
  original_trainer : option string;
  catch_location : option string;
  catch_level : Z
}.

(** Field updates. *)
Definition set_nickname (v : string) (p : Pokemon) : Pokemon :=
  mkPokemon (species p) v (level p) (experience p)
    (experience_to_next_level p) (species_data p) (types p) (base_stats p)
    (max_hp p) (current_hp p) (attack p) (defense p) (special_attack p)
    (special_defense p) (speed p) (status_condition p) (status_turns p)
    (moves p) (original_trainer p) (catch_location p) (catch_level p).

Definition set_experience (v : Z) (p : Pokemon) : Pokemon :=
  mkPokemon (species p) (nickname p) (level p) v
    (experience_to_next_level p) (species_data p) (types p) (base_stats p)
    (max_hp p) (current_hp p) (attack p) (defense p) (special_attack p)
    (special_defense p) (speed p) (status_condition p) (status_turns p)
    (moves p) (original_trainer p) (catch_location p) (catch_level p).

Definition set_current_hp (v : Z) (p : Pokemon) : Pokemon :=
  mkPokemon (species p) (nickname p) (level p) (experience p)
    (experience_to_next_level p) (species_data p) (types p) (base_stats p)
    (max_hp p) v (attack p) (defense p) (special_attack p)
    (special_defense p) (speed p) (status_condition p) (status_turns p)
    (moves p) (original_trainer p) (catch_location p) (catch_level p).

Definition clear_status (p : Pokemon) : Pokemon :=
  mkPokemon (species p) (nickname p) (level p) (experience p)
    (experience_to_next_level p) (species_data p) (types p) (base_stats p)
    (max_hp p) (current_hp p) (attack p) (defense p) (special_attack p)
    (special_defense p) (speed p) None 0
    (moves p) (original_trainer p) (catch_location p) (catch_level p).

Definition set_moves (v : list Move.t) (p : Pokemon) : Pokemon :=
  mkPokemon (species p) (nickname p) (level p) (experience p)
    (experience_to_next_level p) (species_data p) (types p) (base_stats p)
    (max_hp p) (current_hp p) (attack p) (defense p) (special_attack p)
    (special_defense p) (speed p) (status_condition p) (status_turns p)
    v (original_trainer p) (catch_location p) (catch_level p).

Definition set_caught (trainer location : string) (p : Pokemon) : Pokemon :=
  mkPokemon (species p) (nickname p) (level p) (experience p)
    (experience_to_next_level p) (species_data p) (types p) (base_stats p)
    (max_hp p) (current_hp p) (attack p) (defense p) (special_attack p)
    (special_defense p) (speed p) (status_condition p) (status_turns p)
    (moves p) (Some trainer) (Some location) (catch_level p).

Definition set_catch_level (v : Z) (p : Pokemon) : Pokemon :=
  mkPokemon (species p) (nickname p) (level p) (experience p)
    (experience_to_next_level p) (species_data p) (types p) (base_stats p)
    (max_hp p) (current_hp p) (attack p) (defense p) (special_attack p)
    (special_defense p) (speed p) (status_condition p) (status_turns p)
    (moves p) (original_trainer p) (catch_location p) v.

(** [Pokemon.calculate_exp_to_next_level]: [int(1.2 * (self.level ** 2))]. *)
Definition calculate_exp_to_next_level (level : Z) : res Z :=
  Py.int_of_float (1.2 * Py.float_of_Z (level ^ 2))%float.

(** [Pokemon.__init__] *)
Definition new_pokemon (species : string) (level : Z) : res Pokemon :=
  exp_next ← calculate_exp_to_next_level level;
  let data := get_species_data species in
  let base := Species.base_stats data in
  max_hp ← Stats.calculate_stat (Stats.hp base) level;
  attack ← Stats.calculate_stat (Stats.attack base) level;
  defense ← Stats.calculate_stat (Stats.defense base) level;
  special_attack ← Stats.calculate_stat (Stats.special_attack base) level;
  special_defense ← Stats.calculate_stat (Stats.special_defense base) level;
  speed ← Stats.calculate_stat (Stats.speed base) level;
  mret (mkPokemon species species level 0 exp_next data (Species.types data)
          base max_hp max_hp attack defense special_attack special_defense
          speed None 0 (get_initial_moves species) None None level).

(** [Pokemon.level_up]: the creature after the call and the returned flag. *)
Definition level_up (p : Pokemon) : res (Pokemon * bool) :=
  if 100 <=? level p then Ok (p, false)
  else
    let level' := level p + 1 in
    exp_next ← calculate_exp_to_next_level level';
    let base := base_stats p in
    let old_max_hp := max_hp p in
    max_hp' ← Stats.calculate_stat (Stats.hp base) level';
    let current_hp' := current_hp p + (max_hp' - old_max_hp) in
    attack' ← Stats.calculate_stat (Stats.attack base) level';
    defense' ← Stats.calculate_stat (Stats.defense base) level';
    special_attack' ← Stats.calculate_stat (Stats.special_attack base) level';
    special_defense' ←
      Stats.calculate_stat (Stats.special_defense base) level';
    speed' ← Stats.calculate_stat (Stats.speed base) level';
    let p' :=
      mkPokemon (species p) (nickname p) level' 0 exp_next (species_data p)
        (types p) base max_hp' current_hp' attack' defense' special_attack'
        special_defense' speed' (status_condition p) (status_turns p)
        (moves p) (original_trainer p) (catch_location p)
        (catch_level p) in
    (* Check for evolution *)
    match Species.evolution (species_data p) with
    | Some ev =>
        match Species.ev_level ev with
        | Some l => Ok (p', l <=? level')
        | None => Ok (p', false)
        end
    | None => Ok (p', false)
    end.

(** [Pokemon.gain_experience] *)
Definition gain_experience (amount : Z) (p : Pokemon) : res (Pokemon * bool) :=
  let p1 := set_experience (experience p + amount) p in
  if experience_to_next_level p1 <=? experience p1
  then level_up p1
  else Ok (p1, false).

(** [Pokemon.heal]; [None] is the call without an amount. *)
Definition heal (amount : option Z) (p : Pokemon) : Pokemon :=
  let p1 :=
    match amount with
    | None => set_current_hp (max_hp p) p
    | Some a => set_current_hp (Z.min (max_hp p) (current_hp p + a)) p
    end in
  (* Clear status conditions when fully healed *)
  if current_hp p1 =? max_hp p1 then clear_status p1 else p1.

(** [Pokemon.take_damage]: the creature after the call and the returned
    flag. *)
Definition take_damage (damage : Z) (p : Pokemon) : Pokemon * bool :=
  let p' := set_current_hp (Z.max 0 (current_hp p - damage)) p in
  (p', current_hp p' =? 0).

(** [Pokemon.is_fainted] *)
Definition is_fainted (p : Pokemon) : bool := current_hp p <=? 0.

(** [Pokemon.TYPE_EFFECTIVENESS]: the row of an attacking type, when the
    chart has one. *)
Definition TYPE_EFFECTIVENESS (a : PokemonType)
  : option (list (PokemonType * float)) :=
  match a with
  | FIRE =>
      Some [(GRASS, 2.0); (ICE, 2.0); (BUG, 2.0); (STEEL, 2.0);
            (FIRE, 0.5); (WATER, 0.5); (ROCK, 0.5); (DRAGON, 0.5)]%float
  | WATER =>
      Some [(FIRE, 2.0); (GROUND, 2.0); (ROCK, 2.0);
            (WATER, 0.5); (GRASS, 0.5); (DRAGON, 0.5)]%float
  | ELECTRIC =>
      Some [(WATER, 2.0); (FLYING, 2.0);
            (ELECTRIC, 0.5); (GRASS, 0.5); (DRAGON, 0.5);
            (GROUND, 0.0)]%float
  | GRASS =>
      Some [(WATER, 2.0); (GROUND, 2.0); (ROCK, 2.0);
            (FIRE, 0.5); (GRASS, 0.5); (POISON, 0.5);
            (FLYING, 0.5); (BUG, 0.5); (DRAGON, 0.5); (STEEL, 0.5)]%float
  | _ => None
  end.

(** [row.get(target_type, 1.0)] *)
Fixpoint row_get (row : list (PokemonType * float)) (t : PokemonType)
  : float :=
  match row with
  | [] => 1.0%float
  | (u, m) :: row' => if bool_decide (t = u) then m else row_get row' t
  end.

(** [Pokemon.get_type_effectiveness_static] *)
Definition get_type_effectiveness_static (attack_type target_type : PokemonType)
  : float :=
  match TYPE_EFFECTIVENESS attack_type with
  | Some row => row_get row target_type
  | None => 1.0%float
  end.

(** [Pokemon.get_type_effectiveness] *)
Definition get_type_effectiveness (attack_type : PokemonType)
    (target_types : list PokemonType) : float :=
  fold_left
    (fun effectiveness target_type =>
       match TYPE_EFFECTIVENESS attack_type with
       | Some row => (effectiveness * row_get row target_type)%float
       | None => effectiveness
       end)
    target_types 1.0%float.

(** [Pokemon.calculate_damage]: the damage (or the exception raised) and the
    generator after the call.  Nothing of [self], [move] or [target] is
    written. *)
Definition calculate_damage (self : Pokemon) (move : Move.t)
    (target : Pokemon) (r : Rng) : res Z * Rng :=
  if Move.power move =? 0 then (Ok 0, r)
  else
    let before_draw : res float :=
      (* Base damage calculation *)
      q ← Py.truediv (2 * level self) 5;
      let level_factor := (q + 2)%float in
      let physical := type_in (Move.type move) [NORMAL; FIGHTING] in
      let attack_stat :=
        if physical then attack self else special_attack self in
      let defense_stat :=
        if physical then defense target else special_defense target in
      n ← Py.fdiv (level_factor * Py.float_of_Z (Move.power move)
                   * Py.float_of_Z attack_stat)%float
                  (Py.float_of_Z defense_stat);
      let damage := (n / 50 + 2)%float in
      (* Type effectiveness *)
      let effectiveness :=
        get_type_effectiveness (Move.type move) (types target) in
      let damage := (damage * effectiveness)%float in
      (* STAB (Same Type Attack Bonus) *)
      mret (if type_in (Move.type move) (types self)
            then (damage * 1.5)%float else damage) in
    match before_draw with
    | Raise e => (Raise e, r)
    | Ok damage =>
        (* Random factor *)
        let '(u, r') := Random.uniform 0.85 1.0 r in
        (Py.int_of_float (damage * u)%float, r')
    end.

(** [Pokemon.get_catch_rate] *)
Definition get_catch_rate (p : Pokemon) : Z :=
  let s := species p in
  if String.eqb s "Bulbasaur" || String.eqb s "Charmander"
     || String.eqb s "Squirtle" then 45
  else if String.eqb s "Pikachu" then 190
  else if String.eqb s "Rattata" || String.eqb s "Caterpie"
          || String.eqb s "Pidgey" then 255
  else 100.

(* ===================================================================== *)
(** * game/trainer.py *)
(* ===================================================================== *)

(** An entry of [Inventory.get_item_database]; the description is left
    out. *)
Module Item.

Record t : Type := mk {
  type : string;
  catch_rate : option float;
  heal_amount : option Z;
  revive : bool
}.

End Item.

(** [Inventory.get_item_database] *)
Definition get_item_database (name : string) : option Item.t :=
  let ball rate := Some (Item.mk "pokeball" (Some rate) None false) in
  let healing amount := Some (Item.mk "healing" None (Some amount) false) in
  let other type := Some (Item.mk type None None false) in
  if String.eqb name "Pokeball" then ball 1.0%float
  else if String.eqb name "Great Ball" then ball 1.5%float
  else if String.eqb name "Ultra Ball" then ball 2.0%float
  else if String.eqb name "Master Ball" then ball 255.0%float
  else if String.eqb name "Potion" then healing 20
  else if String.eqb name "Super Potion" then healing 50
  else if String.eqb name "Hyper Potion" then healing 200
  else if String.eqb name "Max Potion" then healing 999
  else if String.eqb name "Revive" then
    Some (Item.mk "healing" None None true)
  else if String.eqb name "Thunder Stone" then other "evolution"
  else if String.eqb name "Fire Stone" then other "evolution"
  else if String.eqb name "Water Stone" then other "evolution"
  else if String.eqb name "Leaf Stone" then other "evolution"
  else if String.eqb name "Rare Candy" then other "misc"
  else if String.eqb name "Bicycle" then other "key"
  else if String.eqb name "Pokedex" then other "key"
  else None.

(** [class Inventory]: [self.items], a dict from item name to quantity, kept
    in insertion order (the engine takes the first Pokeball entry).  The list
    of key items is left out. *)
Module Inventory.

Definition t : Type := list (string * Z).

(** [self.items.get(name)] *)
Fixpoint get (items : t) (item_name : string) : option Z :=
  match items with
  | [] => None
  | (k, q) :: rest => if String.eqb k item_name then Some q
                      else get rest item_name
  end.

(** [self.items[name] = q] on a present key *)
Fixpoint set (items : t) (item_name : string) (q : Z) : t :=
  match items with
  | [] => []
  | (k, q0) :: rest =>
      if String.eqb k item_name then (k, q) :: rest
      else (k, q0) :: set rest item_name q
  end.

(** [del self.items[name]]: the entry of that key goes. *)
Definition del (items : t) (item_name : string) : t :=
  List.filter (fun '(k, _) => negb (String.eqb k item_name)) items.

(** [Inventory.add_item] *)
Definition add_item (item_name : string) (quantity : Z) (items : t) : t :=
  match get items item_name with
  | Some q => set items item_name (q + quantity)
  | None => (items ++ [(item_name, quantity)])%list
  end.

(** [Inventory.remove_item]: the items after the call and the returned
    flag. *)
Definition remove_item (item_name : string) (quantity : Z) (items : t)
  : t * bool :=
  match get items item_name with
  | Some q =>
      if quantity <=? q then
        let q' := q - quantity in
        if q' =? 0 then (del items item_name, true)
        else (set items item_name q', true)
      else (items, false)
  | None => (items, false)
  end.

(** [Inventory.has_item] *)
Definition has_item (item_name : string) (quantity : Z) (items : t) : bool :=
  quantity <=? default 0 (get items item_name).

(** [self.items.get(name, 0)]: how many of an item are held. *)
Definition held (items : t) (item_name : string) : Z :=
  default 0 (get items item_name).

(** [Inventory.get_items_by_type] *)
Definition get_items_by_type (item_type : string) (items : t) : t :=
  List.filter
    (fun '(name, _) =>
       match get_item_database name with
       | Some d => String.eqb (Item.type d) item_type
       | None => false
       end)
    items.

(** [Inventory.__init__] *)
Definition init : t := add_item "Potion" 5 (add_item "Pokeball" 10 []).

End Inventory.

(** [class Trainer].  Kept: what battles, items and catches read or write.
    [stats] is the dict of counters, one field per key used here. *)
Record Trainer : Type := mkTrainer {
  name : string;
  current_location : string;
  pokemon_team : list Pokemon;
  pokemon_box : list Pokemon;
  max_team_size : Z;
  inventory : Inventory.t;
  pokedex_seen : gset string;
  pokedex_caught : gset string;
  stats_pokemon_caught : Z;
  stats_battles_won : Z;
  stats_battles_lost : Z;
  stats_items_used : Z
}.

Definition set_team (v : list Pokemon) (t : Trainer) : Trainer :=
  mkTrainer (name t) (current_location t) v (pokemon_box t)
    (max_team_size t) (inventory t) (pokedex_seen t) (pokedex_caught t)
    (stats_pokemon_caught t) (stats_battles_won t) (stats_battles_lost t)
    (stats_items_used t).

Definition set_box (v : list Pokemon) (t : Trainer) : Trainer :=
  mkTrainer (name t) (current_location t) (pokemon_team t) v
    (max_team_size t) (inventory t) (pokedex_seen t) (pokedex_caught t)
    (stats_pokemon_caught t) (stats_battles_won t) (stats_battles_lost t)
    (stats_items_used t).

Definition set_inventory (v : Inventory.t) (t : Trainer) : Trainer :=
  mkTrainer (name t) (current_location t) (pokemon_team t) (pokemon_box t)
    (max_team_size t) v (pokedex_seen t) (pokedex_caught t)
    (stats_pokemon_caught t) (stats_battles_won t) (stats_battles_lost t)
    (stats_items_used t).

Definition set_pokedex (seen caught : gset string) (t : Trainer) : Trainer :=
  mkTrainer (name t) (current_location t) (pokemon_team t) (pokemon_box t)
    (max_team_size t) (inventory t) seen caught
    (stats_pokemon_caught t) (stats_battles_won t) (stats_battles_lost t)
    (stats_items_used t).

Definition set_stats (caught won lost used : Z) (t : Trainer) : Trainer :=
  mkTrainer (name t) (current_location t) (pokemon_team t) (pokemon_box t)
    (max_team_size t) (inventory t) (pokedex_seen t) (pokedex_caught t)
    caught won lost used.

Definition add_items_used (t : Trainer) : Trainer :=
  set_stats (stats_pokemon_caught t) (stats_battles_won t)
    (stats_battles_lost t) (stats_items_used t + 1) t.

Definition add_pokemon_caught (t : Trainer) : Trainer :=
  set_stats (stats_pokemon_caught t + 1) (stats_battles_won t)
    (stats_battles_lost t) (stats_items_used t) t.

(** [Trainer.__init__] *)
Definition new_trainer (name : string) : Trainer :=
  mkTrainer name "pallet_town" [] [] 6 Inventory.init ∅ ∅ 0 0 0 0.

(** [Trainer.add_pokemon]: the trainer after the call, the creature as the
    call leaves it (it is the object stored), and the returned flag. *)
Definition add_pokemon (pokemon : Pokemon) (caught : bool) (t : Trainer)
  : Trainer * Pokemon * bool :=
  let pokemon1 :=
    if caught then set_caught (name t) (current_location t) pokemon
    else pokemon in
  let t1 :=
    if caught
    then set_pokedex (pokedex_seen t) ({[ species pokemon ]} ∪ pokedex_caught t)
           (add_pokemon_caught t)
    else t in
  let t2 :=
    set_pokedex ({[ species pokemon ]} ∪ pokedex_seen t1) (pokedex_caught t1)
      t1 in
  if Z.of_nat (length (pokemon_team t2)) <? max_team_size t2
  then (set_team (pokemon_team t2 ++ [pokemon1])%list t2, pokemon1, true)
  else (set_box (pokemon_box t2 ++ [pokemon1])%list t2, pokemon1, false).

(** [Trainer.get_active_pokemon], as the position of the creature in the
    team: the first one that has not fainted. *)
Fixpoint first_usable (team : list Pokemon) (i : nat) : option nat :=
  match team with
  | [] => None
  | p :: rest => if negb (is_fainted p) then Some i
                 else first_usable rest (S i)
  end.

Definition get_active_pokemon (t : Trainer) : option nat :=
  first_usable (pokemon_team t) 0.

(** [Trainer.has_usable_pokemon] *)
Definition has_usable_pokemon (t : Trainer) : bool :=
  existsb (fun p => negb (is_fainted p)) (pokemon_team t).

(** [Trainer.use_item] on a target creature: the trainer and the target
    after the call, and the returned flag.  The target is given and returned
    apart from the trainer: when it is an object of the team, as in every
    call of the engine, the team of the returned trainer still holds it as
    it was, and the caller puts the returned target back in its place
    ([items] does so with [put_player]; see [use_item_on_member]). *)
Definition use_item (item_name : string) (target_pokemon : Pokemon)
    (t : Trainer) : res (Trainer * Pokemon * bool) :=
  if negb (Inventory.has_item item_name 1 (inventory t))
  then Ok (t, target_pokemon, false)
  else
    match get_item_database item_name with
    | None => Ok (t, target_pokemon, false)
    | Some item_data =>
        let consume t :=
          add_items_used
            (set_inventory
               (fst (Inventory.remove_item item_name 1 (inventory t))) t) in
        if String.eqb (Item.type item_data) "healing" then
          let target' :=
            match Item.heal_amount item_data with
            | Some amount =>
                if amount =? 999 then heal None target_pokemon
                else heal (Some amount) target_pokemon
            | None =>
                if Item.revive item_data && is_fainted target_pokemon
                then set_current_hp (max_hp target_pokemon `div` 2)
                       target_pokemon
                else target_pokemon
            end in
          Ok (consume t, target', true)
        else if String.eqb (Item.type item_data) "misc"
                && String.eqb item_name "Rare Candy" then
          '(target', _) ←
            gain_experience (experience_to_next_level target_pokemon)
              target_pokemon;
          Ok (consume t, target', true)
        else Ok (t, target_pokemon, false)
    end.

(** The status bonus of [Trainer.catch_pokemon]. *)
Definition status_modifier (status : option string) : float :=
  match status with
  | Some s =>
      if Py.str_in s ["sleep"; "freeze"] then 2.0%float
      else if Py.str_in s ["paralyze"; "burn"; "poison"] then 1.5%float
      else 1.0%float
  | None => 1.0%float
  end.

(** The catch probability of [Trainer.catch_pokemon], up to its [min]. *)
Definition catch_probability (wild_pokemon : Pokemon) (pokeball_type : string)
  : res float :=
  let ball_modifier :=
    match get_item_database pokeball_type with
    | Some d => default 1.0%float (Item.catch_rate d)
    | None => 1.0%float
    end in
  (* Base catch rate calculation *)
  let catch_rate := get_catch_rate wild_pokemon in
  hp_modifier ←
    Py.truediv (3 * max_hp wild_pokemon - 2 * current_hp wild_pokemon)
               (3 * max_hp wild_pokemon);
  (* Final catch probability *)
  let p := (Py.float_of_Z catch_rate * ball_modifier * hp_modifier
            * status_modifier (status_condition wild_pokemon) / 255)%float in
  mret (Py.fmin 1.0 p).

(** [Trainer.catch_pokemon]: the trainer, the wild creature and the
    generator after the call, and the returned flag. *)
Definition catch_pokemon (wild_pokemon : Pokemon) (pokeball_type : string)
    (t : Trainer) (r : Rng) : res (Trainer * Pokemon * Rng * bool) :=
  if negb (Inventory.has_item pokeball_type 1 (inventory t))
  then Ok (t, wild_pokemon, r, false)
  else
    (* Calculate catch probability *)
    catch_probability ← catch_probability wild_pokemon pokeball_type;
    (* Use the pokeball *)
    let t1 :=
      set_inventory
        (fst (Inventory.remove_item pokeball_type 1 (inventory t))) t in
    (* Determine if catch is successful *)
    let '(u, r') := Random.random r in
    if (u <? catch_probability)%float then
      let healed := heal None wild_pokemon in
      let '(t2, stored, _) := add_pokemon healed true t1 in
      Ok (t2, stored, r', true)
    else Ok (t1, wild_pokemon, r', false).

(* ===================================================================== *)
(** * utils/input_handler.py: the prompts of a battle *)
(* ===================================================================== *)

(** Standard input is the list of the lines still to be read, each taken as
    already stripped of surrounding blanks.  Reading past the end raises
    [EOFError], which each prompt below catches itself. *)
Module InputHandler.

(** [InputHandler.get_yes_no] *)
Fixpoint get_yes_no (stdin : list string) : bool * list string :=
  match stdin with
  | [] => (false, [])
  | line :: rest =>
      let response := Py.lower line in
      if Py.str_in response ["y"; "yes"; "yeah"; "yep"; "true"; "1"]
      then (true, rest)
      else if Py.str_in response ["n"; "no"; "nope"; "false"; "0"]
      then (false, rest)
      else get_yes_no rest
  end.

(** The table [valid_choices] of [get_battle_choice]. *)
Definition valid_choices (choice : string) : option Z :=
  if Py.str_in choice ["1"; "attack"; "a"] then Some 1
  else if Py.str_in choice ["2"; "items"; "i"; "item"] then Some 2
  else if Py.str_in choice ["3"; "pokemon"; "p"; "switch"] then Some 3
  else if Py.str_in choice ["4"; "run"; "r"; "flee"] then Some 4
  else None.

(** [InputHandler.get_battle_choice] *)
Fixpoint get_battle_choice (stdin : list string) : option Z * list string :=
  match stdin with
  | [] => (Some 4, [])
  | line :: rest =>
      let choice := Py.lower line in
      match valid_choices choice with
      | Some result => (Some result, rest)
      | None =>
          if Py.str_in choice ["quit"; "exit"] then (Some 4, rest)
          else get_battle_choice rest
      end
  end.

(** [InputHandler.get_move_choice] *)
Fixpoint get_move_choice (pokemon : Pokemon) (stdin : list string)
  : option Z * list string :=
  match stdin with
  | [] => (None, [])
  | choice :: rest =>
      let max_moves := Z.of_nat (length (moves pokemon)) in
      if Py.isdigit choice then
        let move_number := Py.int_of_str choice in
        if (1 <=? move_number) && (move_number <=? max_moves) then
          match moves pokemon !! Z.to_nat (move_number - 1) with
          | Some move =>
              if 0 <? Move.pp move then (Some move_number, rest)
              else get_move_choice pokemon rest
          | None => (None, rest)
          end
        else get_move_choice pokemon rest
      else if Py.str_in (Py.lower choice) ["back"; "cancel"]
      then (None, rest)
      else get_move_choice pokemon rest
  end.

(** The loop of [get_item_choice]. *)
Fixpoint item_choice_loop (item_list : list string) (stdin : list string)
  : option string * list string :=
  match stdin with
  | [] => (None, [])
  | choice :: rest =>
      let max_items := Z.of_nat (length item_list) in
      if Py.isdigit choice then
        let item_index := Py.int_of_str choice - 1 in
        if (0 <=? item_index) && (item_index <? max_items) then
          (item_list !! Z.to_nat item_index, rest)
        else item_choice_loop item_list rest
      else if Py.str_in (Py.lower choice) ["back"; "cancel"]
      then (None, rest)
      else item_choice_loop item_list rest
  end.

(** [InputHandler.get_item_choice] *)
Definition get_item_choice (items : Inventory.t) (stdin : list string)
  : option string * list string :=
  match items with
  | [] => (None, stdin)
  | _ => item_choice_loop (map fst items) stdin
  end.

(** The loop of [get_pokemon_choice]. *)
Fixpoint pokemon_choice_loop (pokemon_list : list Pokemon)
    (stdin : list string) : option Z * list string :=
  match stdin with
  | [] => (None, [])
  | choice :: rest =>
      let max_pokemon := Z.of_nat (length pokemon_list) in
      if Py.isdigit choice then
        let pokemon_number := Py.int_of_str choice in
        if (1 <=? pokemon_number) && (pokemon_number <=? max_pokemon) then
          match pokemon_list !! Z.to_nat (pokemon_number - 1) with
          | Some pokemon =>
              if 0 <? current_hp pokemon then (Some pokemon_number, rest)
              else pokemon_choice_loop pokemon_list rest
          | None => (None, rest)
          end
        else pokemon_choice_loop pokemon_list rest
      else if Py.str_in (Py.lower choice) ["back"; "cancel"]
      then (None, rest)
      else pokemon_choice_loop pokemon_list rest
  end.

(** [InputHandler.get_pokemon_choice] *)
Definition get_pokemon_choice (pokemon_list : list Pokemon)
    (stdin : list string) : option Z * list string :=
  match pokemon_list with
  | [] => (None, stdin)
  | _ => pokemon_choice_loop pokemon_list stdin
  end.

(** [InputHandler.get_string] with [min_length=1], [max_length=12] and
    [allow_empty=True], as [get_pokemon_nickname] calls it. *)
Fixpoint get_string (stdin : list string) : option string * list string :=
  match stdin with
  | [] => (None, [])
  | text :: rest =>
      if String.eqb text EmptyString then (Some text, rest)
      else if (12 <? String.length text)%nat then get_string rest
      else (Some text, rest)
  end.

(** The characters of the pattern [[a-zA-Z0-9\s\-_\.]]. *)
Definition name_char (c : ascii) : bool :=
  let n := nat_of_ascii c in
  ((97 <=? n) && (n <=? 122) || (65 <=? n) && (n <=? 90)
   || (48 <=? n) && (n <=? 57) || (9 <=? n) && (n <=? 13)
   || (n =? 32) || (n =? 45) || (n =? 95) || (n =? 46))%nat.

Fixpoint all_name_chars (s : string) : bool :=
  match s with
  | EmptyString => true
  | String c s' => name_char c && all_name_chars s'
  end.

(** [InputHandler.get_pokemon_nickname] *)
Definition get_pokemon_nickname (species : string) (stdin : list string)
  : string * list string :=
  let '(nickname, rest) := get_string stdin in
  match nickname with
  | None => (species, rest)
  | Some nickname =>
      if String.eqb nickname EmptyString then (species, rest)
      else if all_name_chars nickname then (nickname, rest)
      else (species, rest)
  end.

End InputHandler.

(* ===================================================================== *)
(** * game/game_engine.py: battles and catches *)
(* ===================================================================== *)

(** The strings a battle returns. *)
Inductive battle_result : Set :=
| Victory      (* "victory" *)
| Defeat       (* "defeat" *)
| Draw         (* "draw" *)
| Run.         (* "run" *)

(** How one pass through the body of the battle loop ends. *)
Inductive flow : Set :=
| Next                          (* the end of the body is reached *)
| Continue                      (* a [continue], or a caught exception *)
| Return (r : battle_result).   (* a [return] *)

(** What a battle reads and writes: the engine's trainer, generator and
    input, and the locals of [battle_loop].  [player_pokemon] is the position
    in the team of the object the local variable names. *)
Record Battle : Type := mkBattle {
  trainer : Trainer;
  player_pokemon : nat;
  opponent_pokemon : Pokemon;
  is_wild : bool;
  battle_turn : Z;
  rng : Rng;
  stdin : list string
}.

Definition set_trainer (v : Trainer) (b : Battle) : Battle :=
  mkBattle v (player_pokemon b) (opponent_pokemon b) (is_wild b)
    (battle_turn b) (rng b) (stdin b).

Definition set_player_pokemon (v : nat) (b : Battle) : Battle :=
  mkBattle (trainer b) v (opponent_pokemon b) (is_wild b)
    (battle_turn b) (rng b) (stdin b).

Definition set_opponent_pokemon (v : Pokemon) (b : Battle) : Battle :=
  mkBattle (trainer b) (player_pokemon b) v (is_wild b)
    (battle_turn b) (rng b) (stdin b).

Definition set_battle_turn (v : Z) (b : Battle) : Battle :=
  mkBattle (trainer b) (player_pokemon b) (opponent_pokemon b) (is_wild b)
    v (rng b) (stdin b).

Definition set_rng (v : Rng) (b : Battle) : Battle :=
  mkBattle (trainer b) (player_pokemon b) (opponent_pokemon b) (is_wild b)
    (battle_turn b) v (stdin b).

Definition set_stdin (v : list string) (b : Battle) : Battle :=
  mkBattle (trainer b) (player_pokemon b) (opponent_pokemon b) (is_wild b)
    (battle_turn b) (rng b) v.

(** The object that [player_pokemon] names, and a write to it. *)
Definition player (b : Battle) : option Pokemon :=
  pokemon_team (trainer b) !! player_pokemon b.

Definition put_player (p : Pokemon) (b : Battle) : Battle :=
  set_trainer
    (set_team (<[player_pokemon b := p]> (pokemon_team (trainer b)))
       (trainer b))
    b.

Definition max_turns : Z := 100.

(** [GameEngine.get_effectiveness_message] *)
Definition get_effectiveness_message (attack_type : PokemonType)
    (target_types : list PokemonType) : string :=
  let effectiveness :=
    fold_left
      (fun e target_type =>
         (e * get_type_effectiveness_static attack_type target_type)%float)
      target_types 1.0%float in
  if (1.0 <? effectiveness)%float then "It's super effective!"
  else if (effectiveness <? 1.0)%float then "It's not very effective..."
  else EmptyString.

(** [GameEngine.calculate_exp_gain] *)
Definition calculate_exp_gain (player_pokemon opponent_pokemon : Pokemon)
  : res Z :=
  let base_exp := level opponent_pokemon * 10 in
  let level_diff :=
    Z.max 1 (level opponent_pokemon - level player_pokemon + 5) in
  q ← Py.truediv (base_exp * level_diff) 10;
  Py.int_of_float q.

(** [GameEngine.opponent_turn]: the player's creature (or the exception
    raised) and the generator after the call. *)
Definition opponent_turn (opponent_pokemon player_pokemon : Pokemon)
    (r : Rng) : res Pokemon * Rng :=
  match moves opponent_pokemon with
  | [] => (Ok player_pokemon, r)
  | _ =>
      match Random.choice (moves opponent_pokemon) r with
      | Raise e => (Raise e, r)
      | Ok (move, r1) =>
          match calculate_damage opponent_pokemon move player_pokemon r1 with
          | (Raise e, r2) => (Raise e, r2)
          | (Ok damage, r2) =>
              (Ok (fst (take_damage damage player_pokemon)), r2)
          end
      end
  end.

(** The branches of the battle menu.  Each gives the battle after the
    branch and how the branch ends. *)

(** [battle_choice == 1]: Fight. *)
Definition fight (b : Battle) : Battle * flow :=
  match player b with
  | None => (b, Continue)
  | Some p =>
      let '(move_choice, stdin') :=
        InputHandler.get_move_choice p (stdin b) in
      let b1 := set_stdin stdin' b in
      match move_choice with
      | None => (b1, Continue)
      | Some n =>
          if negb (n =? 0) && (n <=? Z.of_nat (length (moves p))) then
            match Py.index (moves p) (n - 1) with
            | Raise _ => (b1, Continue)
            | Ok (k, move) =>
                (* Use the move (reduce PP) *)
                let '(move', used) := Move.use_move move in
                if negb used then (b1, Continue)
                else
                  let p1 := set_moves (<[k := move']> (moves p)) p in
                  let b2 := put_player p1 b1 in
                  let '(damage, r') :=
                    calculate_damage p1 move' (opponent_pokemon b2)
                      (rng b2) in
                  let b3 := set_rng r' b2 in
                  match damage with
                  | Raise _ => (b3, Continue)
                  | Ok damage =>
                      (set_opponent_pokemon
                         (fst (take_damage damage (opponent_pokemon b3))) b3,
                       Next)
                  end
            end
          else (b1, Continue)
      end
  end.

(** [battle_choice == 2]: Items. *)
Definition items (b : Battle) : Battle * flow :=
  match player b with
  | None => (b, Continue)
  | Some p =>
      let healing_items :=
        Inventory.get_items_by_type "healing" (inventory (trainer b)) in
      match healing_items with
      | [] => (b, Continue)              (* "No usable items!" *)
      | _ =>
          let '(item_choice, stdin') :=
            InputHandler.get_item_choice healing_items (stdin b) in
          let b1 := set_stdin stdin' b in
          match item_choice with
          | None => (b1, Continue)
          | Some item =>
              if String.eqb item EmptyString then (b1, Continue)
              else
                (* Use healing item *)
                match use_item item p (trainer b1) with
                | Raise _ => (b1, Continue)
                | Ok (t', p', true) => (put_player p' (set_trainer t' b1), Next)
                | Ok (_, _, false) =>
                    (b1, Continue)       (* "Cannot use that item right now." *)
                end
          end
      end
  end.

(** [battle_choice == 3]: Pokemon. *)
Definition switch (b : Battle) : Battle * flow :=
  let team := pokemon_team (trainer b) in
  if 1 <? Z.of_nat (length team) then
    let '(pokemon_choice, stdin') :=
      InputHandler.get_pokemon_choice team (stdin b) in
    let b1 := set_stdin stdin' b in
    match pokemon_choice with
    | None => (b1, Continue)
    | Some n =>
        if negb (n =? 0) && (n <=? Z.of_nat (length team)) then
          match Py.index team (n - 1) with
          | Raise _ => (b1, Continue)
          | Ok (k, new_pokemon) =>
              if negb (Nat.eqb k (player_pokemon b1))
                 && negb (is_fainted new_pokemon)
              then (set_player_pokemon k b1, Next)
              else (b1, Continue)        (* "Cannot switch to that Pokemon!" *)
          end
        else (b1, Continue)
    end
  else (b, Continue).                    (* "No other Pokemon available!" *)

(** [battle_choice == 4]: Run. *)
Definition run (b : Battle) : Battle * flow :=
  if is_wild b then
    let '(u, r') := Random.random (rng b) in
    let b1 := set_rng r' b in
    if (u <? 0.8)%float then (b1, Return Run)
    else (b1, Next)                      (* "Can't escape!" *)
  else (b, Continue).            (* "Can't run from a trainer battle!" *)

(** The rest of the body, after the menu branch: the check for a fainted
    opponent, then the opponent's turn and the check for a fainted player. *)
Definition after_action (b : Battle) : Battle * flow :=
  match player b with
  | None => (b, Continue)
  | Some p =>
      (* Check if opponent fainted *)
      if is_fainted (opponent_pokemon b) then
        (* Award experience *)
        match calculate_exp_gain p (opponent_pokemon b) with
        | Raise _ => (b, Continue)
        | Ok exp_gained =>
            match gain_experience exp_gained p with
            | Raise _ => (b, Continue)
            | Ok (p1, _) =>
                let b1 := put_player p1 b in
                (* Check for level up *)
                match level_up p1 with
                | Raise _ => (b1, Continue)
                | Ok (p2, _) => (put_player p2 b1, Return Victory)
                end
            end
        end
      else
        (* Opponent's turn (if not fainted) *)
        let '(hit, r') := opponent_turn (opponent_pokemon b) p (rng b) in
        let b1 := set_rng r' b in
        match hit with
        | Raise _ => (b1, Continue)
        | Ok p1 =>
            let b2 := put_player p1 b1 in
            (* Check if player Pokemon fainted *)
            if is_fainted p1 then
              (* Check if player has other Pokemon *)
              if has_usable_pokemon (trainer b2) then
                let team := pokemon_team (trainer b2) in
                let '(pokemon_choice, stdin') :=
                  InputHandler.get_pokemon_choice team (stdin b2) in
                let b3 := set_stdin stdin' b2 in
                match pokemon_choice with
                | None => (b3, Return Defeat)
                | Some n =>
                    if negb (n =? 0) && (n <=? Z.of_nat (length team)) then
                      match Py.index team (n - 1) with
                      | Raise _ => (b3, Continue)
                      | Ok (k, new_pokemon) =>
                          if negb (is_fainted new_pokemon)
                          then (set_player_pokemon k b3, Next)
                          else (b3, Return Defeat)
                      end
                    else (b3, Return Defeat)
                end
              else (b2, Return Defeat)
            else (b2, Next)
        end
  end.

(** The body of the [while] of [battle_loop], after [battle_turn += 1]: the
    [try] block with its [except] (which continues the loop). *)
Definition battle_iteration (b : Battle) : Battle * flow :=
  match player b with
  | None => (b, Continue)
  | Some p =>
      (* Show battle scene: the HP bars divide by max_hp *)
      if (max_hp (opponent_pokemon b) =? 0) || (max_hp p =? 0)
      then (b, Continue)
      else
        (* Get player's choice *)
        let '(battle_choice, stdin') :=
          InputHandler.get_battle_choice (stdin b) in
        let b1 := set_stdin stdin' b in
        let battle_choice := default 4 battle_choice in
        let '(b2, fl) :=
          if battle_choice =? 1 then fight b1
          else if battle_choice =? 2 then items b1
          else if battle_choice =? 3 then switch b1
          else if battle_choice =? 4 then run b1
          else (b1, Next) in
        match fl with
        | Next => after_action b2
        | _ => (b2, fl)
        end
  end.

(** What [battle_loop] does once its [while] is left. *)
Definition after_loop (b : Battle) : Battle * battle_result :=
  if max_turns <=? battle_turn b then (b, Draw) else (b, Defeat).

(** The condition of the [while]. *)
Definition loop_condition (b : Battle) : bool :=
  match player b with
  | None => false
  | Some p =>
      negb (is_fainted p) && negb (is_fainted (opponent_pokemon b))
      && (battle_turn b <? max_turns)
  end.

(** The [while] of [battle_loop].  [n] bounds the passes; the loop's own
    counter stops it after [max_turns] passes, so [n = 100] is enough for a
    battle started at turn 0 (see [battle_loop_fuel]). *)
Fixpoint battle_loop_from (n : nat) (b : Battle) : Battle * battle_result :=
  match n with
  | O => after_loop b
  | S n' =>
      if loop_condition b then
        let b1 := set_battle_turn (battle_turn b + 1) b in
        match battle_iteration b1 with
        | (b2, Return r) => (b2, r)
        | (b2, _) => battle_loop_from n' b2
        end
      else after_loop b
  end.

(** [GameEngine.battle_loop] *)
Definition battle_loop (t : Trainer) (player_pokemon : nat)
    (opponent_pokemon : Pokemon) (is_wild : bool) (r : Rng)
    (stdin : list string) : Battle * battle_result :=
  battle_loop_from (Z.to_nat max_turns)
    (mkBattle t player_pokemon opponent_pokemon is_wild 0 r stdin).

(** [GameEngine.calculate_catch_rate] *)
Definition calculate_catch_rate (pokemon : Pokemon) : res float :=
  let base_rate := 0.3%float in
  (* Adjust for Pokemon's remaining HP *)
  q ← Py.truediv (current_hp pokemon) (max_hp pokemon);
  let hp_factor := (1.0 - q)%float in
  (* Adjust for Pokemon's level *)
  l ← Py.truediv (level pokemon) 100;
  let level_factor := Py.fmax 0.1 (1.0 - l)%float in
  mret (Py.fmin 0.9 (base_rate + hp_factor * 0.4 + level_factor * 0.2)%float).

(** The branch in which [GameEngine.attempt_catch] ends, named by what it
    displays. *)
Inductive catch_outcome : Set :=
| Declined         (* the player answers no *)
| NoPokeballs      (* "You don't have any Pokeballs!" *)
| Gotcha           (* [catch_pokemon] returned True: "Gotcha!" *)
| NotCaught        (* [catch_pokemon] returned False: "... sent to the PC!" *)
| BrokeFree.       (* the engine's own draw failed: "... broke free!" *)

(** The caught creature is the object [add_pokemon] stored last, in the team
    when it had room and in the box otherwise; renaming it renames that
    entry. *)
Definition set_last (f : Pokemon -> Pokemon) (l : list Pokemon)
  : list Pokemon :=
  match l with
  | [] => []
  | _ => alter f (length l - 1)%nat l
  end.

Definition rename_caught (in_team : bool) (nickname : string) (t : Trainer)
  : Trainer :=
  if in_team then set_team (set_last (set_nickname nickname) (pokemon_team t)) t
  else set_box (set_last (set_nickname nickname) (pokemon_box t)) t.

(** [GameEngine.attempt_catch]: the trainer, the wild creature, the generator
    and the input after the call, and the branch taken. *)
Definition attempt_catch (wild_pokemon : Pokemon) (t : Trainer) (r : Rng)
    (stdin : list string)
  : res (Trainer * Pokemon * Rng * list string * catch_outcome) :=
  let '(yes, stdin1) := InputHandler.get_yes_no stdin in
  if yes then
    (* Check if trainer has Pokeballs *)
    let pokeballs := Inventory.get_items_by_type "pokeball" (inventory t) in
    match pokeballs with
    | [] => Ok (t, wild_pokemon, r, stdin1, NoPokeballs)
    | (pokeball_name, _) :: _ =>
        (* Calculate catch rate *)
        catch_rate ← calculate_catch_rate wild_pokemon;
        let '(u, r1) := Random.random r in
        if (u <? catch_rate)%float then
          match catch_pokemon wild_pokemon pokeball_name t r1 with
          | Raise e => Raise e
          | Ok (t1, wild1, r2, true) =>
              (* Ask for nickname *)
              let '(nickname, stdin2) :=
                InputHandler.get_pokemon_nickname (species wild1) stdin1 in
              let in_team :=
                Z.of_nat (length (pokemon_team t)) <? max_team_size t in
              let '(t2, wild2) :=
                if String.eqb nickname EmptyString then (t1, wild1)
                else (rename_caught in_team nickname t1,
                      set_nickname nickname wild1) in
              Ok (add_pokemon_caught t2, wild2, r2, stdin2, Gotcha)
          | Ok (t1, wild1, r2, false) => Ok (t1, wild1, r2, stdin1, NotCaught)
          end
        else
          (* Still use the pokeball *)
          let t1 :=
            set_inventory
              (fst (Inventory.remove_item pokeball_name 1 (inventory t))) t in
          Ok (t1, wild_pokemon, r1, stdin1, BrokeFree)
    end
  else Ok (t, wild_pokemon, r, stdin1, Declined).

(** What [start_battle] returns: "no_pokemon" or the battle's result. *)
Inductive start_result : Set :=
| NoPokemon
| Ended (r : battle_result).

(** [GameEngine.start_battle]: the trainer, the opponent, the generator and
    the input after the call, and the returned string.  An exception raised
    outside the loop's [try] leaves the call. *)
Definition start_battle (opponent : Pokemon) (is_wild : bool)
    (t : Trainer) (r : Rng) (input : list string)
  : res (Trainer * Pokemon * Rng * list string * start_result) :=
  match get_active_pokemon t with
  | None => Ok (t, opponent, r, input, NoPokemon)
  | Some i =>
      let '(b, battle_result) := battle_loop t i opponent is_wild r input in
      let t1 := trainer b in
      let opponent1 := opponent_pokemon b in
      match battle_result with
      | Victory =>
          let t2 :=
            set_stats (stats_pokemon_caught t1) (stats_battles_won t1 + 1)
              (stats_battles_lost t1) (stats_items_used t1) t1 in
          match pokemon_team t2 !! i with
          | None => Ok (t2, opponent1, rng b, stdin b, Ended Victory)
          | Some p =>
              (* Gain experience *)
              exp_gained ← calculate_exp_gain p opponent1;
              '(p1, _) ← gain_experience exp_gained p;
              let t3 := set_team (<[i := p1]> (pokemon_team t2)) t2 in
              (* Attempt to catch if wild *)
              if is_wild then
                '(t4, opponent2, r', stdin', _) ←
                  attempt_catch opponent1 t3 (rng b) (stdin b);
                Ok (t4, opponent2, r', stdin', Ended Victory)
              else Ok (t3, opponent1, rng b, stdin b, Ended Victory)
          end
      | Defeat =>
          let t2 :=
            set_stats (stats_pokemon_caught t1) (stats_battles_won t1)
              (stats_battles_lost t1 + 1) (stats_items_used t1) t1 in
          Ok (t2, opponent1, rng b, stdin b, Ended Defeat)
      | _ => Ok (t1, opponent1, rng b, stdin b, Ended battle_result)
      end
  end.

(* ===================================================================== *)
(** * Notions used by the statements *)
(* ===================================================================== *)

(** ** The integer readings of the float formulas *)

(** [floor(((2*base + 15) * level) / 100) + 5] *)
Definition stat (base level : Z) : Z := (2 * base + 15) * level / 100 + 5.

(** [floor(1.2 * level^2)] *)
Definition exp_threshold (level : Z) : Z := 6 * level ^ 2 / 5.

(** [f z && f (z+1) && ...], over [n] consecutive integers. *)
Fixpoint all_from (f : Z -> bool) (n : nat) (z : Z) : bool :=
  match n with
  | O => true
  | S n' => f z && all_from f n' (z + 1)
  end.

(** The float computation of [calculate_stat] on the numerator [n] agrees
    with the integer quotient. *)
Definition stat_check (n : Z) : bool :=
  match (q ← Py.truediv n 100; Py.int_of_float q) with
  | Ok v => v =? n / 100
  | Raise _ => false
  end.

(** The float computation of the experience threshold agrees with
    [exp_threshold]. *)
Definition exp_check (l : Z) : bool :=
  match calculate_exp_to_next_level l with
  | Ok v => v =? exp_threshold l
  | Raise _ => false
  end.

(** The float computation [int(10 * n / 10)] gives [n] back. *)
Definition gain_check (n : Z) : bool :=
  match (q ← Py.truediv (10 * n) 10; Py.int_of_float q) with
  | Ok v => v =? n
  | Raise _ => false
  end.

(** ** Creatures of the game *)

(** Base stats as the species table has them: bytes. *)
Definition base_in_range (s : Stats.t) : Prop :=
  (0 <= Stats.hp s <= 255) /\ (0 <= Stats.attack s <= 255)
  /\ (0 <= Stats.defense s <= 255) /\ (0 <= Stats.special_attack s <= 255)
  /\ (0 <= Stats.special_defense s <= 255) /\ (0 <= Stats.speed s <= 255).

(** The HP invariant of the specification. *)
Definition hp_invariant (p : Pokemon) : Prop := 0 <= current_hp p <= max_hp p.

(** What the constructor establishes and every mutation keeps: a level of
    the game, base stats of the table, the HP invariant, and a maximum HP
    that is the one derived from the base HP and the level. *)
Definition well_formed (p : Pokemon) : Prop :=
  0 <= level p <= 100 /\ base_in_range (base_stats p)
  /\ max_hp p = stat (Stats.hp (base_stats p)) (level p)
  /\ hp_invariant p.

(** The mutations of a creature's HP. *)
Inductive mutation : Type :=
| TakeDamage (damage : Z)
| Heal (amount : option Z)
| LevelUp
| GainExperience (amount : Z).

(** Amounts of damage and healing are not negative. *)
Definition mutation_ok (m : mutation) : Prop :=
  match m with
  | TakeDamage damage => 0 <= damage
  | Heal (Some amount) => 0 <= amount
  | _ => True
  end.

Definition mutate (m : mutation) (p : Pokemon) : res Pokemon :=
  match m with
  | TakeDamage damage => Ok (fst (take_damage damage p))
  | Heal amount => Ok (heal amount p)
  | LevelUp => '(p', _) ← level_up p; Ok p'
  | GainExperience amount => '(p', _) ← gain_experience amount p; Ok p'
  end.

Fixpoint mutate_all (ms : list mutation) (p : Pokemon) : res Pokemon :=
  match ms with
  | [] => Ok p
  | m :: ms' => p' ← mutate m p; mutate_all ms' p'
  end.

(** [take_damage] called once per amount of a list. *)
Definition take_damages (amounts : list Z) (p : Pokemon) : Pokemon :=
  fold_left (fun q amount => fst (take_damage amount q)) amounts p.

(** [gain_experience] called once per amount of a list. *)
Fixpoint gain_all (amounts : list Z) (p : Pokemon) : res Pokemon :=
  match amounts with
  | [] => Ok p
  | amount :: rest => '(p', _) ← gain_experience amount p; gain_all rest p'
  end.

(** The experience gain as the specification words it: add the amount,
    then level up while the threshold is reached (not beyond level 100),
    keeping the experience; report whether a threshold was crossed. *)
Fixpoint spec_level_ups (n : nat) (p : Pokemon) (crossed : bool)
  : Pokemon * bool :=
  match n with
  | O => (p, crossed)
  | S n' =>
      if (exp_threshold (level p) <=? experience p) && (level p <? 100) then
        let l := level p + 1 in
        let b := base_stats p in
        let max_hp' := stat (Stats.hp b) l in
        spec_level_ups n'
          (mkPokemon (species p) (nickname p) l (experience p)
             (exp_threshold l) (species_data p) (types p) b max_hp'
             (current_hp p + (max_hp' - max_hp p)) (stat (Stats.attack b) l)
             (stat (Stats.defense b) l) (stat (Stats.special_attack b) l)
             (stat (Stats.special_defense b) l) (stat (Stats.speed b) l)
             (status_condition p) (status_turns p) (moves p)
             (original_trainer p) (catch_location p) (catch_level p))
          true
      else (p, crossed)
  end.

Definition spec_gain_experience (amount : Z) (p : Pokemon) : Pokemon * bool :=
  spec_level_ups 100 (set_experience (experience p + amount) p) false.

(** Whether the species evolves by level and that level is reached: what
    [level_up] returns after a level-up. *)
Definition evolution_due (p : Pokemon) (l : Z) : bool :=
  match Species.evolution (species_data p) with
  | Some ev =>
      match Species.ev_level ev with
      | Some e => e <=? l
      | None => false
      end
  | None => false
  end.

(** A move with another accuracy. *)
Definition set_accuracy (a : Z) (m : Move.t) : Move.t :=
  Move.mk (Move.name m) (Move.type m) (Move.power m) a (Move.pp m)
    (Move.max_pp m).

(** ** The capture formulas as the specification words them *)

Definition spec_status_bonus (status : option string) : float :=
  if bool_decide (status = Some "sleep" \/ status = Some "freeze")
  then 2.0%float
  else if bool_decide (status = Some "paralyze" \/ status = Some "burn"
                       \/ status = Some "poison")
  then 1.5%float
  else 1.0%float.

(** [min(1.0, (base_catch_rate * ball_modifier * hp_factor * status_bonus)
    / 255)] with [hp_factor = (3*max_hp - 2*current_hp) / (3*max_hp)]. *)
Definition spec_probability (base_catch_rate : Z) (ball_modifier : float)
    (max_hp current_hp : Z) (status : option string) : float :=
  let hp_factor :=
    (Py.float_of_Z (3 * max_hp - 2 * current_hp)
     / Py.float_of_Z (3 * max_hp))%float in
  Py.fmin 1.0
    (Py.float_of_Z base_catch_rate * ball_modifier * hp_factor
     * spec_status_bonus status / 255)%float.

(** The catch-rate modifier of a ball: its table entry, 1.0 without one. *)
Definition ball_modifier_of (pokeball_type : string) : float :=
  match get_item_database pokeball_type with
  | Some d => default 1.0%float (Item.catch_rate d)
  | None => 1.0%float
  end.

(** [min(0.9, 0.3 + (1 - current_hp/max_hp)*0.4
    + max(0.1, 1 - level/100)*0.2)] *)
Definition spec_gate (current_hp max_hp level : Z) : float :=
  Py.fmin 0.9
    (0.3 + (1.0 - Py.float_of_Z current_hp / Py.float_of_Z max_hp) * 0.4
     + Py.fmax 0.1 (1.0 - Py.float_of_Z level / Py.float_of_Z 100) * 0.2)%float.

(** ** Sample creatures and battles *)

Definition bulbasaur5 : Pokemon :=
  mkPokemon "Bulbasaur" "Bulbasaur" 5 0 30 (get_species_data "Bulbasaur")
    [GRASS; POISON] (Stats.mk 45 49 49 65 65 45) 10 10 10 10 12 12 10
    None 0 (get_initial_moves "Bulbasaur") None None 5.

Definition charmander5 : Pokemon :=
  mkPokemon "Charmander" "Charmander" 5 0 30 (get_species_data "Charmander")
    [FIRE] (Stats.mk 39 52 43 60 50 65) 9 9 10 10 11 10 12
    None 0 (get_initial_moves "Charmander") None None 5.

Definition rattata3 : Pokemon :=
  mkPokemon "Rattata" "Rattata" 3 0 10 (get_species_data "Rattata")
    [NORMAL] (Stats.mk 30 56 35 25 35 72) 7 7 8 7 6 7 9
    None 0 (get_initial_moves "Rattata") None None 3.

Definition pikachu100 : Pokemon :=
  mkPokemon "Pikachu" "Pikachu" 100 0 12000 (get_species_data "Pikachu")
    [ELECTRIC] (Stats.mk 35 55 40 50 50 90) 90 90 130 100 120 120 200
    None 0 (get_initial_moves "Pikachu") None None 100.

(** A trainer whose team is one level-5 Charmander. *)
Definition red : Trainer := set_team [charmander5] (new_trainer "Red").

(** The creature one level up, in integer arithmetic: the level grows by
    one, the experience restarts at 0, threshold and stats are those of the
    new level, and the current HP moves by the change of the maximum. *)
Definition leveled (p : Pokemon) : Pokemon :=
  let l := level p + 1 in
  let b := base_stats p in
  let max_hp' := stat (Stats.hp b) l in
  mkPokemon (species p) (nickname p) l 0 (exp_threshold l) (species_data p)
    (types p) b max_hp' (current_hp p + (max_hp' - max_hp p))
    (stat (Stats.attack b) l) (stat (Stats.defense b) l)
    (stat (Stats.special_attack b) l) (stat (Stats.special_defense b) l)
    (stat (Stats.speed b) l) (status_condition p) (status_turns p) (moves p)
    (original_trainer p) (catch_location p) (catch_level p).

(** The same trainer without healing items. *)
Definition red_without_potions : Trainer :=
  set_inventory [("Pokeball", 10)] red.

(** Charmander's moves, Tackle given the accuracy 0. *)
Definition charmander5_blind : Pokemon :=
  set_moves [Move.mk "Tackle" NORMAL 40 0 35 35;
             Move.mk "Growl" NORMAL 0 100 40 40;
             Move.mk "Ember" FIRE 40 100 25 25] charmander5.

(** A wild Rattata met by [red]; the player is about to pick a move. *)
Definition blind_fight : Battle :=
  mkBattle (set_team [charmander5_blind] red) 0 rattata3 true 1
    (mkRng [0.5%float] []) ["1"].

(** ** Selections the battle loop turns down *)

(** The HP bars of the battle scene can be drawn. *)
Definition scene_ok (b : Battle) : Prop :=
  exists p, player b = Some p /\ max_hp p <> 0
            /\ max_hp (opponent_pokemon b) <> 0.

(** [rejected b input']: at the menu of battle [b] the player makes a
    selection that the loop turns down with [continue]; [input'] is the
    input left after it. *)
Inductive rejected (b : Battle) : list string -> Prop :=
| NoMoveChosen input p input' :
    (* Fight, and the move prompt is cancelled *)
    InputHandler.get_battle_choice (stdin b) = (Some 1, input) ->
    player b = Some p ->
    InputHandler.get_move_choice p input = (None, input') ->
    rejected b input'
| NoUsableItems input :
    (* Items, with no healing item in the bag *)
    InputHandler.get_battle_choice (stdin b) = (Some 2, input) ->
    Inventory.get_items_by_type "healing" (inventory (trainer b)) = [] ->
    rejected b input
| NoItemChosen input input' :
    (* Items, and the item prompt is cancelled *)
    InputHandler.get_battle_choice (stdin b) = (Some 2, input) ->
    InputHandler.get_item_choice
      (Inventory.get_items_by_type "healing" (inventory (trainer b))) input
    = (None, input') ->
    rejected b input'
| NoOtherPokemon input :
    (* Pokemon, with a team of one *)
    InputHandler.get_battle_choice (stdin b) = (Some 3, input) ->
    (length (pokemon_team (trainer b)) <= 1)%nat ->
    rejected b input
| NoPokemonChosen input input' :
    (* Pokemon, and the team prompt is cancelled *)
    InputHandler.get_battle_choice (stdin b) = (Some 3, input) ->
    (1 < length (pokemon_team (trainer b)))%nat ->
    InputHandler.get_pokemon_choice (pokemon_team (trainer b)) input
    = (None, input') ->
    rejected b input'
| ActivePokemonChosen input n input' :
    (* Pokemon, and the creature already fighting is chosen *)
    InputHandler.get_battle_choice (stdin b) = (Some 3, input) ->
    (1 < length (pokemon_team (trainer b)))%nat ->
    InputHandler.get_pokemon_choice (pokemon_team (trainer b)) input
    = (Some n, input') ->
    Z.to_nat (n - 1) = player_pokemon b ->
    rejected b input'
| NoRunFromTrainer input :
    (* Run, in a trainer battle *)
    InputHandler.get_battle_choice (stdin b) = (Some 4, input) ->
    is_wild b = false ->
    rejected b input.

(** [red], without healing items, meets a wild Rattata and asks for the
    bag. *)
Definition empty_bag_battle : Battle :=
  mkBattle red_without_potions 0 rattata3 true 0 (mkRng [] [])
    ["2"; "1"; "1"].

(* ===================================================================== *)
(** * More of the source *)
(* ===================================================================== *)

(** ** game/pokemon.py *)

(** [Move.restore_pp]; [None] is the call without an amount. *)
Definition restore_pp (amount : option Z) (m : Move.t) : Move.t :=
  match amount with
  | None =>
      Move.mk (Move.name m) (Move.type m) (Move.power m) (Move.accuracy m)
        (Move.max_pp m) (Move.max_pp m)
  | Some a =>
      Move.mk (Move.name m) (Move.type m) (Move.power m) (Move.accuracy m)
        (Z.min (Move.max_pp m) (Move.pp m + a)) (Move.max_pp m)
  end.

(** [Pokemon.can_evolve] *)
Definition can_evolve (p : Pokemon) : bool :=
  match Species.evolution (species_data p) with
  | None => false
  | Some ev =>
      match Species.ev_level ev with
      | Some l => l <=? level p
      | None => false
      end
  end.

(** [Pokemon.evolve]: the creature after the call, and the returned old
    species ([None] when the species has no evolution). *)
Definition evolve (p : Pokemon) : res (Pokemon * option string) :=
  match Species.evolution (species_data p) with
  | None => Ok (p, None)
  | Some ev =>
      let old_species := species p in
      let species' := Species.evolves_to ev in
      let data := get_species_data species' in
      (* Recalculate stats with new base stats *)
      let base := Species.base_stats data in
      let old_max_hp := max_hp p in
      max_hp' ← Stats.calculate_stat (Stats.hp base) (level p);
      let current_hp' := current_hp p + (max_hp' - old_max_hp) in
      attack' ← Stats.calculate_stat (Stats.attack base) (level p);
      defense' ← Stats.calculate_stat (Stats.defense base) (level p);
      special_attack' ←
        Stats.calculate_stat (Stats.special_attack base) (level p);
      special_defense' ←
        Stats.calculate_stat (Stats.special_defense base) (level p);
      speed' ← Stats.calculate_stat (Stats.speed base) (level p);
      Ok (mkPokemon species' (nickname p) (level p) (experience p)
            (experience_to_next_level p) data (Species.types data) base
            max_hp' current_hp' attack' defense' special_attack'
            special_defense' speed' (status_condition p) (status_turns p)
            (moves p) (original_trainer p) (catch_location p)
            (catch_level p),
          Some old_species)
  end.

(** ** game/trainer.py *)

(** [Trainer.heal_all_pokemon] *)
Definition heal_all_pokemon (t : Trainer) : Trainer :=
  set_team (map (heal None) (pokemon_team t)) t.

(** [Trainer.use_item] called on a member of the team, the way the engine
    calls it ([self.trainer.use_item(item_choice, player_pokemon)]): the
    target is the object at position [i] of [pokemon_team] (which holds
    each object once), so the team shows what the call did to it. *)
Definition use_item_on_member (item_name : string) (i : nat) (t : Trainer)
  : res (Trainer * bool) :=
  match pokemon_team t !! i with
  | None => Raise IndexError
  | Some target_pokemon =>
      match use_item item_name target_pokemon t with
      | Raise e => Raise e
      | Ok (t', target', used) =>
          Ok (set_team (<[i := target']> (pokemon_team t')) t', used)
      end
  end.

(** The dict of a saved creature ([Trainer.pokemon_to_dict]).  A key that
    [dict_to_pokemon] reads with [.get] may be missing ([None]); the keys it
    does not read back into a modelled field are left out, but for
    [max_hp]. *)
Module Saved.

Record move : Type := mkMove {
  name : string;
  pp : option Z
}.

Record t : Type := mk {
  species : string;
  nickname : option string;
  level : Z;
  experience : option Z;
  current_hp : option Z;
  max_hp : Z;
  moves : list move;
  status_condition : option string;
  original_trainer : option string;
  catch_location : option string;
  catch_level : option Z
}.

End Saved.

(** [Trainer.pokemon_to_dict] *)
Definition pokemon_to_dict (p : Pokemon) : Saved.t :=
  Saved.mk (species p) (Some (nickname p)) (level p) (Some (experience p))
    (Some (current_hp p)) (max_hp p)
    (map (fun m => Saved.mkMove (Move.name m) (Some (Move.pp m))) (moves p))
    (status_condition p) (original_trainer p) (catch_location p)
    (Some (catch_level p)).

(** The loop of [dict_to_pokemon] that restores the PP: the move at
    position [i] takes the PP of the saved move at position [i], if there is
    one. *)
Fixpoint restore_move_pp (moves : list Move.t) (move_data : list Saved.move)
  : list Move.t :=
  match moves, move_data with
  | m :: moves', d :: move_data' =>
      Move.mk (Move.name m) (Move.type m) (Move.power m) (Move.accuracy m)
        (default (Move.max_pp m) (Saved.pp d)) (Move.max_pp m)
      :: restore_move_pp moves' move_data'
  | _, _ => moves
  end.

(** [Trainer.dict_to_pokemon] *)
Definition dict_to_pokemon (pokemon_data : Saved.t) : res Pokemon :=
  pokemon ← new_pokemon (Saved.species pokemon_data)
               (Saved.level pokemon_data);
  Ok (mkPokemon (species pokemon)
        (default (species pokemon) (Saved.nickname pokemon_data))
        (level pokemon)
        (default 0 (Saved.experience pokemon_data))
        (experience_to_next_level pokemon) (species_data pokemon)
        (types pokemon) (base_stats pokemon) (max_hp pokemon)
        (default (max_hp pokemon) (Saved.current_hp pokemon_data))
        (attack pokemon) (defense pokemon) (special_attack pokemon)
        (special_defense pokemon) (speed pokemon)
        (Saved.status_condition pokemon_data) (status_turns pokemon)
        (restore_move_pp (moves pokemon) (Saved.moves pokemon_data))
        (Saved.original_trainer pokemon_data)
        (Saved.catch_location pokemon_data)
        (default (level pokemon) (Saved.catch_level pokemon_data))).

(** ** game/game_engine.py *)

(** The move table of [GameEngine.create_trainer_pokemon]. *)
Definition trainer_move_database (name : string) : option Move.t :=
  if String.eqb name "Tackle" then Some (Move.mk "Tackle" NORMAL 40 100 35 35)
  else if String.eqb name "Growl" then Some (Move.mk "Growl" NORMAL 0 100 40 40)
  else if String.eqb name "Scratch" then
    Some (Move.mk "Scratch" NORMAL 40 100 35 35)
  else if String.eqb name "Tail Whip" then
    Some (Move.mk "Tail Whip" NORMAL 0 100 30 30)
  else if String.eqb name "Defense Curl" then
    Some (Move.mk "Defense Curl" NORMAL 0 100 40 40)
  else if String.eqb name "Screech" then
    Some (Move.mk "Screech" NORMAL 0 85 40 40)
  else if String.eqb name "Bind" then Some (Move.mk "Bind" NORMAL 15 85 20 20)
  else if String.eqb name "Water Gun" then
    Some (Move.mk "Water Gun" WATER 40 100 25 25)
  else if String.eqb name "Harden" then
    Some (Move.mk "Harden" NORMAL 0 100 30 30)
  else if String.eqb name "Horn Attack" then
    Some (Move.mk "Horn Attack" NORMAL 65 100 25 25)
  else if String.eqb name "Fury Attack" then
    Some (Move.mk "Fury Attack" NORMAL 15 85 20 20)
  else if String.eqb name "Dig" then Some (Move.mk "Dig" GROUND 80 100 10 10)
  else if String.eqb name "Slash" then
    Some (Move.mk "Slash" NORMAL 70 100 20 20)
  else if String.eqb name "Sand Attack" then
    Some (Move.mk "Sand Attack" GROUND 0 100 15 15)
  else if String.eqb name "Poison Sting" then
    Some (Move.mk "Poison Sting" POISON 15 100 35 35)
  else if String.eqb name "Body Slam" then
    Some (Move.mk "Body Slam" NORMAL 85 100 15 15)
  else if String.eqb name "Thrash" then
    Some (Move.mk "Thrash" NORMAL 120 100 10 10)
  else if String.eqb name "Take Down" then
    Some (Move.mk "Take Down" NORMAL 90 85 20 20)
  else None.

(** [GameEngine.create_trainer_pokemon]; [custom_moves] is the key "moves"
    of the data, when present.  (A name listed twice would put one [Move]
    object twice in the list; no table of the engine lists a name twice.) *)
Definition create_trainer_pokemon (species : string) (level : Z)
    (custom_moves : option (list string)) : res Pokemon :=
  pokemon ← new_pokemon species level;
  match custom_moves with
  | None => Ok pokemon
  | Some names =>
      Ok (set_moves
            (map (fun move_name =>
                    match trainer_move_database move_name with
                    | Some m => m
                    | None =>
                        (* Default move if not found *)
                        Move.mk move_name NORMAL 40 100 25 25
                    end)
                 names)
            pokemon)
  end.

(** [GameEngine.get_starter_pokemon], over the table of
    [initialize_starter_pokemon]. *)
Definition get_starter_pokemon (choice : string) : res Pokemon :=
  if String.eqb choice "Charmander"
  then create_trainer_pokemon "Charmander" 5 (Some ["Scratch"; "Growl"])
  else if String.eqb choice "Squirtle"
  then create_trainer_pokemon "Squirtle" 5 (Some ["Tackle"; "Tail Whip"])
  else create_trainer_pokemon "Bulbasaur" 5 (Some ["Tackle"; "Growl"]).

(** The loop of [GameEngine.visit_pokemon_center]: [heal()] on each member
    of the team. *)
Definition visit_pokemon_center (t : Trainer) : Trainer :=
  set_team (map (heal None) (pokemon_team t)) t.

(** ** Notions used by the further statements *)

(** A dict as Python keeps it: one entry per key, and [remove_item] leaves
    no entry at quantity 0. *)
Definition inventory_ok (items : Inventory.t) : Prop :=
  NoDup (map fst items) /\ Forall (fun e => 0 < snd e) items.

(** A move's PP is between 0 and its maximum. *)
Definition pp_ok (m : Move.t) : Prop := 0 <= Move.pp m <= Move.max_pp m.

(** The creature as the constructor would build it now from its species and
    level: what a save does not keep is the rest. *)
Definition fresh (p : Pokemon) : Pokemon :=
  mkPokemon (species p) (species p) (level p) 0 (experience_to_next_level p)
    (species_data p) (types p) (base_stats p) (max_hp p) (max_hp p)
    (attack p) (defense p) (special_attack p) (special_defense p) (speed p)
    None 0
    (map (fun m => Move.mk (Move.name m) (Move.type m) (Move.power m)
                     (Move.accuracy m) (Move.max_pp m) (Move.max_pp m))
         (moves p))
    None None (level p).

(** A creature of the species table at a level of the game: the constructor
    gives it back once experience, HP, status, PP, nickname and catch
    information are reset. *)
Definition stock (p : Pokemon) : Prop :=
  0 <= level p <= 100 /\ status_turns p = 0
  /\ new_pokemon (species p) (level p) = Ok (fresh p).

(** What happens to a creature between two saves. *)
Inductive event : Type :=
| Mutation (m : mutation)
| UseMove (k : nat)
| Rename (nickname : string)
| Caught (trainer location : string).

Definition happen (e : event) (p : Pokemon) : res Pokemon :=
  match e with
  | Mutation m => mutate m p
  | UseMove k =>
      match moves p !! k with
      | Some m => Ok (set_moves (<[k := fst (Move.use_move m)]> (moves p)) p)
      | None => Ok p
      end
  | Rename nickname => Ok (set_nickname nickname p)
  | Caught trainer location => Ok (set_caught trainer location p)
  end.

Fixpoint happen_all (es : list event) (p : Pokemon) : res Pokemon :=
  match es with
  | [] => Ok p
  | e :: es' => p' ← happen e p; happen_all es' p'
  end.

(** Every type, for checks by enumeration. *)
Definition all_types : list PokemonType :=
  [NORMAL; FIRE; WATER; ELECTRIC; GRASS; ICE; FIGHTING; POISON; GROUND;
   FLYING; PSYCHIC; BUG; ROCK; GHOST; DRAGON; DARK; STEEL; FAIRY].

(** The multiplier of an attack against one or two types is one of the six
    values, the display's own product is the same number, and the message
    says on which side of 1 it is. *)
Definition effectiveness_check (a : PokemonType) (ts : list PokemonType)
  : bool :=
  let e := get_type_effectiveness a ts in
  existsb (fun v => PrimFloat.eqb e v) [0; 0.25; 0.5; 1; 2; 4]%float
  && String.eqb (get_effectiveness_message a ts)
       (if (1 <? e)%float then "It's super effective!"
        else if (e <? 1)%float then "It's not very effective..."
        else EmptyString).

(** What a battle leaves alone in the trainer: everything but the team's
    creatures, the bag and the counter of items used. *)
Definition same_roster (t t' : Trainer) : Prop :=
  length (pokemon_team t') = length (pokemon_team t)
  /\ pokemon_box t' = pokemon_box t
  /\ max_team_size t' = max_team_size t
  /\ name t' = name t /\ current_location t' = current_location t
  /\ pokedex_seen t' = pokedex_seen t
  /\ pokedex_caught t' = pokedex_caught t
  /\ stats_pokemon_caught t' = stats_pokemon_caught t
  /\ stats_battles_won t' = stats_battles_won t
  /\ stats_battles_lost t' = stats_battles_lost t.

(** [use_move] called [n] times in a row on a move: the move after the
    calls and the flags returned, in order. *)
Fixpoint use_times (n : nat) (m : Move.t) : Move.t * list bool :=
  match n with
  | O => (m, [])
  | S n' =>
      let '(m1, used) := Move.use_move m in
      let '(m2, flags) := use_times n' m1 in
      (m2, used :: flags)
  end.

(** A move with another PP. *)
Definition set_pp (v : Z) (m : Move.t) : Move.t :=
  Move.mk (Move.name m) (Move.type m) (Move.power m) (Move.accuracy m) v
    (Move.max_pp m).

(** The creature that the constructor builds, in integer arithmetic. *)
Definition constructed (species : string) (l : Z) : Pokemon :=
  let data := get_species_data species in
  let b := Species.base_stats data in
  mkPokemon species species l 0 (exp_threshold l) data (Species.types data) b
    (stat (Stats.hp b) l) (stat (Stats.hp b) l) (stat (Stats.attack b) l)
    (stat (Stats.defense b) l) (stat (Stats.special_attack b) l)
    (stat (Stats.special_defense b) l) (stat (Stats.speed b) l)
    None 0 (get_initial_moves species) None None l.

(** The entry that [get_species_data] gives to a species it does not
    list. *)
Definition unlisted_species : Species.t :=
  Species.mk [NORMAL] (Stats.mk 50 50 50 50 50 50) ["Unknown"] None.

(** The checks of the type chart, over every attack type and every defender
    of one or two types. *)
Definition chart_check : bool :=
  forallb
    (fun a =>
       forallb
         (fun t1 =>
            effectiveness_check a [t1]
            && forallb (fun t2 => effectiveness_check a [t1; t2]) all_types)
         all_types)
    all_types.

(** What a battle keeps of the trainer [t] and of the opponent [o]: the
    roster (see [same_roster]), the species of each team member, no item
    gained, and everything of the opponent but its current HP. *)
Definition battle_keeps (t : Trainer) (o : Pokemon) (t' : Trainer)
    (o' : Pokemon) : Prop :=
  same_roster t t'
  /\ map species (pokemon_team t') = map species (pokemon_team t)
  /\ (forall item,
        Inventory.held (inventory t') item
        <= Inventory.held (inventory t) item)
  /\ o' = set_current_hp (current_hp o') o.

(** What one step of a battle keeps, and what the way it ends tells. *)
Definition step_ok (b : Battle) (x : Battle * flow) : Prop :=
  battle_keeps (trainer b) (opponent_pokemon b) (trainer (fst x))
    (opponent_pokemon (fst x))
  /\ is_wild (fst x) = is_wild b
  /\ match snd x with
     | Return Run => is_wild b = true
     | Return Victory => is_fainted (opponent_pokemon (fst x)) = true
     | Return Draw => False
     | _ => True
     end.

(** ** Proof steps shared by the battle lemmas *)

Ltac unfold_setters :=
  unfold set_stdin, set_rng, put_player, set_trainer, set_opponent_pokemon,
    set_player_pokemon, set_battle_turn in *.

Ltac branch_cases :=
  repeat (first
    [ reflexivity
    | match goal with
      | |- context [match ?x with _ => _ end] => destruct x eqn:?
      end ]).

(* ===================================================================== *)
(** * The float formulas on the game's numbers *)
(* ===================================================================== *)

(** The sample creatures are what the constructor builds. *)
Lemma sample_creatures :
  new_pokemon "Bulbasaur" 5 = Ok bulbasaur5
  /\ new_pokemon "Charmander" 5 = Ok charmander5
  /\ new_pokemon "Rattata" 3 = Ok rattata3
  /\ new_pokemon "Pikachu" 100 = Ok pikachu100.
Proof. vm_compute. repeat split; reflexivity. Qed.

Lemma all_from_spec (f : Z -> bool) (n : nat) (z : Z) :
  all_from f n z = true -> forall x, z <= x < z + Z.of_nat n -> f x = true.
Proof.
  revert z. induction n as [|n IH]; intros z H x Hx; [lia|].
  simpl in H. apply andb_true_iff in H as [Hz Hrest].
  destruct (Z.eq_dec x z) as [->|Hne]; [exact Hz|].
  apply (IH (z + 1) Hrest). lia.
Qed.

(** Checked by evaluation: every numerator a level up to 100 and a base stat
    up to 255 can give. *)
Lemma stat_table : all_from stat_check (Z.to_nat 52501) 0 = true.
Proof. vm_compute. reflexivity. Qed.

Lemma exp_table : all_from exp_check (Z.to_nat 101) 0 = true.
Proof. vm_compute. reflexivity. Qed.

Lemma gain_table : all_from gain_check (Z.to_nat 10501) 0 = true.
Proof. vm_compute. reflexivity. Qed.

(** On the game's numbers the float computation of a stat is the integer
    formula. *)
Lemma calculate_stat_exact (base level : Z) :
  0 <= base <= 255 -> 0 <= level <= 100 ->
  Stats.calculate_stat base level = Ok (stat base level).
Proof.
  intros Hb Hl.
  assert (Hn : 0 <= (2 * base + 15) * level < 0 + Z.of_nat (Z.to_nat 52501))
    by nia.
  pose proof (all_from_spec _ _ _ stat_table _ Hn) as Hc.
  unfold stat_check in Hc. unfold Stats.calculate_stat, stat.
  destruct (Py.truediv ((2 * base + 15) * level) 100) as [q|e]; simpl in *;
    [|discriminate].
  destruct (Py.int_of_float q) as [v|e]; simpl in *; [|discriminate].
  apply Z.eqb_eq in Hc. now subst.
Qed.

(** [int(1.2 * level ** 2)] is [floor(6 * level^2 / 5)] up to level 100. *)
Lemma exp_to_next_exact (l : Z) :
  0 <= l <= 100 -> calculate_exp_to_next_level l = Ok (exp_threshold l).
Proof.
  intros Hl.
  assert (Hn : 0 <= l < 0 + Z.of_nat (Z.to_nat 101)) by lia.
  pose proof (all_from_spec _ _ _ exp_table _ Hn) as Hc.
  unfold exp_check in Hc.
  destruct (calculate_exp_to_next_level l) as [v|e]; [|discriminate].
  apply Z.eqb_eq in Hc. now subst.
Qed.

(** The experience for a win: [base_exp * level_diff] is a multiple of 10,
    so the division is exact. *)
Lemma calculate_exp_gain_exact (p o : Pokemon) :
  0 <= level p <= 100 -> 0 <= level o <= 100 ->
  calculate_exp_gain p o = Ok (level o * Z.max 1 (level o - level p + 5)).
Proof.
  intros Hp Ho. unfold calculate_exp_gain.
  set (n := level o * Z.max 1 (level o - level p + 5)).
  assert (Hn : 0 <= n < 0 + Z.of_nat (Z.to_nat 10501)) by (subst n; nia).
  pose proof (all_from_spec _ _ _ gain_table _ Hn) as Hc.
  unfold gain_check in Hc.
  replace (level o * 10 * Z.max 1 (level o - level p + 5)) with (10 * n)
    by (subst n; lia).
  destruct (Py.truediv (10 * n) 10) as [q|e]; simpl in *; [|discriminate].
  destruct (Py.int_of_float q) as [v|e]; simpl in *; [|discriminate].
  apply Z.eqb_eq in Hc. now subst.
Qed.

(* ===================================================================== *)
(** * Levels and experience *)
(* ===================================================================== *)

Lemma level_up_exact (p : Pokemon) :
  0 <= level p < 100 -> base_in_range (base_stats p) ->
  level_up p = Ok (leveled p, evolution_due p (level p + 1)).
Proof.
  intros Hl (Hhp & Hat & Hde & Hsa & Hsd & Hsp).
  unfold level_up.
  destruct (100 <=? level p) eqn:E; [apply Z.leb_le in E; lia|].
  rewrite exp_to_next_exact by lia.
  rewrite !calculate_stat_exact by lia.
  unfold evolution_due, leveled. simpl.
  destruct (Species.evolution (species_data p)) as [ev|]; [|reflexivity].
  destruct (Species.ev_level ev); reflexivity.
Qed.

Lemma level_up_capped (p : Pokemon) :
  100 <= level p -> level_up p = Ok (p, false).
Proof.
  intros H. unfold level_up.
  destruct (100 <=? level p) eqn:E; [reflexivity|apply Z.leb_gt in E; lia].
Qed.

Lemma gain_experience_exact (amount : Z) (p : Pokemon) :
  0 <= level p -> base_in_range (base_stats p) ->
  gain_experience amount p =
    let p1 := set_experience (experience p + amount) p in
    if (experience_to_next_level p <=? experience p + amount)
       && (level p <? 100)
    then Ok (leveled p1, evolution_due p (level p + 1))
    else Ok (p1, false).
Proof.
  intros Hl Hb. unfold gain_experience. simpl.
  destruct (experience_to_next_level p <=? experience p + amount); simpl;
    [|reflexivity].
  destruct (level p <? 100) eqn:E.
  - apply Z.ltb_lt in E. rewrite level_up_exact; simpl; auto with lia.
  - apply Z.ltb_ge in E. rewrite level_up_capped; simpl; auto.
Qed.

(** C2 (as amended).  For a creature of level at least 0 with base stats of
    the table, [gain_experience] adds the amount to the experience; when the
    sum reaches the threshold and the level is below 100 it levels up exactly
    once: the level grows by one, the experience restarts at 0 (the excess
    is dropped), the threshold becomes [floor(1.2 * level^2)] of the new
    level, every stat is recomputed, and the current HP grows by exactly the
    growth of the maximum HP.  The call returns true only when that level-up
    happened and the species evolves by level at a level now reached;
    otherwise only the experience changes and the call returns false. *)
Theorem gain_experience_one_level (amount : Z) (p : Pokemon) :
  0 <= level p -> base_in_range (base_stats p) ->
  exists p' flag,
    gain_experience amount p = Ok (p', flag)
    /\ if (experience_to_next_level p <=? experience p + amount)
          && (level p <? 100)
       then level p' = level p + 1
            /\ experience p' = 0
            /\ experience_to_next_level p' = exp_threshold (level p + 1)
            /\ max_hp p' = stat (Stats.hp (base_stats p)) (level p + 1)
            /\ attack p' = stat (Stats.attack (base_stats p)) (level p + 1)
            /\ defense p' = stat (Stats.defense (base_stats p)) (level p + 1)
            /\ special_attack p'
               = stat (Stats.special_attack (base_stats p)) (level p + 1)
            /\ special_defense p'
               = stat (Stats.special_defense (base_stats p)) (level p + 1)
            /\ speed p' = stat (Stats.speed (base_stats p)) (level p + 1)
            /\ current_hp p' = current_hp p + (max_hp p' - max_hp p)
            /\ flag = evolution_due p (level p + 1)
       else p' = set_experience (experience p + amount) p /\ flag = false.
Proof.
  intros Hl Hb. rewrite gain_experience_exact by assumption. simpl.
  destruct ((experience_to_next_level p <=? experience p + amount)
            && (level p <? 100)).
  - eexists _, _. split; [reflexivity|]. simpl. repeat split; reflexivity.
  - eexists _, _. split; [reflexivity|]. split; reflexivity.
Qed.

Lemma gain_experience_one_level_witness :
  (0 <= level bulbasaur5 /\ base_in_range (base_stats bulbasaur5))
  /\ exists p' flag,
       gain_experience 100 bulbasaur5 = Ok (p', flag)
       /\ level p' = 6 /\ experience p' = 0 /\ flag = false.
Proof.
  assert (Hl : 0 <= level bulbasaur5) by (vm_compute; discriminate).
  assert (Hb : base_in_range (base_stats bulbasaur5))
    by (unfold base_in_range; simpl; lia).
  split; [split; assumption|].
  destruct (gain_experience_one_level 100 bulbasaur5 Hl Hb)
    as (p' & flag & Hg & Hrest).
  exists p', flag. simpl in Hrest.
  destruct Hrest as (H1 & H2 & _ & _ & _ & _ & _ & _ & _ & _ & H3).
  repeat split; assumption.
Defined.

(** C2 as stated fails.  A level-5 Bulbasaur (threshold 30) gains 100
    experience: the code makes it level 6 with experience 0 and returns
    false, where the claim has it cross the thresholds of levels 5 to 9, keep
    its 100 experience, reach level 10 and return true. *)
Lemma gain_experience_counterexample :
  match gain_experience 100 bulbasaur5 with
  | Ok (p', flag) => level p' = 6 /\ experience p' = 0 /\ flag = false
  | Raise _ => False
  end
  /\ (let '(q, crossed) := spec_gain_experience 100 bulbasaur5 in
      level q = 10 /\ experience q = 100 /\ crossed = true).
Proof. vm_compute. repeat split; reflexivity. Qed.

Lemma gain_experience_level_bound (amount : Z) (p : Pokemon) :
  0 <= level p <= 100 -> base_in_range (base_stats p) ->
  exists p' flag,
    gain_experience amount p = Ok (p', flag)
    /\ 0 <= level p' <= 100 /\ base_stats p' = base_stats p.
Proof.
  intros Hl Hb. rewrite gain_experience_exact by (assumption || lia). simpl.
  destruct (experience_to_next_level p <=? experience p + amount); simpl.
  - destruct (level p <? 100) eqn:E.
    + apply Z.ltb_lt in E. eexists _, _. split; [reflexivity|]. simpl.
      split; [lia|reflexivity].
    + eexists _, _. split; [reflexivity|]. simpl. split; [lia|reflexivity].
  - eexists _, _. split; [reflexivity|]. simpl. split; [lia|reflexivity].
Qed.

(** C6 (as amended).  For a creature at level 100, [gain_experience] leaves
    the level, the threshold and every stat as they are and returns false,
    while the accumulated experience still grows by the amount; and from a
    level between 0 and 100 (base stats of the table) no sequence of
    [gain_experience] calls brings the level above 100. *)
Theorem level_capped_at_100 :
  (forall p amount,
     level p = 100 ->
     gain_experience amount p
     = Ok (set_experience (experience p + amount) p, false))
  /\ (forall p amounts,
        0 <= level p <= 100 -> base_in_range (base_stats p) ->
        exists p', gain_all amounts p = Ok p' /\ level p' <= 100).
Proof.
  split.
  - intros p amount H100. unfold gain_experience. simpl.
    destruct (experience_to_next_level p <=? experience p + amount);
      [|reflexivity].
    apply level_up_capped. simpl. lia.
  - intros p amounts. revert p.
    induction amounts as [|a rest IH]; intros p Hl Hb; simpl.
    + exists p. split; [reflexivity|lia].
    + destruct (gain_experience_level_bound a p Hl Hb)
        as (p1 & flag & Hg & Hl1 & Hb1).
      rewrite Hg. simpl. apply IH; [assumption|]. rewrite Hb1. exact Hb.
Qed.

Lemma level_capped_at_100_witness :
  (level pikachu100 = 100
   /\ 0 <= level bulbasaur5 <= 100 /\ base_in_range (base_stats bulbasaur5))
  /\ gain_experience 50 pikachu100
     = Ok (set_experience (experience pikachu100 + 50) pikachu100, false)
  /\ exists p',
       gain_all [50; 20000; 7] bulbasaur5 = Ok p' /\ level p' <= 100.
Proof.
  assert (H100 : level pikachu100 = 100) by reflexivity.
  assert (Hl : 0 <= level bulbasaur5 <= 100) by (simpl; lia).
  assert (Hb : base_in_range (base_stats bulbasaur5))
    by (unfold base_in_range; simpl; lia).
  split; [repeat split; assumption || apply Hl|].
  destruct level_capped_at_100 as [Hcap Hseq].
  split; [exact (Hcap pikachu100 50 H100)|].
  exact (Hseq bulbasaur5 [50; 20000; 7] Hl Hb).
Defined.

(** C6 as stated fails.  A level-100 Pikachu with experience 0 gains 50: its
    experience becomes 50, where the claim leaves it unchanged. *)
Lemma experience_grows_at_cap :
  level pikachu100 = 100
  /\ experience pikachu100 = 0
  /\ match gain_experience 50 pikachu100 with
     | Ok (p', _) => experience p' = 50 /\ level p' = 100
     | Raise _ => False
     end.
Proof. vm_compute. repeat split; reflexivity. Qed.
(* ===================================================================== *)
(** * The HP invariant *)
(* ===================================================================== *)

Lemma stat_monotone (base l : Z) :
  0 <= base -> stat base l <= stat base (l + 1).
Proof.
  intros Hb. unfold stat.
  apply Z.add_le_mono_r. apply Z.div_le_mono; [lia|nia].
Qed.

Lemma species_base_in_range (s : string) :
  base_in_range (Species.base_stats (get_species_data s)).
Proof.
  unfold get_species_data, base_in_range.
  repeat (match goal with |- context [String.eqb ?a ?b] =>
                            destruct (String.eqb a b) end);
    simpl; lia.
Qed.

Lemma new_pokemon_well_formed (s : string) (l : Z) :
  0 <= l <= 100 ->
  exists p, new_pokemon s l = Ok p /\ well_formed p /\ level p = l
            /\ current_hp p = max_hp p.
Proof.
  intros Hl. unfold new_pokemon.
  pose proof (species_base_in_range s) as Hb.
  destruct Hb as (Hhp & Hat & Hde & Hsa & Hsd & Hsp).
  rewrite exp_to_next_exact by lia.
  rewrite !calculate_stat_exact by lia. simpl.
  eexists. split; [reflexivity|].
  unfold well_formed, base_in_range, hp_invariant; simpl.
  repeat split; try lia.
  unfold stat. assert (0 <= (2 * Stats.hp (Species.base_stats (get_species_data s)) + 15) * l / 100)
    by (apply Z.div_pos; nia). lia.
Qed.

Lemma take_damage_well_formed (d : Z) (p : Pokemon) :
  0 <= d -> well_formed p -> well_formed (fst (take_damage d p)).
Proof.
  unfold well_formed, base_in_range, hp_invariant. simpl.
  intros Hd (Hl & Hb & Hm & Hhp). repeat split; try tauto; lia.
Qed.

Lemma heal_well_formed (a : option Z) (p : Pokemon) :
  match a with Some n => 0 <= n | None => True end ->
  well_formed p -> well_formed (heal a p).
Proof.
  unfold well_formed, base_in_range, hp_invariant, heal.
  intros Ha (Hl & Hb & Hm & Hhp).
  destruct a as [n|]; simpl;
    match goal with |- context [if ?c then _ else _] => destruct c end;
    simpl; repeat split; try tauto; lia.
Qed.

Lemma leveled_well_formed (p : Pokemon) :
  level p < 100 -> well_formed p -> well_formed (leveled p).
Proof.
  unfold well_formed, base_in_range, hp_invariant. simpl.
  intros Hlt (Hl & Hb & Hm & Hhp).
  pose proof (stat_monotone (Stats.hp (base_stats p)) (level p)) as Hmono.
  repeat split; try tauto; lia.
Qed.

Lemma mutate_well_formed (m : mutation) (p : Pokemon) :
  mutation_ok m -> well_formed p ->
  exists p', mutate m p = Ok p' /\ well_formed p'.
Proof.
  intros Hm Hwf. destruct m as [d|a| |a]; simpl in *.
  - eexists. split; [reflexivity|]. now apply take_damage_well_formed.
  - eexists. split; [reflexivity|]. apply heal_well_formed; [|assumption].
    destruct a; auto.
  - pose proof Hwf as (Hl & Hb & Hrest).
    destruct (Z.lt_ge_cases (level p) 100) as [Hlt|Hge].
    + rewrite level_up_exact by (assumption || lia). simpl.
      eexists. split; [reflexivity|].
      apply leveled_well_formed; assumption.
    + rewrite level_up_capped by assumption. simpl.
      eexists. split; [reflexivity|]. assumption.
  - pose proof Hwf as (Hl & Hb & Hrest).
    rewrite gain_experience_exact by (assumption || lia). simpl.
    assert (Hwf1 : well_formed (set_experience (experience p + a) p))
      by exact Hwf.
    destruct (experience_to_next_level p <=? experience p + a); simpl.
    + destruct (level p <? 100) eqn:E; simpl.
      * apply Z.ltb_lt in E. eexists. split; [reflexivity|].
        now apply leveled_well_formed.
      * eexists. split; [reflexivity|]. assumption.
    + eexists. split; [reflexivity|]. assumption.
Qed.

(** C4 (as amended).  For a creature that is well formed (level 0 to 100,
    base stats of the table, a maximum HP derived from base HP and level, and
    [0 <= current_hp <= max_hp]), as every constructed creature is, the
    invariant [0 <= current_hp <= max_hp] holds after every sequence of
    [take_damage] with a non-negative amount, [heal] without an amount or
    with a non-negative amount, [level_up] and [gain_experience]; and the
    creature counts as fainted exactly when its current HP is 0. *)
Theorem hp_invariant_preserved (ms : list mutation) (p : Pokemon) :
  well_formed p -> Forall mutation_ok ms ->
  exists p',
    mutate_all ms p = Ok p'
    /\ well_formed p'
    /\ 0 <= current_hp p' <= max_hp p'
    /\ (is_fainted p' = true <-> current_hp p' = 0).
Proof.
  revert p. induction ms as [|m ms IH]; intros p Hwf Hok; simpl.
  - exists p. split; [reflexivity|]. split; [assumption|].
    destruct Hwf as (_ & _ & _ & Hhp). split; [exact Hhp|].
    unfold is_fainted, hp_invariant in *. rewrite Z.leb_le. lia.
  - inversion Hok as [|? ? Hm Hms]; subst.
    destruct (mutate_well_formed m p Hm Hwf) as (p1 & Hp1 & Hwf1).
    rewrite Hp1. simpl. apply IH; assumption.
Qed.

Lemma hp_invariant_preserved_witness :
  (well_formed bulbasaur5
   /\ Forall mutation_ok [TakeDamage 4; LevelUp; Heal (Some 20); Heal None;
                          GainExperience 100; TakeDamage 50])
  /\ exists p',
       mutate_all [TakeDamage 4; LevelUp; Heal (Some 20); Heal None;
                   GainExperience 100; TakeDamage 50] bulbasaur5 = Ok p'
       /\ 0 <= current_hp p' <= max_hp p'
       /\ (is_fainted p' = true <-> current_hp p' = 0).
Proof.
  assert (Hwf : well_formed bulbasaur5).
  { unfold well_formed, base_in_range, hp_invariant. simpl.
    repeat split; try lia; reflexivity. }
  assert (Hok : Forall mutation_ok
                  [TakeDamage 4; LevelUp; Heal (Some 20); Heal None;
                   GainExperience 100; TakeDamage 50]).
  { repeat constructor; simpl; lia. }
  split; [split; assumption|].
  destruct (hp_invariant_preserved _ bulbasaur5 Hwf Hok)
    as (p' & H1 & _ & H2 & H3).
  exists p'. repeat split; try assumption; apply H3 || apply H2.
Defined.

(** C4 as stated fails.  [heal] with the amount -11 on a Bulbasaur at 10 of
    10 HP leaves it at -1 HP. *)
Lemma heal_negative_breaks_invariant :
  hp_invariant bulbasaur5
  /\ current_hp (heal (Some (-11)) bulbasaur5) = -1
  /\ ~ hp_invariant (heal (Some (-11)) bulbasaur5).
Proof.
  unfold hp_invariant. simpl. repeat split; try lia.
Qed.

(* ===================================================================== *)
(** * Damage *)
(* ===================================================================== *)

Lemma take_damages_nonneg (amounts : list Z) (p : Pokemon) :
  0 <= current_hp p -> 0 <= current_hp (take_damages amounts p).
Proof.
  revert p. induction amounts as [|a rest IH]; intros p Hp; simpl.
  - exact Hp.
  - apply IH. simpl. lia.
Qed.

(** C5.  [take_damage] sets the current HP to [max(0, current_hp - amount)],
    writes nothing else, and returns true exactly when the HP it leaves is
    0; hence after a call, and from a current HP of 0, further calls never
    make the HP negative, and with non-negative amounts the HP stays 0. *)
Theorem take_damage_clamps (p : Pokemon) (amount : Z) (amounts : list Z) :
  fst (take_damage amount p)
  = set_current_hp (Z.max 0 (current_hp p - amount)) p
  /\ current_hp (fst (take_damage amount p)) = Z.max 0 (current_hp p - amount)
  /\ (snd (take_damage amount p) = true
      <-> current_hp (fst (take_damage amount p)) = 0)
  /\ 0 <= current_hp (take_damages amounts (fst (take_damage amount p)))
  /\ (current_hp p = 0 -> 0 <= current_hp (take_damages amounts p))
  /\ (current_hp p = 0 -> Forall (Z.le 0) amounts ->
      current_hp (take_damages amounts p) = 0).
Proof.
  split; [reflexivity|]. split; [reflexivity|].
  split; [simpl; apply Z.eqb_eq|].
  split; [apply take_damages_nonneg; simpl; lia|].
  split; [intros H0; apply take_damages_nonneg; lia|].
  intros H0 Hpos. revert p H0.
  induction Hpos as [|a rest Ha _ IH]; intros p H0; simpl.
  - exact H0.
  - apply IH. simpl. lia.
Qed.

Lemma take_damage_clamps_witness :
  (current_hp (set_current_hp 0 rattata3) = 0
   /\ Forall (Z.le 0) [3; 0; 12])
  /\ current_hp (take_damages [3; 0; 12] (set_current_hp 0 rattata3)) = 0
  /\ 0 <= current_hp (take_damages [3; 0; 12] (set_current_hp 0 rattata3)).
Proof.
  assert (H0 : current_hp (set_current_hp 0 rattata3) = 0) by reflexivity.
  assert (Hpos : Forall (Z.le 0) [3; 0; 12]) by (repeat constructor; lia).
  split; [split; assumption|].
  destruct (take_damage_clamps (set_current_hp 0 rattata3) 0 [3; 0; 12])
    as (_ & _ & _ & _ & Hnonneg & Hfloor).
  split; [apply Hfloor; assumption|apply Hnonneg; assumption].
Defined.

Lemma set_current_hp_same (p : Pokemon) : set_current_hp (current_hp p) p = p.
Proof. destruct p; reflexivity. Qed.

(** C9.  For a move of base power 0, [calculate_damage] returns 0 and
    leaves the generator as it was (no draw), whoever attacks and defends;
    and applying that damage to a defender whose HP is not negative leaves
    the defender as it was. *)
Theorem status_move_deals_nothing (self target : Pokemon) (move : Move.t)
    (r : Rng) :
  Move.power move = 0 ->
  calculate_damage self move target r = (Ok 0, r)
  /\ (0 <= current_hp target -> fst (take_damage 0 target) = target).
Proof.
  intros Hpower. split.
  - unfold calculate_damage. rewrite Hpower. reflexivity.
  - intros Hhp. simpl.
    replace (Z.max 0 (current_hp target - 0)) with (current_hp target) by lia.
    apply set_current_hp_same.
Qed.

Lemma status_move_deals_nothing_witness :
  (Move.power (Move.mk "Growl" NORMAL 0 100 40 40) = 0
   /\ 0 <= current_hp rattata3)
  /\ calculate_damage bulbasaur5 (Move.mk "Growl" NORMAL 0 100 40 40) rattata3
       (mkRng [0.5%float] [])
     = (Ok 0, mkRng [0.5%float] [])
  /\ fst (take_damage 0 rattata3) = rattata3.
Proof.
  assert (Hpower : Move.power (Move.mk "Growl" NORMAL 0 100 40 40) = 0)
    by reflexivity.
  assert (Hhp : 0 <= current_hp rattata3) by (simpl; lia).
  split; [split; assumption|].
  destruct (status_move_deals_nothing bulbasaur5 rattata3 _
              (mkRng [0.5%float] []) Hpower) as [Hzero Hsame].
  split; [exact Hzero|exact (Hsame Hhp)].
Defined.

(* ===================================================================== *)
(** * Catching *)
(* ===================================================================== *)

Lemma get_del (items : Inventory.t) (k item : string) :
  Inventory.get (Inventory.del items k) item
  = if String.eqb item k then None else Inventory.get items item.
Proof.
  induction items as [|[k0 q0] rest IH]; simpl.
  - now destruct (String.eqb item k).
  - destruct (String.eqb_spec k0 k) as [E1|E1]; simpl.
    + rewrite IH. destruct (String.eqb_spec item k) as [E2|E2];
        [reflexivity|].
      destruct (String.eqb_spec k0 item) as [E3|E3]; [congruence|reflexivity].
    + destruct (String.eqb_spec k0 item) as [E3|E3].
      * destruct (String.eqb_spec item k) as [E2|E2];
          [congruence|reflexivity].
      * exact IH.
Qed.

Lemma get_set (items : Inventory.t) (k item : string) (q : Z) :
  Inventory.get (Inventory.set items k q) item
  = if String.eqb item k
    then match Inventory.get items k with Some _ => Some q | None => None end
    else Inventory.get items item.
Proof.
  induction items as [|[k0 q0] rest IH]; simpl.
  - now destruct (String.eqb item k).
  - destruct (String.eqb_spec k0 k) as [E1|E1]; simpl.
    + destruct (String.eqb_spec k0 item) as [E3|E3].
      * destruct (String.eqb_spec item k) as [E2|E2];
          [reflexivity|congruence].
      * destruct (String.eqb_spec item k) as [E2|E2];
          [congruence|reflexivity].
    + destruct (String.eqb_spec k0 item) as [E3|E3].
      * destruct (String.eqb_spec item k) as [E2|E2];
          [congruence|reflexivity].
      * exact IH.
Qed.

Lemma held_remove_item (items : Inventory.t) (k item : string) :
  Inventory.has_item k 1 items = true ->
  snd (Inventory.remove_item k 1 items) = true
  /\ Inventory.held (fst (Inventory.remove_item k 1 items)) item
     = Inventory.held items item - (if String.eqb item k then 1 else 0).
Proof.
  unfold Inventory.has_item, Inventory.remove_item, Inventory.held.
  destruct (Inventory.get items k) as [q|] eqn:Hget; simpl; intros Hq;
    [|discriminate].
  rewrite Hq. destruct (q - 1 =? 0) eqn:Hz; simpl.
  - split; [reflexivity|]. rewrite get_del.
    destruct (String.eqb_spec item k) as [->|_]; simpl.
    + rewrite Hget. simpl. apply Z.eqb_eq in Hz. lia.
    + lia.
  - split; [reflexivity|]. rewrite get_set.
    destruct (String.eqb_spec item k) as [->|_]; simpl.
    + rewrite Hget. simpl. lia.
    + lia.
Qed.

Lemma add_pokemon_inventory (p : Pokemon) (caught : bool) (t : Trainer) :
  inventory (fst (fst (add_pokemon p caught t))) = inventory t.
Proof.
  unfold add_pokemon.
  match goal with |- context [if ?c then (_, _, true) else _] =>
                    destruct c end;
    destruct caught; reflexivity.
Qed.

Lemma status_modifier_spec (s : option string) :
  status_modifier s = spec_status_bonus s.
Proof.
  unfold status_modifier, spec_status_bonus, Py.str_in.
  destruct s as [s|]; simpl.
  - repeat (match goal with
            | |- context [String.eqb ?a ?b] =>
                destruct (String.eqb_spec a b); subst; simpl
            end);
      repeat case_bool_decide; try reflexivity; exfalso;
      intuition congruence.
  - repeat case_bool_decide; try reflexivity; exfalso; intuition congruence.
Qed.

Lemma catch_probability_spec (wild : Pokemon) (ball : string) :
  max_hp wild <> 0 ->
  catch_probability wild ball
  = Ok (spec_probability (get_catch_rate wild) (ball_modifier_of ball)
          (max_hp wild) (current_hp wild) (status_condition wild)).
Proof.
  intros Hmax. unfold catch_probability, spec_probability, Py.truediv.
  destruct (3 * max_hp wild =? 0) eqn:E; [apply Z.eqb_eq in E; lia|].
  simpl. rewrite status_modifier_spec. reflexivity.
Qed.

Lemma catch_pokemon_outcome (wild : Pokemon) (ball : string)
    (t : Trainer) (r : Rng) :
  Inventory.has_item ball 1 (inventory t) = true ->
  max_hp wild <> 0 ->
  let probability :=
    spec_probability (get_catch_rate wild) (ball_modifier_of ball)
      (max_hp wild) (current_hp wild) (status_condition wild) in
  let draw := fst (Random.random r) in
  exists t' wild',
    catch_pokemon wild ball t r
    = Ok (t', wild', snd (Random.random r), (draw <? probability)%float)
    /\ (forall item,
          Inventory.held (inventory t') item
          = Inventory.held (inventory t) item
            - (if String.eqb item ball then 1 else 0)).
Proof.
  intros Hhas Hmax probability draw. unfold catch_pokemon.
  rewrite Hhas. simpl. rewrite catch_probability_spec by assumption. simpl.
  fold probability. subst draw. simpl.
  destruct (hd 0%float (floats r) <? probability)%float.
  - match goal with
    | |- context [add_pokemon ?p ?c ?t1] =>
        pose proof (add_pokemon_inventory p c t1) as Hinv;
        destruct (add_pokemon p c t1) as [[t2 stored] in_team]
    end.
    simpl in Hinv. eexists _, _. split; [reflexivity|]. intros item.
    rewrite Hinv. apply held_remove_item; assumption.
  - eexists _, _. split; [reflexivity|]. simpl. intros item.
    apply held_remove_item; assumption.
Qed.

(** C8.  With the ball in the bag and a wild creature of non-zero maximum HP,
    [catch_pokemon] succeeds exactly when its single draw is below
    [min(1.0, (base_catch_rate * ball_modifier * hp_factor * status_bonus)
    / 255)], with [hp_factor = (3*max_hp - 2*current_hp) / (3*max_hp)] and a
    status bonus of 2.0 for sleep and freeze, 1.5 for paralyze, burn and
    poison, 1.0 otherwise; whatever the outcome, the bag holds exactly one
    ball of that kind less and as many of everything else. *)
Theorem catch_succeeds_below_probability (wild : Pokemon) (ball : string)
    (t : Trainer) (r : Rng) :
  Inventory.has_item ball 1 (inventory t) = true ->
  max_hp wild <> 0 ->
  let probability :=
    spec_probability (get_catch_rate wild) (ball_modifier_of ball)
      (max_hp wild) (current_hp wild) (status_condition wild) in
  let draw := fst (Random.random r) in
  exists t' wild',
    catch_pokemon wild ball t r
    = Ok (t', wild', snd (Random.random r), (draw <? probability)%float)
    /\ (forall item,
          Inventory.held (inventory t') item
          = Inventory.held (inventory t) item
            - (if String.eqb item ball then 1 else 0)).
Proof. exact (catch_pokemon_outcome wild ball t r). Qed.

Lemma catch_succeeds_below_probability_witness :
  (Inventory.has_item "Pokeball" 1 (inventory red) = true
   /\ max_hp rattata3 <> 0)
  /\ exists t' wild',
       catch_pokemon rattata3 "Pokeball" red (mkRng [0.2%float] [])
       = Ok (t', wild', mkRng [] [], true)
       /\ Inventory.held (inventory t') "Pokeball" = 9
       /\ Inventory.held (inventory t') "Potion" = 5.
Proof.
  assert (Hhas : Inventory.has_item "Pokeball" 1 (inventory red) = true)
    by reflexivity.
  assert (Hmax : max_hp rattata3 <> 0) by (simpl; lia).
  split; [split; assumption|].
  destruct (catch_succeeds_below_probability rattata3 "Pokeball" red
              (mkRng [0.2%float] []) Hhas Hmax) as (t' & wild' & Hc & Hheld).
  exists t', wild'. split; [exact Hc|].
  split; [exact (Hheld "Pokeball")|exact (Hheld "Potion")].
Defined.

Lemma first_of_type_get (type : string) (items : Inventory.t)
    (ball : string) (q : Z) (rest : Inventory.t) :
  Inventory.get_items_by_type type items = (ball, q) :: rest ->
  Inventory.get items ball = Some q.
Proof.
  unfold Inventory.get_items_by_type.
  set (f := fun pat : string * Z =>
              let '(name, _) := pat in
              match get_item_database name with
              | Some d => String.eqb (Item.type d) type
              | None => false
              end).
  intros Hfilter.
  assert (Hball : forall q', f (ball, q') = true).
  { intros q'.
    assert (Hin : In (ball, q) (List.filter f items))
      by (rewrite Hfilter; left; reflexivity).
    apply filter_In in Hin as [_ Hf]. exact Hf. }
  revert Hfilter.
  induction items as [|[k q0] items IH]; cbn [List.filter Inventory.get];
    [discriminate|].
  destruct (f (k, q0)) eqn:Hf.
  - intros Heq. inversion Heq; subst. now rewrite String.eqb_refl.
  - intros Hfilter. destruct (String.eqb_spec k ball) as [E|E].
    + subst k. rewrite Hball in Hf. discriminate.
    + apply IH. exact Hfilter.
Qed.

Lemma calculate_catch_rate_spec (p : Pokemon) :
  max_hp p <> 0 ->
  calculate_catch_rate p
  = Ok (spec_gate (current_hp p) (max_hp p) (level p)).
Proof.
  intros Hmax. unfold calculate_catch_rate, spec_gate, Py.truediv.
  destruct (max_hp p =? 0) eqn:E; [apply Z.eqb_eq in E; lia|]. reflexivity.
Qed.

(** C10.  When the player accepts, holds at least one ball of the first
    kind listed, and the wild creature has a non-zero maximum HP,
    [attempt_catch] catches the creature exactly when two successive draws
    both succeed: the engine's own, below [min(0.9, 0.3 + (1 -
    current_hp/max_hp)*0.4 + max(0.1, 1 - level/100)*0.2)], and then the one
    inside [catch_pokemon], below the formula of C8 (made only when the first
    succeeded).  The catching draws form the rectangle [[0, gate) x [0,
    probability)], whose measure under independent uniform draws is the
    product of the two.  Whichever draw fails, and also when none does, the
    bag holds exactly one ball of that kind less. *)
Theorem attempt_catch_two_draws (wild : Pokemon) (t : Trainer) (r : Rng)
    (input : list string) (ball : string) (q : Z) (rest : Inventory.t) :
  fst (InputHandler.get_yes_no input) = true ->
  Inventory.get_items_by_type "pokeball" (inventory t) = (ball, q) :: rest ->
  1 <= q ->
  max_hp wild <> 0 ->
  let gate := spec_gate (current_hp wild) (max_hp wild) (level wild) in
  let probability :=
    spec_probability (get_catch_rate wild) (ball_modifier_of ball)
      (max_hp wild) (current_hp wild) (status_condition wild) in
  let d1 := fst (Random.random r) in
  let r1 := snd (Random.random r) in
  let d2 := fst (Random.random r1) in
  let r2 := snd (Random.random r1) in
  exists t' wild' input' outcome,
    attempt_catch wild t r input
    = Ok (t', wild', (if (d1 <? gate)%float then r2 else r1), input', outcome)
    /\ (outcome = Gotcha
        <-> (d1 <? gate)%float = true /\ (d2 <? probability)%float = true)
    /\ (forall item,
          Inventory.held (inventory t') item
          = Inventory.held (inventory t) item
            - (if String.eqb item ball then 1 else 0)).
Proof.
  intros Hyes Hballs Hq Hmax gate probability d1 r1 d2 r2.
  assert (Hhas : Inventory.has_item ball 1 (inventory t) = true).
  { unfold Inventory.has_item.
    rewrite (first_of_type_get _ _ _ _ _ Hballs). simpl.
    apply Z.leb_le. exact Hq. }
  unfold attempt_catch.
  destruct (InputHandler.get_yes_no input) as [yes input1]. simpl in Hyes.
  subst yes. rewrite Hballs.
  rewrite calculate_catch_rate_spec by assumption. simpl. fold gate.
  subst d1 r1 d2 r2. simpl.
  destruct (hd 0%float (floats r) <? gate)%float.
  - destruct (catch_pokemon_outcome wild ball t
                (mkRng (tl (floats r)) (ints r)) Hhas Hmax)
      as (t1 & wild1 & Hcatch & Hheld).
    rewrite Hcatch. simpl. fold probability.
    destruct (hd 0%float (tl (floats r)) <? probability)%float.
    + destruct (InputHandler.get_pokemon_nickname (species wild1) input1)
        as [nickname input2].
      destruct (String.eqb nickname EmptyString); simpl.
      * eexists _, _, _, _. split; [reflexivity|]. split; [tauto|].
        exact Hheld.
      * eexists _, _, _, _. split; [reflexivity|]. split; [tauto|].
        intros item. rewrite <- Hheld. unfold rename_caught.
        destruct (Z.of_nat (length (pokemon_team t)) <? max_team_size t);
          reflexivity.
    + eexists _, _, _, _. split; [reflexivity|].
      split; [split; [discriminate|intros [_ H]; discriminate]|].
      exact Hheld.
  - eexists _, _, _, _. split; [reflexivity|].
    split; [split; [discriminate|intros [H _]; discriminate]|].
    simpl. intros item. apply held_remove_item. exact Hhas.
Qed.

Lemma attempt_catch_two_draws_witness :
  (fst (InputHandler.get_yes_no ["y"; EmptyString]) = true
   /\ Inventory.get_items_by_type "pokeball" (inventory red)
      = [("Pokeball", 10)]
   /\ 1 <= 10
   /\ max_hp (set_current_hp 0 rattata3) <> 0)
  /\ exists t' wild' input',
       attempt_catch (set_current_hp 0 rattata3) red
         (mkRng [0.5; 0.25]%float []) ["y"; EmptyString]
       = Ok (t', wild', mkRng [] [], input', Gotcha)
       /\ Inventory.held (inventory t') "Pokeball" = 9.
Proof.
  assert (Hyes : fst (InputHandler.get_yes_no ["y"; EmptyString]) = true)
    by reflexivity.
  assert (Hballs : Inventory.get_items_by_type "pokeball" (inventory red)
                   = [("Pokeball", 10)]) by reflexivity.
  assert (Hq : 1 <= 10) by lia.
  assert (Hmax : max_hp (set_current_hp 0 rattata3) <> 0) by (simpl; lia).
  split; [repeat split; assumption|].
  destruct (attempt_catch_two_draws (set_current_hp 0 rattata3) red
              (mkRng [0.5; 0.25]%float []) ["y"; EmptyString] "Pokeball" 10 []
              Hyes Hballs Hq Hmax)
    as (t' & wild' & input' & outcome & Hrun & Hout & Hheld).
  assert (Hg : outcome = Gotcha) by (apply Hout; split; reflexivity).
  subst outcome. exists t', wild', input'.
  split; [exact Hrun|exact (Hheld "Pokeball")].
Defined.
(* ===================================================================== *)
(** * The battle loop *)
(* ===================================================================== *)

(** The body of the loop never writes the turn counter. *)
Lemma fight_battle_turn (b : Battle) :
  battle_turn (fst (fight b)) = battle_turn b.
Proof. unfold fight. unfold_setters. branch_cases. Qed.

Lemma items_battle_turn (b : Battle) :
  battle_turn (fst (items b)) = battle_turn b.
Proof. unfold items. unfold_setters. branch_cases. Qed.

Lemma switch_battle_turn (b : Battle) :
  battle_turn (fst (switch b)) = battle_turn b.
Proof. unfold switch. unfold_setters. branch_cases. Qed.

Lemma run_battle_turn (b : Battle) :
  battle_turn (fst (run b)) = battle_turn b.
Proof. unfold run. unfold_setters. branch_cases. Qed.

Lemma after_action_battle_turn (b : Battle) :
  battle_turn (fst (after_action b)) = battle_turn b.
Proof. unfold after_action. unfold_setters. branch_cases. Qed.

Lemma battle_iteration_battle_turn (b : Battle) :
  battle_turn (fst (battle_iteration b)) = battle_turn b.
Proof.
  unfold battle_iteration.
  destruct (player b) as [p|]; [|reflexivity].
  destruct ((max_hp (opponent_pokemon b) =? 0) || (max_hp p =? 0));
    [reflexivity|].
  destruct (InputHandler.get_battle_choice (stdin b)) as [choice input'].
  set (b1 := set_stdin input' b).
  assert (H1 : battle_turn b1 = battle_turn b) by reflexivity.
  set (c := default 4 choice).
  assert (Hbranch :
    forall x : Battle * flow,
      battle_turn (fst x) = battle_turn b ->
      battle_turn (fst (let '(b2, fl) := x in
                        match fl with
                        | Next => after_action b2
                        | _ => (b2, fl)
                        end)) = battle_turn b).
  { intros [b2 fl] H2. simpl in H2. destruct fl; simpl; try exact H2.
    rewrite after_action_battle_turn. exact H2. }
  apply Hbranch.
  destruct (c =? 1); [rewrite fight_battle_turn; exact H1|].
  destruct (c =? 2); [rewrite items_battle_turn; exact H1|].
  destruct (c =? 3); [rewrite switch_battle_turn; exact H1|].
  destruct (c =? 4); [rewrite run_battle_turn; exact H1|].
  exact H1.
Qed.

(** [n] passes are enough as soon as [n] covers the turns that remain. *)
Lemma battle_loop_fuel (n : nat) (b : Battle) :
  (Z.to_nat (max_turns - battle_turn b) <= n)%nat ->
  battle_loop_from (S n) b = battle_loop_from n b.
Proof.
  revert b. induction n as [|n IH]; intros b Hn.
  - cbn [battle_loop_from].
    assert (Hc : loop_condition b = false).
    { unfold loop_condition. destruct (player b); [|reflexivity].
      assert ((battle_turn b <? max_turns) = false) as ->
        by (apply Z.ltb_ge; lia).
      now rewrite andb_false_r. }
    now rewrite Hc.
  - change (battle_loop_from (S (S n)) b)
      with (if loop_condition b
            then match battle_iteration
                         (set_battle_turn (battle_turn b + 1) b) with
                 | (b2, Return r) => (b2, r)
                 | (b2, _) => battle_loop_from (S n) b2
                 end
            else after_loop b).
    change (battle_loop_from (S n) b)
      with (if loop_condition b
            then match battle_iteration
                         (set_battle_turn (battle_turn b + 1) b) with
                 | (b2, Return r) => (b2, r)
                 | (b2, _) => battle_loop_from n b2
                 end
            else after_loop b).
    destruct (loop_condition b); [|reflexivity].
    pose proof (battle_iteration_battle_turn
                  (set_battle_turn (battle_turn b + 1) b)) as Ht.
    destruct (battle_iteration (set_battle_turn (battle_turn b + 1) b))
      as [b2 fl].
    simpl in Ht.
    destruct fl; try reflexivity; apply IH; lia.
Qed.

Lemma move_choice_valid (p : Pokemon) (input : list string) (n : Z)
    (input' : list string) :
  InputHandler.get_move_choice p input = (Some n, input') ->
  1 <= n <= Z.of_nat (length (moves p))
  /\ exists move, moves p !! Z.to_nat (n - 1) = Some move /\ 0 < Move.pp move.
Proof.
  induction input as [|line rest IH]; cbn [InputHandler.get_move_choice];
    [discriminate|].
  destruct (Py.isdigit line).
  - destruct ((1 <=? Py.int_of_str line)
              && (Py.int_of_str line <=? Z.of_nat (length (moves p))))
      eqn:Hrange; [|exact IH].
    destruct (moves p !! Z.to_nat (Py.int_of_str line - 1)) as [move|] eqn:Hm;
      [|discriminate].
    destruct (0 <? Move.pp move) eqn:Hpp; [|exact IH].
    intros [= <- <-]. apply andb_true_iff in Hrange as [H1 H2].
    apply Z.leb_le in H1, H2. split; [lia|].
    exists move. split; [exact Hm|apply Z.ltb_lt; exact Hpp].
  - destruct (Py.str_in (Py.lower line) ["back"; "cancel"]);
      [discriminate|exact IH].
Qed.

Lemma index_in_range {A} (l : list A) (i : Z) (a : A) :
  0 <= i -> l !! Z.to_nat i = Some a -> Py.index l i = Ok (Z.to_nat i, a).
Proof.
  intros Hi Ha. unfold Py.index, Py.position.
  pose proof (lookup_lt_Some _ _ _ Ha) as Hlt.
  assert (Hneg : (i <? 0) = false) by (apply Z.ltb_ge; lia).
  assert (Hlen : (Z.of_nat (length l) <=? i) = false)
    by (apply Z.leb_gt; lia).
  rewrite Hneg. cbv iota. rewrite Hneg, Hlen.
  cbn [orb]. unfold mbind, res_bind. now rewrite Ha.
Qed.

(** C1 (as amended).  No accuracy check is made on either side.  The
    damage calculation does not depend on [move.accuracy], and its only
    draw is the damage roll: for a move of power 0 it returns 0 and draws
    nothing; otherwise a value that neither the accuracy nor the generator
    enters is computed first, and either that computation raises, with
    nothing drawn, or the result is [int] of this value times one
    [uniform(0.85, 1.0)], the generator having given exactly one
    [random()].  No draw decides a hit or a miss: a miss is only ever a
    damage of 0.  For every player Fight action (a move returned by the
    move prompt), the move loses one PP and the opponent takes exactly the
    damage that [calculate_damage] returns, the generator being the one
    that call leaves; if that call raises, the loop continues.  On the
    opponent's turn one integer picks the move, no float being drawn for
    it, and the player's creature takes exactly the damage that
    [calculate_damage] returns for that move. *)
Theorem damage_without_accuracy_check :
  (forall self move target r a,
     calculate_damage self (set_accuracy a move) target r
     = calculate_damage self move target r)
  /\ (forall self move target,
        exists before_roll : res float,
          forall a r,
            calculate_damage self (set_accuracy a move) target r
            = if Move.power move =? 0 then (Ok 0, r)
              else
                match before_roll with
                | Raise e => (Raise e, r)
                | Ok damage =>
                    (Py.int_of_float
                       (damage * fst (Random.uniform 0.85 1.0 r))%float,
                     snd (Random.random r))
                end)
  /\ (forall b p n input',
        player b = Some p ->
        InputHandler.get_move_choice p (stdin b) = (Some n, input') ->
        exists move,
          moves p !! Z.to_nat (n - 1) = Some move /\ 0 < Move.pp move
          /\ (let move' := fst (Move.use_move move) in
              let p' :=
                set_moves (<[Z.to_nat (n - 1) := move']> (moves p)) p in
              let b1 := put_player p' (set_stdin input' b) in
              fight b
              = match calculate_damage p' move' (opponent_pokemon b) (rng b)
                with
                | (Ok damage, r') =>
                    (set_opponent_pokemon
                       (fst (take_damage damage (opponent_pokemon b)))
                       (set_rng r' b1), Next)
                | (Raise _, r') => (set_rng r' b1, Continue)
                end))
  /\ (forall opponent p r,
        moves opponent <> [] ->
        exists move r1,
          Random.choice (moves opponent) r = Ok (move, r1)
          /\ r1 = mkRng (floats r) (tl (ints r))
          /\ opponent_turn opponent p r
             = match calculate_damage opponent move p r1 with
               | (Ok damage, r') => (Ok (fst (take_damage damage p)), r')
               | (Raise e, r') => (Raise e, r')
               end).
Proof.
  split; [intros; reflexivity|]. split; [|split].
  - intros self move target. eexists. intros a r.
    unfold calculate_damage, Random.uniform, Random.random.
    cbn [set_accuracy Move.power Move.type fst snd].
    destruct (Move.power move =? 0); reflexivity.
  - intros b p n input' Hp Hchoice.
    destruct (move_choice_valid p _ n input' Hchoice)
      as (Hn & move & Hmove & Hpp).
    exists move. split; [exact Hmove|]. split; [exact Hpp|].
    unfold fight. rewrite Hp, Hchoice.
    assert (negb (n =? 0) && (n <=? Z.of_nat (length (moves p))) = true) as ->.
    { apply andb_true_iff. split.
      - apply negb_true_iff, Z.eqb_neq. lia.
      - apply Z.leb_le. lia. }
    rewrite (index_in_range (moves p) (n - 1) move) by (lia || exact Hmove).
    unfold Move.use_move.
    assert ((0 <? Move.pp move) = true) as -> by (apply Z.ltb_lt; exact Hpp).
    cbv zeta. cbn [negb fst]. unfold_setters. cbn [opponent_pokemon rng].
    match goal with
    | |- context [calculate_damage ?a ?m ?o ?r] =>
        destruct (calculate_damage a m o r) as [[damage|e] r1]
    end; reflexivity.
  - intros opponent p r Hmoves. unfold opponent_turn.
    destruct (moves opponent) as [|m ms] eqn:Hm; [contradiction|].
    rewrite <- Hm.
    assert (Hchoice : exists move,
               Random.choice (moves opponent) r
               = Ok (move, mkRng (floats r) (tl (ints r)))).
    { unfold Random.choice. rewrite Hm.
      assert (Hlt : (hd 0%nat (ints r) mod length (m :: ms)
                     < length (m :: ms))%nat)
        by (apply Nat.mod_upper_bound; discriminate).
      destruct (lookup_lt_is_Some_2 _ _ Hlt) as [move Hfound].
      rewrite Hfound. eexists. reflexivity. }
    destruct Hchoice as (move & Hchoice).
    exists move, (mkRng (floats r) (tl (ints r))).
    split; [exact Hchoice|]. split; [reflexivity|]. rewrite Hchoice.
    destruct (calculate_damage opponent move p _) as [[damage|e] r2];
      reflexivity.
Qed.

Lemma damage_without_accuracy_check_witness :
  (player blind_fight = Some charmander5_blind
   /\ InputHandler.get_move_choice charmander5_blind (stdin blind_fight)
      = (Some 1, [])
   /\ moves rattata3 <> [])
  /\ (exists move,
        moves charmander5_blind !! Z.to_nat (1 - 1) = Some move
        /\ 0 < Move.pp move)
  /\ (exists move r1,
        Random.choice (moves rattata3) (mkRng [0.5%float] [0%nat])
        = Ok (move, r1))
  /\ (let r := mkRng [0.5; 0.25]%float [] in
      let after :=
        snd (calculate_damage charmander5
               (set_accuracy 0 (Move.mk "Tackle" NORMAL 40 100 35 35))
               rattata3 r) in
      after = r \/ after = mkRng [0.25%float] []).
Proof.
  assert (Hp : player blind_fight = Some charmander5_blind) by reflexivity.
  assert (Hchoice : InputHandler.get_move_choice charmander5_blind
                      (stdin blind_fight) = (Some 1, [])) by reflexivity.
  assert (Hmoves : moves rattata3 <> []) by discriminate.
  split; [repeat split; assumption|].
  destruct damage_without_accuracy_check
    as (_ & Hroll & Hplayer & Hopponent).
  split; [|split].
  - destruct (Hplayer blind_fight charmander5_blind 1 [] Hp Hchoice)
      as (move & Hmove & Hpp & _).
    exists move. split; assumption.
  - destruct (Hopponent rattata3 charmander5 (mkRng [0.5%float] [0%nat])
                Hmoves) as (move & r1 & Hc & _).
    exists move, r1. exact Hc.
  - destruct (Hroll charmander5 (Move.mk "Tackle" NORMAL 40 100 35 35)
                rattata3) as (before_roll & Hdraw).
    cbv zeta. rewrite (Hdraw 0 (mkRng [0.5; 0.25]%float [])).
    destruct before_roll as [damage|e]; [right|left]; reflexivity.
Defined.

(** C1 as stated fails.  The player's Charmander uses a Tackle whose accuracy
    is 0, so that no draw in [0, 1) is below accuracy/100 and the claimed
    check would always miss; the wild Rattata still goes from 7 HP to 1. *)
Lemma hit_despite_accuracy_zero :
  (Move.accuracy <$> (player blind_fight ≫= fun p => moves p !! 0%nat)) = Some 0
  /\ InputHandler.get_move_choice charmander5_blind (stdin blind_fight)
     = (Some 1, [])
  /\ current_hp (opponent_pokemon blind_fight) = 7
  /\ current_hp (opponent_pokemon (fst (fight blind_fight))) = 1
  /\ snd (fight blind_fight) = Next.
Proof. vm_compute. repeat split; reflexivity. Qed.

Lemma scene_ok_draws (b : Battle) (p : Pokemon) :
  scene_ok b -> player b = Some p ->
  (max_hp (opponent_pokemon b) =? 0) || (max_hp p =? 0) = false.
Proof.
  intros (p' & Hp' & Hmax & Hopp) Hp. rewrite Hp in Hp'.
  injection Hp' as <-. apply orb_false_iff.
  split; apply Z.eqb_neq; assumption.
Qed.

Lemma fight_cancelled (b : Battle) (p : Pokemon) (input' : list string) :
  player b = Some p ->
  InputHandler.get_move_choice p (stdin b) = (None, input') ->
  fight b = (set_stdin input' b, Continue).
Proof. intros Hp Hmove. unfold fight. now rewrite Hp, Hmove. Qed.

Lemma items_none (b : Battle) (p : Pokemon) :
  player b = Some p ->
  Inventory.get_items_by_type "healing" (inventory (trainer b)) = [] ->
  items b = (b, Continue).
Proof. intros Hp Hnone. unfold items. now rewrite Hp, Hnone. Qed.

Lemma items_cancelled (b : Battle) (p : Pokemon) (input' : list string) :
  player b = Some p ->
  InputHandler.get_item_choice
    (Inventory.get_items_by_type "healing" (inventory (trainer b))) (stdin b)
  = (None, input') ->
  items b = (set_stdin input' b, Continue).
Proof.
  intros Hp Hitem. unfold items. rewrite Hp.
  destruct (Inventory.get_items_by_type "healing" (inventory (trainer b)))
    as [|entry entries].
  - injection Hitem as <-. now destruct b.
  - now rewrite Hitem.
Qed.

Lemma switch_alone (b : Battle) :
  (length (pokemon_team (trainer b)) <= 1)%nat -> switch b = (b, Continue).
Proof.
  intros Hone. unfold switch.
  assert ((1 <? Z.of_nat (length (pokemon_team (trainer b)))) = false) as ->
    by (apply Z.ltb_ge; lia).
  reflexivity.
Qed.

Lemma switch_cancelled (b : Battle) (input' : list string) :
  (1 < length (pokemon_team (trainer b)))%nat ->
  InputHandler.get_pokemon_choice (pokemon_team (trainer b)) (stdin b)
  = (None, input') ->
  switch b = (set_stdin input' b, Continue).
Proof.
  intros Hteam Hchoice. unfold switch.
  assert ((1 <? Z.of_nat (length (pokemon_team (trainer b)))) = true) as ->
    by (apply Z.ltb_lt; lia).
  now rewrite Hchoice.
Qed.

Lemma position_to_nat (len : nat) (i : Z) (k : nat) :
  0 <= i -> Py.position len i = Ok k -> k = Z.to_nat i.
Proof.
  intros Hi. unfold Py.position.
  assert ((i <? 0) = false) as -> by (apply Z.ltb_ge; lia).
  destruct ((i <? 0) || (Z.of_nat len <=? i)); [discriminate|].
  now intros [= <-].
Qed.

Lemma pokemon_choice_valid (team : list Pokemon) (input : list string)
    (n : Z) (input' : list string) :
  InputHandler.get_pokemon_choice team input = (Some n, input') ->
  1 <= n <= Z.of_nat (length team)
  /\ exists q, team !! Z.to_nat (n - 1) = Some q /\ 0 < current_hp q.
Proof.
  unfold InputHandler.get_pokemon_choice.
  destruct team as [|q0 team0]; [discriminate|].
  set (team := q0 :: team0).
  induction input as [|line rest IH]; cbn [InputHandler.pokemon_choice_loop];
    [discriminate|].
  destruct (Py.isdigit line).
  - destruct ((1 <=? Py.int_of_str line)
              && (Py.int_of_str line <=? Z.of_nat (length team))) eqn:Hrange;
      [|exact IH].
    destruct (team !! Z.to_nat (Py.int_of_str line - 1)) as [q|] eqn:Hq;
      [|discriminate].
    destruct (0 <? current_hp q) eqn:Hhp; [|exact IH].
    intros [= <- <-]. apply andb_true_iff in Hrange as [H1 H2].
    apply Z.leb_le in H1, H2. split; [lia|].
    exists q. split; [exact Hq|apply Z.ltb_lt; exact Hhp].
  - destruct (Py.str_in (Py.lower line) ["back"; "cancel"]);
      [discriminate|exact IH].
Qed.

Lemma switch_to_active (b : Battle) (n : Z) (input' : list string) :
  (1 < length (pokemon_team (trainer b)))%nat ->
  InputHandler.get_pokemon_choice (pokemon_team (trainer b)) (stdin b)
  = (Some n, input') ->
  Z.to_nat (n - 1) = player_pokemon b ->
  switch b = (set_stdin input' b, Continue).
Proof.
  intros Hteam Hchoice Hsame. unfold switch.
  assert ((1 <? Z.of_nat (length (pokemon_team (trainer b)))) = true) as ->
    by (apply Z.ltb_lt; lia).
  rewrite Hchoice.
  destruct (pokemon_choice_valid _ _ _ _ Hchoice) as [Hn _].
  destruct (negb (n =? 0)
            && (n <=? Z.of_nat (length (pokemon_team (trainer b)))));
    [|reflexivity].
  unfold Py.index.
  destruct (Py.position (length (pokemon_team (trainer b))) (n - 1))
    as [k|e] eqn:Hk; simpl; [|reflexivity].
  destruct (pokemon_team (trainer b) !! k) as [new_pokemon|]; [|reflexivity].
  apply position_to_nat in Hk; [|lia]. subst k.
  rewrite Hsame, Nat.eqb_refl. reflexivity.
Qed.

Lemma run_from_trainer (b : Battle) :
  is_wild b = false -> run b = (b, Continue).
Proof. intros Htrainer. unfold run. now rewrite Htrainer. Qed.

Lemma rejected_iteration (b : Battle) (input' : list string) :
  scene_ok b -> rejected b input' ->
  battle_iteration b = (set_stdin input' b, Continue).
Proof.
  intros Hscene Hrej. pose proof Hscene as (p & Hp & _).
  unfold battle_iteration. rewrite Hp.
  rewrite (scene_ok_draws b p Hscene Hp).
  destruct Hrej as [input q input' Hmenu Hq Hmove
                   |input Hmenu Hnone
                   |input input' Hmenu Hitem
                   |input Hmenu Hone
                   |input input' Hmenu Hsize Hteam
                   |input n input' Hmenu Hsize Hteam Hsame
                   |input Hmenu Htrainer];
    rewrite Hmenu; cbn [default Z.eqb Pos.eqb].
  - now rewrite (fight_cancelled (set_stdin input b) q input' Hq Hmove).
  - now rewrite (items_none (set_stdin input b) p Hp Hnone).
  - now rewrite (items_cancelled (set_stdin input b) p input' Hp Hitem).
  - now rewrite (switch_alone (set_stdin input b) Hone).
  - now rewrite (switch_cancelled (set_stdin input b) input' Hsize Hteam).
  - now rewrite (switch_to_active (set_stdin input b) n input' Hsize Hteam
                   Hsame).
  - now rewrite (run_from_trainer (set_stdin input b) Htrainer).
Qed.

Lemma rejected_any_turn (b : Battle) (input' : list string) (turn : Z) :
  rejected b input' -> rejected (set_battle_turn turn b) input'.
Proof.
  intros Hrej.
  destruct Hrej as [input q input' Hmenu Hq Hmove
                   |input Hmenu Hnone
                   |input input' Hmenu Hitem
                   |input Hmenu Hone
                   |input input' Hmenu Hsize Hteam
                   |input n input' Hmenu Hsize Hteam Hsame
                   |input Hmenu Htrainer].
  - exact (NoMoveChosen (set_battle_turn turn b) input q input' Hmenu Hq Hmove).
  - exact (NoUsableItems (set_battle_turn turn b) input Hmenu Hnone).
  - exact (NoItemChosen (set_battle_turn turn b) input input' Hmenu Hitem).
  - exact (NoOtherPokemon (set_battle_turn turn b) input Hmenu Hone).
  - exact (NoPokemonChosen (set_battle_turn turn b) input input' Hmenu Hsize Hteam).
  - exact (ActivePokemonChosen (set_battle_turn turn b) input n input' Hmenu Hsize Hteam Hsame).
  - exact (NoRunFromTrainer (set_battle_turn turn b) input Hmenu Htrainer).
Qed.

(** C7 (as amended).  An invalid selection changes no battle state, and the
    opponent does not act, but it costs a turn when the loop is what turns
    it down.  A number out of range, a move without PP and a fainted switch
    target are asked for again by the prompt itself, which reads on and
    touches nothing.  A cancelled move, item or switch prompt, an empty list
    of healing items, a team of one, the choice of the creature already
    fighting and a run from a trainer battle are turned down by the loop:
    the body ends in [continue] with everything but the input read as it
    was (HP, PP, roster, inventory, generator), and the loop goes on with
    the turn counter advanced by one. *)
Theorem rejected_selection_costs_a_turn :
  (* asked again by the prompt itself *)
  (forall p line rest,
     Py.isdigit line = true ->
     (Py.int_of_str line < 1
      \/ Z.of_nat (length (moves p)) < Py.int_of_str line
      \/ exists move,
           moves p !! Z.to_nat (Py.int_of_str line - 1) = Some move
           /\ Move.pp move <= 0) ->
     InputHandler.get_move_choice p (line :: rest)
     = InputHandler.get_move_choice p rest)
  /\ (forall team line rest,
        team <> [] -> Py.isdigit line = true ->
        (Py.int_of_str line < 1
         \/ Z.of_nat (length team) < Py.int_of_str line
         \/ exists q,
              team !! Z.to_nat (Py.int_of_str line - 1) = Some q
              /\ current_hp q <= 0) ->
        InputHandler.get_pokemon_choice team (line :: rest)
        = InputHandler.get_pokemon_choice team rest)
  /\ (forall held line rest,
        held <> [] -> Py.isdigit line = true ->
        (Py.int_of_str line < 1
         \/ Z.of_nat (length held) < Py.int_of_str line) ->
        InputHandler.get_item_choice held (line :: rest)
        = InputHandler.get_item_choice held rest)
  (* turned down by the loop *)
  /\ (forall n b input',
        loop_condition b = true -> scene_ok b -> rejected b input' ->
        battle_iteration b = (set_stdin input' b, Continue)
        /\ battle_loop_from (S n) b
           = battle_loop_from n
               (set_stdin input' (set_battle_turn (battle_turn b + 1) b))).
Proof.
  split; [|split; [|split; [|]]].
  - intros p line rest Hdigit Hbad. cbn [InputHandler.get_move_choice].
    rewrite Hdigit.
    destruct ((1 <=? Py.int_of_str line)
              && (Py.int_of_str line <=? Z.of_nat (length (moves p))))
      eqn:Hrange; [|reflexivity].
    apply andb_true_iff in Hrange as [H1 H2]. apply Z.leb_le in H1, H2.
    destruct Hbad as [Hlow|[Hhigh|(move & Hmove & Hpp)]]; [lia|lia|].
    rewrite Hmove.
    assert ((0 <? Move.pp move) = false) as -> by (apply Z.ltb_ge; lia).
    reflexivity.
  - intros team line rest Hteam Hdigit Hbad.
    unfold InputHandler.get_pokemon_choice.
    destruct team as [|q0 team0]; [contradiction|].
    set (team := q0 :: team0) in *.
    cbn [InputHandler.pokemon_choice_loop]. rewrite Hdigit.
    destruct ((1 <=? Py.int_of_str line)
              && (Py.int_of_str line <=? Z.of_nat (length team)))
      eqn:Hrange; [|reflexivity].
    apply andb_true_iff in Hrange as [H1 H2]. apply Z.leb_le in H1, H2.
    destruct Hbad as [Hlow|[Hhigh|(q & Hq & Hhp)]]; [lia|lia|].
    rewrite Hq.
    assert ((0 <? current_hp q) = false) as -> by (apply Z.ltb_ge; lia).
    reflexivity.
  - intros held line rest Hheld Hdigit Hbad.
    unfold InputHandler.get_item_choice.
    destruct held as [|e0 held0]; [contradiction|].
    set (held := e0 :: held0) in *.
    cbn [InputHandler.item_choice_loop]. rewrite Hdigit.
    rewrite length_map.
    destruct ((0 <=? Py.int_of_str line - 1)
              && (Py.int_of_str line - 1 <? Z.of_nat (length held)))
      eqn:Hrange; [|reflexivity].
    apply andb_true_iff in Hrange as [H1 H2].
    apply Z.leb_le in H1. apply Z.ltb_lt in H2. lia.
  - intros n b input' Hloop Hscene Hrej.
    split; [exact (rejected_iteration b input' Hscene Hrej)|].
    cbn [battle_loop_from]. rewrite Hloop.
    assert (Hscene1 : scene_ok (set_battle_turn (battle_turn b + 1) b))
      by exact Hscene.
    rewrite (rejected_iteration _ input' Hscene1
               (rejected_any_turn b input' _ Hrej)).
    reflexivity.
Qed.

Lemma rejected_selection_costs_a_turn_witness :
  (Py.isdigit "9" = true
   /\ Z.of_nat (length (moves charmander5)) < Py.int_of_str "9"
   /\ loop_condition empty_bag_battle = true
   /\ scene_ok empty_bag_battle
   /\ rejected empty_bag_battle ["1"; "1"])
  /\ InputHandler.get_move_choice charmander5 ["9"; "1"]
     = InputHandler.get_move_choice charmander5 ["1"]
  /\ battle_iteration empty_bag_battle
     = (set_stdin ["1"; "1"] empty_bag_battle, Continue)
  /\ battle_loop_from 100 empty_bag_battle
     = battle_loop_from 99
         (set_stdin ["1"; "1"] (set_battle_turn 1 empty_bag_battle)).
Proof.
  assert (Hdigit : Py.isdigit "9" = true) by reflexivity.
  assert (Hhigh : Z.of_nat (length (moves charmander5)) < Py.int_of_str "9")
    by (vm_compute; reflexivity).
  assert (Hloop : loop_condition empty_bag_battle = true) by reflexivity.
  assert (Hscene : scene_ok empty_bag_battle).
  { exists charmander5. repeat split; simpl; lia. }
  assert (Hrej : rejected empty_bag_battle ["1"; "1"]).
  { apply NoUsableItems; reflexivity. }
  split; [repeat split; assumption|].
  destruct rejected_selection_costs_a_turn as (Hmove & _ & _ & Hturn).
  split; [apply Hmove; [exact Hdigit|right; left; exact Hhigh]|].
  exact (Hturn 99%nat empty_bag_battle ["1"; "1"] Hloop Hscene Hrej).
Defined.

(** C7 as stated fails.  With no healing item in the bag the player asks for
    the bag a hundred times: each attempt advances the turn counter, and the
    battle ends in a draw at turn 100 with the trainer, the opponent and the
    generator as they were. *)
Lemma hundred_rejections_make_a_draw :
  let '(b', result) :=
    battle_loop red_without_potions 0 rattata3 true (mkRng [] [])
      (repeat "2" 100) in
  result = Draw
  /\ battle_turn b' = 100
  /\ trainer b' = red_without_potions
  /\ opponent_pokemon b' = rattata3
  /\ rng b' = mkRng [] []
  /\ stdin b' = [].
Proof. vm_compute. repeat split; reflexivity. Qed.

(** C3, at the failing input.  A level-5 Charmander with 0 experience beats
    a wild level-3 Rattata with two Tackles.  The battle ends in victory and
    awards [floor(30 * max(1, 3 - 5 + 5) / 10) = 9] experience, below the
    threshold of 30; the creature leaves the loop at level 6 with experience
    0, because the loop calls [level_up] to test for a level-up. *)
Lemma victory_grants_an_extra_level :
  let '(b', result) :=
    battle_loop red 0 rattata3 true (mkRng [0.5; 0.5; 0.5]%float [0%nat])
      ["1"; "1"; "1"; "1"] in
  result = Victory
  /\ calculate_exp_gain charmander5 rattata3 = Ok 9
  /\ experience charmander5 + 9 < experience_to_next_level charmander5
  /\ level charmander5 = 5
  /\ (level <$> player b') = Some 6
  /\ (experience <$> player b') = Some 0.
Proof. vm_compute. repeat split; reflexivity. Qed.

Lemma player_put_player (b : Battle) (p q : Pokemon) :
  player b = Some p -> player (put_player q b) = Some q.
Proof.
  unfold player, put_player. cbn [trainer set_trainer pokemon_team set_team
                                  player_pokemon].
  intros Hp. apply list_lookup_insert_eq. eapply lookup_lt_Some. exact Hp.
Qed.

(** Whenever the opponent has fainted, the loop levels the player's creature
    up, whatever its experience. *)
Lemma victory_always_levels (b : Battle) (p : Pokemon) :
  player b = Some p ->
  is_fainted (opponent_pokemon b) = true ->
  0 <= level p < 100 -> base_in_range (base_stats p) ->
  0 <= level (opponent_pokemon b) <= 100 ->
  exists b' p',
    after_action b = (b', Return Victory)
    /\ player b' = Some p' /\ level p + 1 <= level p'.
Proof.
  intros Hp Hfainted Hl Hb Ho. unfold after_action. rewrite Hp, Hfainted.
  rewrite calculate_exp_gain_exact by lia.
  set (g := level (opponent_pokemon b)
            * Z.max 1 (level (opponent_pokemon b) - level p + 5)).
  rewrite gain_experience_exact by (assumption || lia). cbn zeta.
  set (p1 := set_experience (experience p + g) p).
  destruct ((experience_to_next_level p <=? experience p + g)
            && (level p <? 100)).
  - destruct (Z.lt_ge_cases (level (leveled p1)) 100) as [Hlt|Hge].
    + rewrite level_up_exact by (simpl in *; (assumption || lia)).
      eexists _, _. split; [reflexivity|].
      split; [eapply player_put_player, player_put_player; exact Hp|].
      simpl. lia.
    + rewrite level_up_capped by assumption.
      eexists _, _. split; [reflexivity|].
      split; [eapply player_put_player, player_put_player; exact Hp|].
      simpl. lia.
  - rewrite level_up_exact by (assumption || (simpl; lia)).
    eexists _, _. split; [reflexivity|].
    split; [eapply player_put_player, player_put_player; exact Hp|].
    simpl. lia.
Qed.

(** More passes than [max_turns] change nothing. *)
Lemma battle_loop_enough (k : nat) (t : Trainer) (i : nat) (o : Pokemon)
    (w : bool) (r : Rng) (input : list string) :
  battle_loop_from (Z.to_nat max_turns + k) (mkBattle t i o w 0 r input)
  = battle_loop t i o w r input.
Proof.
  unfold battle_loop. induction k as [|k IH].
  - now rewrite Nat.add_0_r.
  - rewrite Nat.add_succ_r, battle_loop_fuel; [exact IH|].
    cbn [battle_turn]. unfold max_turns. lia.
Qed.

(* ===================================================================== *)
(** * Further properties: the bag *)
(* ===================================================================== *)

Lemma get_app_one (items : Inventory.t) (k item : string) (q : Z) :
  Inventory.get (items ++ [(k, q)])%list item
  = match Inventory.get items item with
    | Some v => Some v
    | None => if String.eqb k item then Some q else None
    end.
Proof.
  induction items as [|[k0 q0] rest IH]; simpl; [reflexivity|].
  destruct (String.eqb k0 item); [reflexivity|exact IH].
Qed.

Lemma get_none_not_in (items : Inventory.t) (k : string) :
  Inventory.get items k = None <-> ~ In k (map fst items).
Proof.
  induction items as [|[k0 q0] rest IH]; simpl.
  - tauto.
  - destruct (String.eqb_spec k0 k) as [E|E].
    + split; [discriminate|]. intros H. exfalso. apply H. now left.
    + rewrite IH. split.
      * intros H [H1|H1]; [congruence|contradiction].
      * intros H H1. apply H. now right.
Qed.

Lemma keys_set (items : Inventory.t) (k : string) (q : Z) :
  map fst (Inventory.set items k q) = map fst items.
Proof.
  induction items as [|[k0 q0] rest IH]; simpl; [reflexivity|].
  destruct (String.eqb k0 k); simpl; [reflexivity|now rewrite IH].
Qed.

Lemma del_absent (items : Inventory.t) (k : string) :
  ~ In k (map fst items) -> Inventory.del items k = items.
Proof.
  induction items as [|[k0 q0] rest IH]; simpl; [reflexivity|].
  intros H. destruct (String.eqb_spec k0 k) as [E|E]; simpl.
  - exfalso. apply H. now left.
  - f_equal. apply IH. intros H1. apply H. now right.
Qed.

Lemma set_set (items : Inventory.t) (k : string) (q q' : Z) :
  Inventory.set (Inventory.set items k q) k q' = Inventory.set items k q'.
Proof.
  induction items as [|[k0 q0] rest IH]; simpl; [reflexivity|].
  destruct (String.eqb k0 k) eqn:E; simpl; rewrite E; [reflexivity|].
  now rewrite IH.
Qed.

Lemma set_same (items : Inventory.t) (k : string) (q : Z) :
  Inventory.get items k = Some q -> Inventory.set items k q = items.
Proof.
  induction items as [|[k0 q0] rest IH]; simpl; [reflexivity|].
  destruct (String.eqb k0 k); [now intros [= ->]|].
  intros H. now rewrite IH.
Qed.

Lemma held_positive (items : Inventory.t) (k : string) (q : Z) :
  Forall (fun e => 0 < snd e) items -> Inventory.get items k = Some q -> 0 < q.
Proof.
  induction 1 as [|[k0 q0] rest Hq _ IH]; simpl; [discriminate|].
  destruct (String.eqb k0 k); [now intros [= <-]|exact IH].
Qed.

(** X1.  [add_item] raises what is held of the item by the quantity and of
    nothing else, whether the item was in the bag or not. *)
Theorem add_item_held (items : Inventory.t) (name item : string) (q : Z) :
  Inventory.held (Inventory.add_item name q items) item
  = Inventory.held items item + (if String.eqb item name then q else 0).
Proof.
  unfold Inventory.held, Inventory.add_item.
  destruct (Inventory.get items name) as [q0|] eqn:Hget.
  - rewrite get_set, Hget.
    destruct (String.eqb_spec item name) as [->|_]; simpl.
    + rewrite Hget. simpl. lia.
    + lia.
  - rewrite get_app_one.
    destruct (String.eqb_spec item name) as [->|Hne].
    + rewrite Hget, String.eqb_refl. simpl. lia.
    + destruct (Inventory.get items item); simpl; [lia|].
      destruct (String.eqb_spec name item) as [E|_]; [congruence|simpl; lia].
Qed.

(** X2.  For a positive quantity, [remove_item] succeeds exactly when
    [has_item] says the quantity is held; when it fails the bag is as it
    was, and when it succeeds what is held of the item drops by the quantity
    and of nothing else. *)
Theorem remove_item_held (items : Inventory.t) (name : string) (q : Z) :
  0 < q ->
  snd (Inventory.remove_item name q items) = Inventory.has_item name q items
  /\ (Inventory.has_item name q items = false ->
      fst (Inventory.remove_item name q items) = items)
  /\ (Inventory.has_item name q items = true ->
      forall item,
        Inventory.held (fst (Inventory.remove_item name q items)) item
        = Inventory.held items item
          - (if String.eqb item name then q else 0)).
Proof.
  intros Hq. unfold Inventory.has_item, Inventory.remove_item, Inventory.held.
  destruct (Inventory.get items name) as [q0|] eqn:Hget; simpl.
  - destruct (q <=? q0) eqn:Hle.
    + destruct (q0 - q =? 0) eqn:Hz; simpl;
        (split; [reflexivity|]); (split; [discriminate|]); intros _ item.
      * rewrite get_del. apply Z.eqb_eq in Hz.
        destruct (String.eqb_spec item name) as [->|_]; simpl;
          [rewrite Hget; simpl|]; lia.
      * rewrite get_set.
        destruct (String.eqb_spec item name) as [->|_]; simpl;
          [rewrite Hget; simpl|]; lia.
    + simpl. split; [reflexivity|]. split; [reflexivity|discriminate].
  - assert ((q <=? 0) = false) as -> by (apply Z.leb_gt; lia).
    split; [reflexivity|]. split; [reflexivity|discriminate].
Qed.

Lemma remove_item_held_witness :
  0 < 3
  /\ snd (Inventory.remove_item "Potion" 3 Inventory.init) = true
  /\ Inventory.held (fst (Inventory.remove_item "Potion" 3 Inventory.init))
       "Potion" = 2
  /\ snd (Inventory.remove_item "Potion" 6 Inventory.init) = false.
Proof.
  assert (H3 : 0 < 3) by lia. assert (H6 : 0 < 6) by lia.
  split; [exact H3|].
  destruct (remove_item_held Inventory.init "Potion" 3 H3) as (Hs & _ & Hh).
  destruct (remove_item_held Inventory.init "Potion" 6 H6) as (Hf & _ & _).
  split; [rewrite Hs; reflexivity|].
  split; [rewrite (Hh eq_refl "Potion"); reflexivity|].
  rewrite Hf. reflexivity.
Defined.

Lemma add_item_ok (items : Inventory.t) (name : string) (q : Z) :
  0 < q -> inventory_ok items -> inventory_ok (Inventory.add_item name q items).
Proof.
  intros Hq [Hnodup Hpos]. unfold Inventory.add_item.
  destruct (Inventory.get items name) as [q0|] eqn:Hget.
  - pose proof (held_positive _ _ _ Hpos Hget) as Hq0.
    split; [now rewrite keys_set|].
    clear Hnodup Hget. induction Hpos as [|[k0 v0] rest Hv Hrest IH]; simpl;
      [constructor|].
    destruct (String.eqb k0 name); constructor; simpl in *;
      try assumption; lia.
  - split.
    + rewrite map_app. simpl. apply NoDup_app. split; [exact Hnodup|].
      split.
      * intros k Hin Hk. apply list_elem_of_In in Hk.
        destruct Hk as [Hk|[]]. subst k.
        apply get_none_not_in in Hget. apply Hget.
        apply list_elem_of_In. exact Hin.
      * apply NoDup_singleton.
    + apply Forall_app. split; [exact Hpos|]. repeat constructor. exact Hq.
Qed.

Lemma remove_item_ok (items : Inventory.t) (name : string) (q : Z) :
  inventory_ok items ->
  inventory_ok (fst (Inventory.remove_item name q items)).
Proof.
  intros [Hnodup Hpos]. unfold Inventory.remove_item.
  destruct (Inventory.get items name) as [q0|] eqn:Hget;
    [|split; assumption].
  destruct (q <=? q0) eqn:Hle; [|split; assumption].
  destruct (q0 - q =? 0) eqn:Hz; simpl.
  - unfold Inventory.del. split.
    + clear Hpos Hget.
      induction items as [|[k0 v0] rest IH]; simpl; [constructor|].
      apply NoDup_cons in Hnodup as [Hk0 Hrest].
      destruct (String.eqb k0 name); simpl; [now apply IH|].
      apply NoDup_cons. split; [|now apply IH].
      intros Hin. apply Hk0. apply list_elem_of_In in Hin.
      apply in_map_iff in Hin as ([k1 v1] & Hk1 & Hin1). simpl in Hk1. subst k1.
      apply filter_In in Hin1 as [Hin1 _].
      apply list_elem_of_In. apply in_map_iff. exists (k0, v1). now split.
    + apply Forall_forall. intros e He.
      apply list_elem_of_In, filter_In in He as [He _].
      rewrite Forall_forall in Hpos. apply Hpos. now apply list_elem_of_In.
  - apply Z.leb_le in Hle. apply Z.eqb_neq in Hz.
    split; [now rewrite keys_set|].
    clear Hnodup Hget. induction Hpos as [|[k0 v0] rest Hv Hrest IH]; simpl;
      [constructor|].
    destruct (String.eqb k0 name); constructor; simpl in *;
      try assumption; lia.
Qed.

Lemma init_inventory_ok : inventory_ok Inventory.init.
Proof.
  apply add_item_ok; [lia|]. apply add_item_ok; [lia|]. split; constructor.
Qed.

(** X3.  The bag keeps the shape of a Python dict: starting from the bag of
    a new trainer, and whatever positive quantities are added and whatever
    quantities are removed, no item is listed twice and no entry is left at
    a quantity of 0 or less. *)
Theorem bag_stays_a_dict (items : Inventory.t) (name : string) (q : Z) :
  inventory_ok Inventory.init
  /\ (inventory_ok items -> 0 < q ->
      inventory_ok (Inventory.add_item name q items))
  /\ (inventory_ok items ->
      inventory_ok (fst (Inventory.remove_item name q items))).
Proof.
  split; [|split].
  - exact init_inventory_ok.
  - intros Hok Hq. now apply add_item_ok.
  - apply remove_item_ok.
Qed.

Lemma bag_stays_a_dict_witness :
  (inventory_ok Inventory.init /\ 0 < 4)
  /\ inventory_ok (Inventory.add_item "Revive" 4 Inventory.init)
  /\ inventory_ok (fst (Inventory.remove_item "Potion" 5 Inventory.init)).
Proof.
  destruct (bag_stays_a_dict Inventory.init "Revive" 4) as (Hinit & Hadd & _).
  destruct (bag_stays_a_dict Inventory.init "Potion" 5) as (_ & _ & Hrem).
  assert (H4 : 0 < 4) by lia.
  split; [split; assumption|]. split; [exact (Hadd Hinit H4)|exact (Hrem Hinit)].
Defined.

(** X4.  Adding a positive quantity of an item and removing it again gives
    the very bag back, entry for entry and in the same order. *)
Theorem add_then_remove (items : Inventory.t) (name : string) (q : Z) :
  inventory_ok items -> 0 < q ->
  Inventory.remove_item name q (Inventory.add_item name q items)
  = (items, true).
Proof.
  intros [Hnodup Hpos] Hq. unfold Inventory.add_item.
  destruct (Inventory.get items name) as [q0|] eqn:Hget.
  - pose proof (held_positive _ _ _ Hpos Hget) as Hq0.
    unfold Inventory.remove_item. rewrite get_set, String.eqb_refl, Hget.
    assert ((q <=? q0 + q) = true) as -> by (apply Z.leb_le; lia).
    assert ((q0 + q - q =? 0) = false) as -> by (apply Z.eqb_neq; lia).
    rewrite set_set. replace (q0 + q - q) with q0 by lia.
    now rewrite set_same.
  - unfold Inventory.remove_item. rewrite get_app_one, Hget, String.eqb_refl.
    rewrite Z.leb_refl, Z.sub_diag. simpl.
    unfold Inventory.del. rewrite List.filter_app. simpl.
    rewrite String.eqb_refl. simpl. rewrite app_nil_r.
    f_equal. apply (del_absent items name). now apply get_none_not_in.
Qed.

Lemma add_then_remove_witness :
  (inventory_ok Inventory.init /\ 0 < 2)
  /\ Inventory.remove_item "Great Ball" 2
       (Inventory.add_item "Great Ball" 2 Inventory.init)
     = (Inventory.init, true).
Proof.
  pose proof init_inventory_ok as Hinit.
  assert (H2 : 0 < 2) by lia.
  split; [split; assumption|].
  exact (add_then_remove Inventory.init "Great Ball" 2 Hinit H2).
Defined.

(* ===================================================================== *)
(** * Further properties: moves and creatures *)
(* ===================================================================== *)

(** X5.  A move with [k] PP left can be used exactly [k] times: of [n] calls
    of [use_move] in a row, the first [min(n, k)] return True and take one
    PP each, and every later call returns False and leaves the PP at 0. *)
Theorem pp_counts_the_uses (n : nat) (m : Move.t) :
  0 <= Move.pp m ->
  use_times n m
  = (set_pp (Z.max 0 (Move.pp m - Z.of_nat n)) m,
     (replicate (Nat.min n (Z.to_nat (Move.pp m))) true
      ++ replicate (n - Z.to_nat (Move.pp m)) false)%list).
Proof.
  revert m. induction n as [|n IH]; intros m Hpp.
  - simpl. unfold set_pp. rewrite Z.sub_0_r, Z.max_r by exact Hpp.
    now destruct m.
  - cbn [use_times]. unfold Move.use_move.
    destruct (0 <? Move.pp m) eqn:Hpos.
    + apply Z.ltb_lt in Hpos. rewrite IH by (simpl; lia).
      unfold set_pp. cbn [Move.pp Move.name Move.type Move.power
                          Move.accuracy Move.max_pp].
      replace (Move.pp m - 1 - Z.of_nat n) with (Move.pp m - Z.of_nat (S n))
        by lia.
      f_equal.
      replace (Z.to_nat (Move.pp m)) with (S (Z.to_nat (Move.pp m - 1)))
        by lia.
      reflexivity.
    + apply Z.ltb_ge in Hpos. assert (Hz : Move.pp m = 0) by lia.
      rewrite IH by exact Hpp. unfold set_pp. rewrite Hz.
      rewrite !Z.max_l by lia. change (Z.to_nat 0) with 0%nat.
      rewrite !Nat.min_0_r, !Nat.sub_0_r. reflexivity.
Qed.

Lemma pp_counts_the_uses_witness :
  0 <= Move.pp (Move.mk "Dig" GROUND 80 100 2 10)
  /\ use_times 4 (Move.mk "Dig" GROUND 80 100 2 10)
     = (Move.mk "Dig" GROUND 80 100 0 10, [true; true; false; false]).
Proof.
  assert (H : 0 <= Move.pp (Move.mk "Dig" GROUND 80 100 2 10))
    by (simpl; lia).
  split; [exact H|].
  exact (pp_counts_the_uses 4 _ H).
Defined.

(** X6.  The PP of a move stays between 0 and its maximum under [use_move]
    and under [restore_pp] (with no amount, or an amount that is not
    negative); [restore_pp] without an amount fills it, and
    [restore_pp(1)] gives back the PP that a successful [use_move] took. *)
Theorem pp_stays_in_range (m : Move.t) (amount : Z) :
  pp_ok m ->
  pp_ok (fst (Move.use_move m))
  /\ pp_ok (restore_pp None m)
  /\ Move.pp (restore_pp None m) = Move.max_pp m
  /\ (0 <= amount -> pp_ok (restore_pp (Some amount) m))
  /\ (snd (Move.use_move m) = true ->
      restore_pp (Some 1) (fst (Move.use_move m)) = m).
Proof.
  unfold pp_ok, Move.use_move, restore_pp. intros Hpp.
  destruct (0 <? Move.pp m) eqn:Hpos; simpl.
  - apply Z.ltb_lt in Hpos. repeat split; try lia.
    intros _. rewrite Z.min_r by lia.
    replace (Move.pp m - 1 + 1) with (Move.pp m) by lia. now destruct m.
  - repeat split; solve [lia | discriminate].
Qed.

Lemma pp_stays_in_range_witness :
  pp_ok (Move.mk "Ember" FIRE 40 100 25 25)
  /\ restore_pp (Some 1)
       (fst (Move.use_move (Move.mk "Ember" FIRE 40 100 25 25)))
     = Move.mk "Ember" FIRE 40 100 25 25.
Proof.
  assert (H : pp_ok (Move.mk "Ember" FIRE 40 100 25 25))
    by (unfold pp_ok; simpl; lia).
  split; [exact H|].
  destruct (pp_stays_in_range _ 0 H) as (_ & _ & _ & _ & Hback).
  exact (Hback eq_refl).
Defined.

Lemma new_pokemon_exact (s : string) (l : Z) :
  0 <= l <= 100 -> new_pokemon s l = Ok (constructed s l).
Proof.
  intros Hl. unfold new_pokemon.
  destruct (species_base_in_range s) as (Hhp & Hat & Hde & Hsa & Hsd & Hsp).
  rewrite exp_to_next_exact by lia.
  rewrite !calculate_stat_exact by lia. reflexivity.
Qed.

Lemma stat_at_least_5 (base l : Z) : 0 <= base -> 0 <= l -> 5 <= stat base l.
Proof.
  intros Hb Hl. unfold stat.
  assert (0 <= (2 * base + 15) * l / 100) by (apply Z.div_pos; nia). lia.
Qed.

Lemma stat_monotone_base (b b' l : Z) :
  b <= b' -> 0 <= l -> stat b l <= stat b' l.
Proof.
  intros Hb Hl. unfold stat.
  assert ((2 * b + 15) * l / 100 <= (2 * b' + 15) * l / 100)
    by (apply Z.div_le_mono; nia).
  lia.
Qed.

Lemma move_database_full (n : string) (m : Move.t) :
  move_database n = Some m -> Move.pp m = Move.max_pp m /\ 0 < Move.pp m.
Proof.
  unfold move_database.
  repeat (match goal with |- context [String.eqb ?a ?b] =>
                            destruct (String.eqb a b) end);
    intros [= <-]; simpl; lia.
Qed.

Lemma initial_moves_full (s : string) :
  Forall (fun m => Move.pp m = Move.max_pp m /\ 0 < Move.pp m)
    (get_initial_moves s).
Proof.
  unfold get_initial_moves.
  induction (species_moves s) as [|n ns IH]; simpl; [constructor|].
  destruct (move_database n) as [m|] eqn:E; [|exact IH].
  constructor; [now apply (move_database_full n)|exact IH].
Qed.

Lemma initial_moves_nonempty (s : string) :
  (1 <= length (get_initial_moves s) <= 3)%nat.
Proof.
  unfold get_initial_moves, species_moves.
  repeat (match goal with |- context [String.eqb ?a ?b] =>
                            destruct (String.eqb a b) end);
    simpl; lia.
Qed.

(** X7.  For every species name, listed or not, and every level from 0 to
    100 the constructor raises nothing and gives a creature that can fight:
    at full HP, which is at least 5, with no status and no experience, named
    after its species, and with one to three moves, each at its full PP. *)
Theorem new_pokemon_ready (s : string) (l : Z) :
  0 <= l <= 100 ->
  exists p,
    new_pokemon s l = Ok p
    /\ species p = s /\ nickname p = s /\ level p = l /\ experience p = 0
    /\ current_hp p = max_hp p /\ 5 <= max_hp p /\ is_fainted p = false
    /\ status_condition p = None
    /\ (1 <= length (moves p) <= 3)%nat
    /\ Forall (fun m => Move.pp m = Move.max_pp m /\ 0 < Move.pp m) (moves p).
Proof.
  intros Hl. exists (constructed s l).
  destruct (species_base_in_range s) as (Hhp & _).
  pose proof (stat_at_least_5 (Stats.hp (Species.base_stats
                (get_species_data s))) l ltac:(lia) ltac:(lia)) as H5.
  split; [now apply new_pokemon_exact|].
  unfold is_fainted. simpl.
  repeat split; try reflexivity; try exact H5;
    try apply initial_moves_nonempty; try apply initial_moves_full.
  apply Z.leb_gt. lia.
Qed.

Lemma new_pokemon_ready_witness :
  0 <= 37 <= 100
  /\ exists p, new_pokemon "Missingno" 37 = Ok p /\ max_hp p = 47
               /\ length (moves p) = 1%nat.
Proof.
  assert (H : 0 <= 37 <= 100) by lia. split; [exact H|].
  destruct (new_pokemon_ready "Missingno" 37 H) as (p & Hp & _).
  exists p. split; [exact Hp|].
  assert (E : new_pokemon "Missingno" 37 = Ok (constructed "Missingno" 37))
    by (vm_compute; reflexivity).
  rewrite E in Hp. injection Hp as <-. split; reflexivity.
Defined.

(** X8.  Levelling up a creature fresh from the constructor gives the
    creature that the constructor builds one level higher in every field of
    the record but one: [level_up] never writes the catch level, which stays
    at the level of construction, where the constructor one level higher
    records its own. *)
Theorem level_up_of_new_keeps_catch_level (s : string) (l : Z) :
  0 <= l < 100 ->
  exists p q evolves,
    new_pokemon s l = Ok p
    /\ new_pokemon s (l + 1) = Ok q
    /\ level_up p = Ok (set_catch_level l q, evolves)
    /\ catch_level p = l /\ catch_level q = l + 1.
Proof.
  intros Hl. exists (constructed s l), (constructed s (l + 1)).
  eexists. split; [apply new_pokemon_exact; lia|].
  split; [apply new_pokemon_exact; lia|].
  split; [|split; reflexivity].
  rewrite level_up_exact; [|simpl; lia|apply species_base_in_range].
  f_equal. f_equal. unfold leveled, constructed, set_catch_level. simpl.
  f_equal. lia.
Qed.

Lemma level_up_of_new_keeps_catch_level_witness :
  0 <= 5 < 100
  /\ exists p q evolves,
       new_pokemon "Caterpie" 5 = Ok p
       /\ new_pokemon "Caterpie" (5 + 1) = Ok q
       /\ level_up p = Ok (set_catch_level 5 q, evolves)
       /\ catch_level p = 5 /\ catch_level q = 5 + 1.
Proof.
  assert (H : 0 <= 5 < 100) by lia. split; [exact H|].
  exact (level_up_of_new_keeps_catch_level "Caterpie" 5 H).
Defined.

(** X9.  Below level 100, what [level_up] returns is what [can_evolve]
    answers on the creature it leaves; at level 100 and above it returns
    False and changes nothing, whatever [can_evolve] answers. *)
Theorem level_up_reports_can_evolve (p p' : Pokemon) (evolves : bool) :
  level_up p = Ok (p', evolves) ->
  evolves = (level p <? 100) && can_evolve p'
  /\ (100 <= level p -> p' = p).
Proof.
  unfold level_up. destruct (100 <=? level p) eqn:Hcap.
  - intros [= <- <-]. apply Z.leb_le in Hcap.
    assert ((level p <? 100) = false) as -> by (apply Z.ltb_ge; lia).
    split; [reflexivity|reflexivity].
  - apply Z.leb_gt in Hcap.
    assert ((level p <? 100) = true) as -> by (apply Z.ltb_lt; lia).
    unfold mbind, res_bind.
    destruct (calculate_exp_to_next_level _); [|discriminate].
    repeat (destruct (Stats.calculate_stat _ _); [|discriminate]).
    unfold can_evolve.
    destruct (Species.evolution (species_data p)) as [ev|] eqn:Hev;
      [destruct (Species.ev_level ev) eqn:Hlv|];
      intros [= <- <-]; simpl; rewrite Hev; try rewrite Hlv;
      (split; [reflexivity|lia]).
Qed.

Lemma level_up_reports_can_evolve_witness :
  level_up (constructed "Caterpie" 6)
  = Ok (set_catch_level 6 (constructed "Caterpie" 7), true)
  /\ true = (level (constructed "Caterpie" 6) <? 100)
            && can_evolve (set_catch_level 6 (constructed "Caterpie" 7)).
Proof.
  assert (H : level_up (constructed "Caterpie" 6)
              = Ok (set_catch_level 6 (constructed "Caterpie" 7), true))
    by (vm_compute; reflexivity).
  split; [exact H|].
  exact (proj1 (level_up_reports_can_evolve _ _ _ H)).
Defined.

Lemma evolved_species_unlisted (s : string) (ev : Species.evo) :
  Species.evolution (get_species_data s) = Some ev ->
  get_species_data (Species.evolves_to ev) = unlisted_species
  /\ Stats.hp (Species.base_stats (get_species_data s)) <= 50
  /\ get_initial_moves (Species.evolves_to ev)
     = [Move.mk "Tackle" NORMAL 40 100 35 35]
  /\ (2 <= length (get_initial_moves s))%nat.
Proof.
  unfold get_species_data at 1 3.
  unfold get_initial_moves at 2. unfold species_moves.
  repeat (match goal with
          | |- context [String.eqb s ?b] => destruct (String.eqb s b)
          end);
    intros [= <-]; simpl; (split; [reflexivity|]); (split; [lia|]);
    (split; [reflexivity|lia]).
Qed.

(** X10.  A creature as the constructor builds it (whatever its HP, PP and
    experience since), when [evolve] finds an evolution entry for its
    species, takes the new species name but the entry of an unlisted
    species, since no evolved form is in the species table: its type becomes
    NORMAL and its base stats 50 each, whatever it was before.  Level,
    experience, nickname and moves are kept, the missing HP stays the same,
    the HP invariant holds after it as before, and it cannot evolve
    again. *)
Theorem evolve_gives_an_unlisted_species (p : Pokemon) (ev : Species.evo) :
  stock p -> hp_invariant p ->
  Species.evolution (species_data p) = Some ev ->
  exists p',
    evolve p = Ok (p', Some (species p))
    /\ species p' = Species.evolves_to ev
    /\ species_data p' = unlisted_species
    /\ types p' = [NORMAL]
    /\ base_stats p' = Stats.mk 50 50 50 50 50 50
    /\ max_hp p' = stat 50 (level p)
    /\ max_hp p' - current_hp p' = max_hp p - current_hp p
    /\ hp_invariant p'
    /\ level p' = level p /\ experience p' = experience p
    /\ nickname p' = nickname p /\ moves p' = moves p
    /\ can_evolve p' = false
    /\ evolve p' = Ok (p', None).
Proof.
  intros (Hl & _ & Hnew) Hhp Hev.
  rewrite new_pokemon_exact in Hnew by exact Hl.
  injection Hnew as _ Hdata _ Hbase Hmax _ _ _ _ _ _.
  rewrite <- Hdata in Hev.
  destruct (evolved_species_unlisted _ _ Hev) as (Hun & Hle & _).
  unfold evolve. rewrite <- Hdata, Hev, Hun. cbn [unlisted_species
    Species.base_stats Species.types Stats.hp Stats.attack Stats.defense
    Stats.special_attack Stats.special_defense Stats.speed].
  rewrite !calculate_stat_exact by lia.
  eexists. split; [reflexivity|].
  unfold can_evolve, evolve, hp_invariant in *. simpl.
  pose proof (stat_monotone_base _ 50 (level p) Hle ltac:(lia)) as Hmono.
  repeat split; try reflexivity; try lia.
Qed.

Lemma evolve_gives_an_unlisted_species_witness :
  (stock charmander5 /\ hp_invariant charmander5
   /\ Species.evolution (species_data charmander5)
      = Some (Species.mkEvolution (Some 16) None "Charmeleon"))
  /\ exists p',
       evolve charmander5 = Ok (p', Some "Charmander")
       /\ species p' = "Charmeleon" /\ types p' = [NORMAL]
       /\ max_hp p' = 10.
Proof.
  assert (Hs : stock charmander5)
    by (unfold stock; simpl; repeat split; try lia; vm_compute; reflexivity).
  assert (Hh : hp_invariant charmander5) by (unfold hp_invariant; simpl; lia).
  assert (He : Species.evolution (species_data charmander5)
               = Some (Species.mkEvolution (Some 16) None "Charmeleon"))
    by reflexivity.
  split; [split; [exact Hs|split; [exact Hh|exact He]]|].
  destruct (evolve_gives_an_unlisted_species _ _ Hs Hh He)
    as (p' & H1 & H2 & _ & H4 & _ & H6 & _).
  exists p'. repeat split; assumption.
Defined.

Lemma neutral_fold (a : PokemonType) (ts : list PokemonType) :
  TYPE_EFFECTIVENESS a = None ->
  fold_left
    (fun e t => (e * get_type_effectiveness_static a t)%float) ts 1.0%float
  = 1.0%float.
Proof.
  intros Hrow. induction ts as [|t ts IH]; [reflexivity|].
  simpl. unfold get_type_effectiveness_static at 2. rewrite Hrow.
  exact IH.
Qed.

(** X11.  The chart has rows for FIRE, WATER, ELECTRIC and GRASS only: an
    attack of any other type is neutral (multiplier exactly 1.0, no
    message) against every defender, whatever its types and however many
    it has. *)
Theorem unlisted_attack_types_are_neutral (a : PokemonType)
    (ts : list PokemonType) :
  a <> FIRE -> a <> WATER -> a <> ELECTRIC -> a <> GRASS ->
  get_type_effectiveness a ts = 1.0%float
  /\ (forall t, get_type_effectiveness_static a t = 1.0%float)
  /\ get_effectiveness_message a ts = EmptyString.
Proof.
  intros Hf Hw He Hg.
  assert (Hrow : TYPE_EFFECTIVENESS a = None) by (destruct a; try reflexivity; exfalso; auto).
  split; [|split].
  - unfold get_type_effectiveness. rewrite Hrow.
    induction ts as [|t ts IH]; [reflexivity|exact IH].
  - intros t. unfold get_type_effectiveness_static. now rewrite Hrow.
  - unfold get_effectiveness_message. now rewrite neutral_fold.
Qed.

Lemma unlisted_attack_types_are_neutral_witness :
  (FIGHTING <> FIRE /\ FIGHTING <> WATER /\ FIGHTING <> ELECTRIC
   /\ FIGHTING <> GRASS)
  /\ get_type_effectiveness FIGHTING [NORMAL; ROCK] = 1.0%float.
Proof.
  assert (H1 : FIGHTING <> FIRE) by discriminate.
  assert (H2 : FIGHTING <> WATER) by discriminate.
  assert (H3 : FIGHTING <> ELECTRIC) by discriminate.
  assert (H4 : FIGHTING <> GRASS) by discriminate.
  split; [repeat split; assumption|].
  exact (proj1 (unlisted_attack_types_are_neutral FIGHTING [NORMAL; ROCK]
                  H1 H2 H3 H4)).
Defined.

Lemma all_types_complete (t : PokemonType) : In t all_types.
Proof. destruct t; simpl; tauto. Qed.

Lemma chart_table : chart_check = true.
Proof. vm_compute. reflexivity. Qed.

(** X12.  Against a defender of one or two types, whatever they are, the
    multiplier of an attack is one of 0, 0.25, 0.5, 1, 2 and 4, and the
    message the engine shows, which it computes on its own from the static
    chart, agrees with it: super effective exactly above 1, not very
    effective exactly below 1, nothing at 1. *)
Theorem effectiveness_of_one_or_two_types (a t1 : PokemonType)
    (t2 : option PokemonType) :
  effectiveness_check a (t1 :: match t2 with Some t => [t] | None => [] end)
  = true.
Proof.
  pose proof chart_table as H. unfold chart_check in H.
  rewrite forallb_forall in H. specialize (H a (all_types_complete a)).
  rewrite forallb_forall in H. specialize (H t1 (all_types_complete t1)).
  apply andb_true_iff in H as [H1 H2].
  destruct t2 as [t|]; [|exact H1].
  rewrite forallb_forall in H2. exact (H2 t (all_types_complete t)).
Qed.

(* ===================================================================== *)
(** * Further properties: the trainer *)
(* ===================================================================== *)

Lemma first_usable_spec (team : list Pokemon) (k : nat) :
  match first_usable team k with
  | Some i =>
      (k <= i)%nat
      /\ existsb (fun p => negb (is_fainted p)) team = true
      /\ (exists p, team !! (i - k)%nat = Some p /\ is_fainted p = false)
      /\ (forall j q, (j < i - k)%nat -> team !! j = Some q ->
                      is_fainted q = true)
  | None =>
      existsb (fun p => negb (is_fainted p)) team = false
      /\ Forall (fun p => is_fainted p = true) team
  end.
Proof.
  revert k. induction team as [|p rest IH]; intros k; simpl.
  - split; [reflexivity|constructor].
  - destruct (is_fainted p) eqn:Hp; simpl.
    + specialize (IH (S k)). destruct (first_usable rest (S k)) as [i|].
      * destruct IH as (Hle & Hex & (q & Hq & Hfq) & Hbefore).
        split; [lia|]. split; [exact Hex|]. split.
        -- exists q. split; [|exact Hfq].
           replace (i - k)%nat with (S (i - S k)) by lia. exact Hq.
        -- intros j q' Hj Hq'. destruct j as [|j]; simpl in Hq'.
           ++ now injection Hq' as <-.
           ++ apply (Hbefore j); [lia|exact Hq'].
      * destruct IH as (Hex & Hall). split; [exact Hex|].
        constructor; assumption.
    + split; [lia|]. split; [reflexivity|]. rewrite Nat.sub_diag. split.
      * exists p. split; [reflexivity|exact Hp].
      * intros j q Hj. lia.
Qed.

(** X13.  [get_active_pokemon] and [has_usable_pokemon] agree: there is an
    active creature exactly when some member of the team has not fainted,
    it is then the first such member in team order, and with none every
    member has fainted. *)
Theorem active_is_first_usable (t : Trainer) :
  match get_active_pokemon t with
  | Some i =>
      has_usable_pokemon t = true
      /\ (exists p, pokemon_team t !! i = Some p /\ is_fainted p = false)
      /\ (forall j q, (j < i)%nat -> pokemon_team t !! j = Some q ->
                      is_fainted q = true)
  | None =>
      has_usable_pokemon t = false
      /\ Forall (fun p => is_fainted p = true) (pokemon_team t)
  end.
Proof.
  unfold get_active_pokemon, has_usable_pokemon.
  pose proof (first_usable_spec (pokemon_team t) 0) as H.
  destruct (first_usable (pokemon_team t) 0) as [i|]; [|exact H].
  rewrite Nat.sub_0_r in H. destruct H as (_ & H1 & H2 & H3).
  repeat split; assumption.
Qed.

Lemma active_is_first_usable_witness :
  get_active_pokemon
    (set_team [set_current_hp 0 charmander5; rattata3] red) = Some 1%nat
  /\ has_usable_pokemon
       (set_team [set_current_hp 0 charmander5; rattata3] red) = true
  /\ is_fainted (set_current_hp 0 charmander5) = true.
Proof.
  pose proof (active_is_first_usable
                (set_team [set_current_hp 0 charmander5; rattata3] red))
    as H.
  change (get_active_pokemon
            (set_team [set_current_hp 0 charmander5; rattata3] red))
    with (Some 1%nat) in H.
  cbv beta iota in H. destruct H as (Husable & _ & Hbefore).
  assert (Hlt : (0 < 1)%nat) by lia.
  split; [reflexivity|]. split; [exact Husable|].
  exact (Hbefore 0%nat (set_current_hp 0 charmander5) Hlt eq_refl).
Defined.


Lemma add_pokemon_spec (pokemon : Pokemon) (caught : bool) (t : Trainer) :
  let '(t', stored, in_team) := add_pokemon pokemon caught t in
  in_team = (Z.of_nat (length (pokemon_team t)) <? max_team_size t)
  /\ (if in_team
      then pokemon_team t' = (pokemon_team t ++ [stored])%list
           /\ pokemon_box t' = pokemon_box t
      else pokemon_team t' = pokemon_team t
           /\ pokemon_box t' = (pokemon_box t ++ [stored])%list)
  /\ (Z.of_nat (length (pokemon_team t)) <= max_team_size t ->
      Z.of_nat (length (pokemon_team t')) <= max_team_size t')
  /\ stored = (if caught
               then set_caught (name t) (current_location t) pokemon
               else pokemon)
  /\ species pokemon ∈ pokedex_seen t'
  /\ (if caught then species pokemon ∈ pokedex_caught t'
      else pokedex_caught t' = pokedex_caught t)
  /\ stats_pokemon_caught t'
     = stats_pokemon_caught t + (if caught then 1 else 0)
  /\ inventory t' = inventory t.
Proof.
  unfold add_pokemon.
  assert (Hteam : forall b : bool,
             pokemon_team
               (if b
                then set_pokedex (pokedex_seen t)
                       ({[species pokemon]} ∪ pokedex_caught t)
                       (add_pokemon_caught t)
                else t) = pokemon_team t) by (now intros []).
  assert (Hmax : forall b : bool,
             max_team_size
               (if b
                then set_pokedex (pokedex_seen t)
                       ({[species pokemon]} ∪ pokedex_caught t)
                       (add_pokemon_caught t)
                else t) = max_team_size t) by (now intros []).
  cbn [set_pokedex pokemon_team max_team_size]. rewrite Hteam, Hmax.
  destruct (Z.of_nat (length (pokemon_team t)) <? max_team_size t) eqn:Hroom.
  - apply Z.ltb_lt in Hroom.
    destruct caught; simpl; rewrite ?length_app; simpl;
      repeat split; try reflexivity; try lia; set_solver.
  - destruct caught; simpl; repeat split; try reflexivity; try lia;
      set_solver.
Qed.

(** X14.  [add_pokemon] loses no creature and never overfills the team: the
    creature goes to the end of the team when the team is below
    [max_team_size] (the call then returns True) and to the end of the box
    otherwise (False); a team within the limit stays within it; the species
    is entered as seen, and for a catch also as caught, with the trainer's
    name and location written on the creature and the catch counted
    once. *)
Theorem add_pokemon_places (pokemon : Pokemon) (caught : bool) (t : Trainer) :
  let '(t', stored, in_team) := add_pokemon pokemon caught t in
  in_team = (Z.of_nat (length (pokemon_team t)) <? max_team_size t)
  /\ (if in_team
      then pokemon_team t' = (pokemon_team t ++ [stored])%list
           /\ pokemon_box t' = pokemon_box t
      else pokemon_team t' = pokemon_team t
           /\ pokemon_box t' = (pokemon_box t ++ [stored])%list)
  /\ (Z.of_nat (length (pokemon_team t)) <= max_team_size t ->
      Z.of_nat (length (pokemon_team t')) <= max_team_size t')
  /\ stored = (if caught
               then set_caught (name t) (current_location t) pokemon
               else pokemon)
  /\ species pokemon ∈ pokedex_seen t'
  /\ (if caught then species pokemon ∈ pokedex_caught t'
      else pokedex_caught t' = pokedex_caught t)
  /\ stats_pokemon_caught t'
     = stats_pokemon_caught t + (if caught then 1 else 0)
  /\ inventory t' = inventory t.
Proof. exact (add_pokemon_spec pokemon caught t). Qed.

Lemma add_pokemon_places_witness :
  Z.of_nat (length (pokemon_team red)) <= max_team_size red
  /\ snd (add_pokemon rattata3 true red) = true
  /\ Z.of_nat
       (length (pokemon_team (fst (fst (add_pokemon rattata3 true red)))))
     <= max_team_size (fst (fst (add_pokemon rattata3 true red))).
Proof.
  assert (Hroom : Z.of_nat (length (pokemon_team red)) <= max_team_size red)
    by (simpl; lia).
  split; [exact Hroom|].
  pose proof (add_pokemon_places rattata3 true red) as H.
  destruct (add_pokemon rattata3 true red) as [[t' stored] in_team].
  destruct H as (Hin & _ & Hbound & _). cbn [fst snd].
  split; [rewrite Hin; reflexivity|exact (Hbound Hroom)].
Defined.


Lemma catch_pokemon_true (wild : Pokemon) (ball : string) (t : Trainer)
    (r : Rng) (t' : Trainer) (stored : Pokemon) (r' : Rng) :
  catch_pokemon wild ball t r = Ok (t', stored, r', true) ->
  let t1 :=
    set_inventory (fst (Inventory.remove_item ball 1 (inventory t))) t in
  Inventory.has_item ball 1 (inventory t) = true
  /\ (t', stored) = fst (add_pokemon (heal None wild) true t1)
  /\ r' = snd (Random.random r).
Proof.
  unfold catch_pokemon.
  destruct (Inventory.has_item ball 1 (inventory t)); simpl;
    [|discriminate].
  unfold mbind, res_bind.
  destruct (catch_probability wild ball) as [pr|]; [|discriminate].
  destruct (_ <? pr)%float; [|intros H; discriminate H].
  destruct (add_pokemon _ true _) as [[t2 st] fl] eqn:Hadd.
  intros [= <- <- <-]. simpl. repeat split; reflexivity.
Qed.

(** X15.  When [catch_pokemon] returns True, the ball was held and one is
    gone, and the creature is stored at full HP and without status, marked
    with the trainer's name and location, at the end of the team if the
    team had room and at the end of the box otherwise; its species is in
    the Pokedex as seen and caught, and the catch is counted once. *)
Theorem caught_creature_is_stored (wild : Pokemon) (ball : string)
    (t : Trainer) (r : Rng) (t' : Trainer) (stored : Pokemon) (r' : Rng) :
  catch_pokemon wild ball t r = Ok (t', stored, r', true) ->
  stored = set_caught (name t) (current_location t) (heal None wild)
  /\ current_hp stored = max_hp wild /\ max_hp stored = max_hp wild
  /\ status_condition stored = None
  /\ (if Z.of_nat (length (pokemon_team t)) <? max_team_size t
      then pokemon_team t' = (pokemon_team t ++ [stored])%list
           /\ pokemon_box t' = pokemon_box t
      else pokemon_team t' = pokemon_team t
           /\ pokemon_box t' = (pokemon_box t ++ [stored])%list)
  /\ species wild ∈ pokedex_seen t' /\ species wild ∈ pokedex_caught t'
  /\ stats_pokemon_caught t' = stats_pokemon_caught t + 1
  /\ (forall item,
        Inventory.held (inventory t') item
        = Inventory.held (inventory t) item
          - (if String.eqb item ball then 1 else 0)).
Proof.
  intros H. apply catch_pokemon_true in H. cbv zeta in H.
  destruct H as (Hheld & Hadd & _).
  set (t1 := set_inventory _ t) in Hadd.
  pose proof (add_pokemon_spec (heal None wild) true t1) as Hplace.
  destruct (add_pokemon (heal None wild) true t1) as [[t2 st] fl].
  simpl in Hadd. injection Hadd as -> ->.
  destruct Hplace as (Hfl & Hwhere & _ & Hst & Hseen & Hcaught & Hcount & Hinv).
  assert (Hsp : species (heal None wild) = species wild).
  { unfold heal. simpl. rewrite Z.eqb_refl. reflexivity. }
  rewrite Hsp in Hseen, Hcaught.
  assert (Hfull : heal None wild
                  = clear_status (set_current_hp (max_hp wild) wild)).
  { unfold heal. simpl. rewrite Z.eqb_refl. reflexivity. }
  split; [exact Hst|]. subst fl. subst t1. simpl in Hwhere.
  rewrite Hst, Hfull in Hwhere |- *. simpl.
  repeat split; try assumption.
  intros item. rewrite Hinv. simpl. apply held_remove_item. exact Hheld.
Qed.

Lemma caught_creature_is_stored_witness :
  exists t' stored r',
    catch_pokemon rattata3 "Pokeball" red (mkRng [0.2%float] [])
    = Ok (t', stored, r', true)
    /\ pokemon_team t' = [charmander5; stored]
    /\ original_trainer stored = Some "Red"
    /\ current_hp stored = 7.
Proof.
  assert (Hmax : max_hp rattata3 <> 0) by (simpl; lia).
  destruct (catch_pokemon_outcome rattata3 "Pokeball" red
              (mkRng [0.2%float] []) eq_refl Hmax) as (t' & st & Hc & _).
  assert (Hb : (fst (Random.random (mkRng [0.2%float] []))
                <? spec_probability (get_catch_rate rattata3)
                     (ball_modifier_of "Pokeball") (max_hp rattata3)
                     (current_hp rattata3) (status_condition rattata3))%float
               = true) by (vm_compute; reflexivity).
  rewrite Hb in Hc.
  exists t', st, (snd (Random.random (mkRng [0.2%float] []))).
  split; [exact Hc|].
  destruct (caught_creature_is_stored _ _ _ _ _ _ _ Hc)
    as (Hst & Hhp & _ & _ & Hwhere & _).
  simpl in Hwhere. destruct Hwhere as [Hteam _].
  split; [exact Hteam|]. split; [rewrite Hst; reflexivity|exact Hhp].
Defined.

Lemma level_up_species (p p' : Pokemon) (fl : bool) :
  level_up p = Ok (p', fl) -> species p' = species p.
Proof.
  unfold level_up. destruct (100 <=? level p); [now intros [= <- _]|].
  unfold mbind, res_bind.
  destruct (calculate_exp_to_next_level _); [|discriminate].
  repeat (destruct (Stats.calculate_stat _ _); [|discriminate]).
  destruct (Species.evolution (species_data p)) as [ev|];
    [destruct (Species.ev_level ev)|]; now intros [= <- _].
Qed.

Lemma gain_experience_species (a : Z) (p p' : Pokemon) (fl : bool) :
  gain_experience a p = Ok (p', fl) -> species p' = species p.
Proof.
  unfold gain_experience.
  destruct (_ <=? _); [|now intros [= <- _]].
  intros H. now apply level_up_species in H.
Qed.

Lemma heal_species (a : option Z) (p : Pokemon) :
  species (heal a p) = species p.
Proof.
  unfold heal. destruct a;
    match goal with |- context [if ?c then _ else _] => destruct c end;
    reflexivity.
Qed.

Lemma use_item_species (item : string) (p : Pokemon) (t t' : Trainer)
    (p' : Pokemon) (used : bool) :
  use_item item p t = Ok (t', p', used) -> species p' = species p.
Proof.
  unfold use_item.
  destruct (negb (Inventory.has_item item 1 (inventory t)));
    [now intros [= _ <- _]|].
  destruct (get_item_database item) as [d|]; [|now intros [= _ <- _]].
  destruct (String.eqb (Item.type d) "healing").
  - intros [= _ <- _]. destruct (Item.heal_amount d) as [a|].
    + destruct (a =? 999); apply heal_species.
    + destruct (Item.revive d && is_fainted p); reflexivity.
  - destruct (String.eqb (Item.type d) "misc"
              && String.eqb item "Rare Candy"); [|now intros [= _ <- _]].
    unfold mbind, res_bind.
    destruct (gain_experience _ p) as [[p1 fl]|] eqn:Hg; [|discriminate].
    intros [= _ <- _]. now apply gain_experience_species in Hg.
Qed.

Lemma use_item_false (item : string) (target : Pokemon) (t t' : Trainer)
    (target' : Pokemon) :
  use_item item target t = Ok (t', target', false) ->
  t' = t /\ target' = target.
Proof.
  unfold use_item.
  destruct (negb (Inventory.has_item item 1 (inventory t)));
    [now intros [= <- <-]|].
  destruct (get_item_database item) as [d|]; [|now intros [= <- <-]].
  destruct (String.eqb (Item.type d) "healing"); [discriminate|].
  destruct (String.eqb (Item.type d) "misc" && String.eqb item "Rare Candy");
    [|now intros [= <- <-]].
  unfold mbind, res_bind.
  destruct (gain_experience _ target) as [[p1 fl]|]; discriminate.
Qed.

Lemma use_item_true (item : string) (target : Pokemon) (t t' : Trainer)
    (target' : Pokemon) :
  use_item item target t = Ok (t', target', true) ->
  Inventory.has_item item 1 (inventory t) = true
  /\ t' = add_items_used
            (set_inventory
               (fst (Inventory.remove_item item 1 (inventory t))) t).
Proof.
  unfold use_item.
  destruct (Inventory.has_item item 1 (inventory t)); simpl;
    [|discriminate].
  destruct (get_item_database item) as [d|]; [|discriminate].
  destruct (String.eqb (Item.type d) "healing");
    [now intros [= <- <-]|].
  destruct (String.eqb (Item.type d) "misc" && String.eqb item "Rare Candy");
    [|discriminate].
  unfold mbind, res_bind.
  destruct (gain_experience _ target) as [[p1 fl]|]; [|discriminate].
  now intros [= <- <-].
Qed.

(** X16.  [use_item] on a member of the team keeps the books.  When it
    returns False nothing at all has changed.  When it returns True exactly
    one of the item has left the bag, no other item has moved and the
    counter of items used has grown by one.  Either way the team keeps its
    length and every other member; at the target's position stands the
    creature as the item left it, still of the same species; box and
    Pokedex are as before. *)
Theorem use_item_keeps_the_books (item : string) (i : nat) (t t' : Trainer)
    (used : bool) :
  use_item_on_member item i t = Ok (t', used) ->
  (used = false -> t' = t)
  /\ (forall other,
        Inventory.held (inventory t') other
        = Inventory.held (inventory t) other
          - (if used && String.eqb other item then 1 else 0))
  /\ stats_items_used t' = stats_items_used t + (if used then 1 else 0)
  /\ length (pokemon_team t') = length (pokemon_team t)
  /\ (forall j, j <> i -> pokemon_team t' !! j = pokemon_team t !! j)
  /\ (exists target t0 target',
        pokemon_team t !! i = Some target
        /\ use_item item target t = Ok (t0, target', used)
        /\ pokemon_team t' !! i = Some target'
        /\ species target' = species target)
  /\ pokemon_box t' = pokemon_box t
  /\ pokedex_seen t' = pokedex_seen t /\ pokedex_caught t' = pokedex_caught t.
Proof.
  unfold use_item_on_member.
  destruct (pokemon_team t !! i) as [target|] eqn:Htarget; [|discriminate].
  destruct (use_item item target t) as [[[t0 target'] used0]|] eqn:Hu;
    [|discriminate].
  intros [= <- <-].
  pose proof (use_item_species _ _ _ _ _ _ Hu) as Hspecies.
  pose proof (lookup_lt_Some _ _ _ Htarget) as Hlt.
  destruct used0.
  - pose proof Hu as Hu'. apply use_item_true in Hu' as [Hheld ->]. simpl.
    split; [discriminate|].
    split; [intros other; apply held_remove_item; exact Hheld|].
    split; [reflexivity|]. split; [apply length_insert|].
    split; [intros j Hj; apply list_lookup_insert_ne; congruence|].
    split; [|repeat split].
    exists target. eexists _, target'. split; [reflexivity|].
    split; [exact Hu|]. split; [|exact Hspecies].
    apply list_lookup_insert_eq. exact Hlt.
  - pose proof Hu as Hu'. apply use_item_false in Hu' as [-> ->].
    rewrite (list_insert_id _ _ _ Htarget).
    assert (Hsame : set_team (pokemon_team t) t = t) by now destruct t.
    rewrite Hsame.
    split; [reflexivity|]. split; [intros other; simpl; lia|].
    split; [lia|]. split; [reflexivity|]. split; [reflexivity|].
    split; [|repeat split].
    exists target, t, target. repeat split; assumption.
Qed.

Lemma use_item_keeps_the_books_witness :
  use_item_on_member "Potion" 0
    (set_team [set_current_hp 4 charmander5] red)
  = Ok (add_items_used
          (set_inventory [("Pokeball", 10); ("Potion", 4)] red), true)
  /\ pokemon_team
       (add_items_used
          (set_inventory [("Pokeball", 10); ("Potion", 4)] red))
     = [charmander5]
  /\ Inventory.held
       (inventory
          (add_items_used
             (set_inventory [("Pokeball", 10); ("Potion", 4)] red)))
       "Potion"
     = Inventory.held
         (inventory (set_team [set_current_hp 4 charmander5] red)) "Potion"
       - 1.
Proof.
  assert (H : use_item_on_member "Potion" 0
                (set_team [set_current_hp 4 charmander5] red)
              = Ok (add_items_used
                      (set_inventory [("Pokeball", 10); ("Potion", 4)] red),
                    true)) by reflexivity.
  split; [exact H|]. split; [reflexivity|].
  destruct (use_item_keeps_the_books _ _ _ _ _ H) as (_ & Hheld & _).
  exact (Hheld "Potion").
Defined.

(** X17.  A healing item is spent whether or not it does anything.  A held
    Revive used on a creature that has not fainted leaves the creature as
    it is and still takes the Revive and returns True; used on a fainted
    creature it sets the HP to half the maximum, rounded down, and touches
    nothing else of it. *)
Theorem revive_is_spent_either_way (target : Pokemon) (t : Trainer) :
  Inventory.has_item "Revive" 1 (inventory t) = true ->
  exists t',
    use_item "Revive" target t
    = Ok (t',
          if is_fainted target
          then set_current_hp (max_hp target / 2) target
          else target,
          true)
    /\ Inventory.held (inventory t') "Revive"
       = Inventory.held (inventory t) "Revive" - 1.
Proof.
  intros Hheld. unfold use_item. rewrite Hheld. simpl.
  eexists. split; [reflexivity|]. simpl.
  exact (proj2 (held_remove_item (inventory t) "Revive" "Revive" Hheld)).
Qed.

Lemma revive_is_spent_either_way_witness :
  Inventory.has_item "Revive" 1
    (inventory (set_inventory [("Revive", 1)] red)) = true
  /\ exists t',
       use_item "Revive" charmander5 (set_inventory [("Revive", 1)] red)
       = Ok (t', charmander5, true)
       /\ Inventory.held (inventory t') "Revive" = 0.
Proof.
  assert (H : Inventory.has_item "Revive" 1
                (inventory (set_inventory [("Revive", 1)] red)) = true)
    by reflexivity.
  split; [exact H|].
  destruct (revive_is_spent_either_way charmander5 _ H) as (t' & Hu & Hh).
  exists t'. split; [exact Hu|exact Hh].
Defined.

(** X18.  A held Rare Candy used on a creature below level 100 whose
    experience is not negative raises its level by exactly one, with the
    experience back at 0 and the stats of the new level; at level 100 the
    candy is spent all the same and only the experience grows, by the
    threshold. *)
Theorem rare_candy_gives_one_level (target : Pokemon) (t : Trainer) :
  Inventory.has_item "Rare Candy" 1 (inventory t) = true ->
  0 <= level target <= 100 -> base_in_range (base_stats target) ->
  0 <= experience target ->
  exists t' target',
    use_item "Rare Candy" target t = Ok (t', target', true)
    /\ Inventory.held (inventory t') "Rare Candy"
       = Inventory.held (inventory t) "Rare Candy" - 1
    /\ (if level target <? 100
        then target'
             = leveled
                 (set_experience
                    (experience target + experience_to_next_level target)
                    target)
             /\ level target' = level target + 1 /\ experience target' = 0
        else target'
             = set_experience
                 (experience target + experience_to_next_level target)
                 target).
Proof.
  intros Hheld Hl Hb Hexp. unfold use_item. rewrite Hheld. simpl.
  rewrite gain_experience_exact by (try exact Hb; lia). cbv zeta.
  assert ((experience_to_next_level target
           <=? experience target + experience_to_next_level target) = true)
    as -> by (apply Z.leb_le; lia).
  simpl. destruct (level target <? 100) eqn:Hcap; simpl;
    eexists _, _; (split; [reflexivity|]);
    (split;
     [exact (proj2 (held_remove_item (inventory t) "Rare Candy" "Rare Candy"
                      Hheld))|]).
  - repeat split; reflexivity.
  - reflexivity.
Qed.

Lemma rare_candy_gives_one_level_witness :
  (Inventory.has_item "Rare Candy" 1
     (inventory (set_inventory [("Rare Candy", 2)] red)) = true
   /\ 0 <= level charmander5 <= 100
   /\ base_in_range (base_stats charmander5)
   /\ 0 <= experience charmander5)
  /\ exists t' target',
       use_item "Rare Candy" charmander5
         (set_inventory [("Rare Candy", 2)] red)
       = Ok (t', target', true)
       /\ Inventory.held (inventory t') "Rare Candy" = 1
       /\ level target' = 6.
Proof.
  assert (H1 : Inventory.has_item "Rare Candy" 1
                 (inventory (set_inventory [("Rare Candy", 2)] red)) = true)
    by reflexivity.
  assert (H2 : 0 <= level charmander5 <= 100) by (simpl; lia).
  assert (H3 : base_in_range (base_stats charmander5))
    by (unfold base_in_range; simpl; lia).
  assert (H4 : 0 <= experience charmander5) by (simpl; lia).
  split; [split; [exact H1|split; [exact H2|split; [exact H3|exact H4]]]|].
  destruct (rare_candy_gives_one_level charmander5 _ H1 H2 H3 H4)
    as (t' & p' & Hu & Hh & Hlev).
  exists t', p'. split; [exact Hu|]. split; [exact Hh|].
  simpl in Hlev. destruct Hlev as (_ & Hlev & _). exact Hlev.
Defined.

Lemma heal_none_full (p : Pokemon) :
  heal None p = clear_status (set_current_hp (max_hp p) p).
Proof. unfold heal. simpl. now rewrite Z.eqb_refl. Qed.

(** X19.  [heal_all_pokemon] and the Pokemon Center do the same thing:
    every member of the team comes out at its full HP and with no status,
    and is otherwise as it was; in particular the PP of its moves is not
    restored.  Box, bag and Pokedex are untouched, and a team whose first
    member has a positive maximum HP can battle afterwards. *)
Theorem center_restores_hp_only (t : Trainer) :
  visit_pokemon_center t = heal_all_pokemon t
  /\ pokemon_team (visit_pokemon_center t)
     = map (fun p => clear_status (set_current_hp (max_hp p) p))
         (pokemon_team t)
  /\ Forall (fun p => current_hp p = max_hp p /\ status_condition p = None)
       (pokemon_team (visit_pokemon_center t))
  /\ map moves (pokemon_team (visit_pokemon_center t))
     = map moves (pokemon_team t)
  /\ pokemon_box (visit_pokemon_center t) = pokemon_box t
  /\ inventory (visit_pokemon_center t) = inventory t
  /\ (forall p rest, pokemon_team t = p :: rest -> 0 < max_hp p ->
      get_active_pokemon (visit_pokemon_center t) = Some 0%nat).
Proof.
  unfold visit_pokemon_center, heal_all_pokemon. simpl.
  split; [reflexivity|].
  split; [apply map_ext; intros p; apply heal_none_full|].
  split; [|split; [|split; [reflexivity|split; [reflexivity|]]]].
  - apply Forall_forall. intros q Hq.
    apply list_elem_of_In, in_map_iff in Hq as (p & <- & _).
    rewrite heal_none_full. split; reflexivity.
  - rewrite map_map. apply map_ext. intros p. now rewrite heal_none_full.
  - intros p rest Hteam Hmax. unfold get_active_pokemon. simpl.
    rewrite Hteam. simpl. rewrite heal_none_full. unfold is_fainted. simpl.
    assert ((max_hp p <=? 0) = false) as -> by (apply Z.leb_gt; lia).
    reflexivity.
Qed.

Lemma center_restores_hp_only_witness :
  (pokemon_team (set_team [set_current_hp 0 charmander5] red)
   = [set_current_hp 0 charmander5]
   /\ 0 < max_hp (set_current_hp 0 charmander5))
  /\ get_active_pokemon (set_team [set_current_hp 0 charmander5] red) = None
  /\ get_active_pokemon
       (visit_pokemon_center (set_team [set_current_hp 0 charmander5] red))
     = Some 0%nat.
Proof.
  assert (Hteam : pokemon_team (set_team [set_current_hp 0 charmander5] red)
                  = [set_current_hp 0 charmander5]) by reflexivity.
  assert (Hmax : 0 < max_hp (set_current_hp 0 charmander5))
    by (simpl; lia).
  split; [split; [exact Hteam|exact Hmax]|]. split; [reflexivity|].
  destruct (center_restores_hp_only
              (set_team [set_current_hp 0 charmander5] red))
    as (_ & _ & _ & _ & _ & _ & Hactive).
  exact (Hactive _ _ Hteam Hmax).
Defined.


(* ===================================================================== *)
(** * Further properties: saving and loading a creature *)
(* ===================================================================== *)

Lemma stock_fields (p : Pokemon) :
  stock p ->
  constructed (species p) (level p) = fresh p
  /\ base_in_range (base_stats p).
Proof.
  intros (Hl & _ & Hnew). rewrite new_pokemon_exact in Hnew by exact Hl.
  assert (Hc : constructed (species p) (level p) = fresh p) by congruence.
  split; [exact Hc|].
  assert (Hb : base_stats (constructed (species p) (level p))
               = base_stats (fresh p)) by now rewrite Hc.
  simpl in Hb. rewrite <- Hb. apply species_base_in_range.
Qed.

Lemma initial_moves_reset (s : string) :
  map (fun m => Move.mk (Move.name m) (Move.type m) (Move.power m)
                  (Move.accuracy m) (Move.max_pp m) (Move.max_pp m))
    (get_initial_moves s)
  = get_initial_moves s.
Proof.
  pose proof (initial_moves_full s) as H.
  induction H as [|m ms [Hm _] _ IH]; [reflexivity|].
  simpl. rewrite IH. f_equal. destruct m; simpl in *. now subst.
Qed.

Lemma stock_constructed (s : string) (l : Z) :
  0 <= l <= 100 -> stock (constructed s l).
Proof.
  intros Hl. split; [exact Hl|]. split; [reflexivity|].
  simpl. rewrite new_pokemon_exact by exact Hl. f_equal.
  unfold fresh, constructed. simpl. now rewrite initial_moves_reset.
Qed.

Lemma stock_same_fresh (p q : Pokemon) :
  stock p -> species q = species p -> level q = level p ->
  status_turns q = 0 -> fresh q = fresh p -> stock q.
Proof.
  intros (Hl & _ & Hnew) Hs Hlv Hst Hf.
  split; [now rewrite Hlv|]. split; [exact Hst|].
  now rewrite Hs, Hlv, Hf.
Qed.

Lemma stock_leveled (p : Pokemon) :
  stock p -> level p < 100 -> stock (leveled p).
Proof.
  intros Hstock Hcap. destruct (stock_fields p Hstock) as (Hc & _).
  destruct Hstock as (Hl & Hst & _).
  split; [simpl; lia|]. split; [exact Hst|].
  simpl. rewrite new_pokemon_exact by lia. f_equal.
  unfold constructed, fresh in Hc.
  injection Hc as _ Hdata Htypes Hbase _ _ _ _ _ _ _ Hmoves.
  unfold constructed, fresh, leveled. simpl.
  rewrite Htypes, Hbase, Hdata, Hmoves. reflexivity.
Qed.

Lemma stock_level_up (p p' : Pokemon) (fl : bool) :
  stock p -> level_up p = Ok (p', fl) -> stock p'.
Proof.
  intros Hstock. destruct (stock_fields p Hstock) as (_ & Hb).
  pose proof Hstock as (Hl & _).
  destruct (Z.le_gt_cases 100 (level p)) as [Hcap|Hcap].
  - rewrite level_up_capped by exact Hcap. now intros [= <- _].
  - rewrite level_up_exact by (try exact Hb; lia). intros [= <- _].
    apply stock_leveled; [exact Hstock|lia].
Qed.

Lemma stock_set_experience (v : Z) (p : Pokemon) :
  stock p -> stock (set_experience v p).
Proof. intros H. now apply (stock_same_fresh p); [| | |apply H|]. Qed.

Lemma stock_mutate (m : mutation) (p : Pokemon) :
  stock p -> exists p', mutate m p = Ok p' /\ stock p'.
Proof.
  intros Hstock. destruct (stock_fields p Hstock) as (_ & Hb).
  pose proof Hstock as (Hl & Hst & _).
  destruct m as [d|a| |a]; simpl.
  - eexists. split; [reflexivity|].
    now apply (stock_same_fresh p).
  - eexists. split; [reflexivity|]. unfold heal.
    destruct a as [a|];
      match goal with |- context [if ?c then _ else _] => destruct c end;
      now apply (stock_same_fresh p).
  - destruct (Z.le_gt_cases 100 (level p)) as [Hcap|Hcap].
    + rewrite level_up_capped by exact Hcap. simpl. now exists p.
    + rewrite level_up_exact by (try exact Hb; lia). simpl.
      eexists. split; [reflexivity|]. apply stock_leveled; [exact Hstock|lia].
  - rewrite gain_experience_exact by (try exact Hb; lia). cbv zeta.
    destruct (_ && _) eqn:Hup; simpl; eexists; (split; [reflexivity|]).
    + apply andb_true_iff in Hup as [_ Hcap]. apply Z.ltb_lt in Hcap.
      apply stock_leveled; [now apply stock_set_experience|exact Hcap].
    + now apply stock_set_experience.
Qed.

Lemma reset_use_move (m : Move.t) :
  set_pp (Move.max_pp (fst (Move.use_move m))) (fst (Move.use_move m))
  = set_pp (Move.max_pp m) m.
Proof. unfold Move.use_move. now destruct (0 <? Move.pp m). Qed.

Lemma stock_happen (e : event) (p : Pokemon) :
  stock p -> exists p', happen e p = Ok p' /\ stock p'.
Proof.
  intros Hstock. destruct e as [m|k|n|tr loc]; simpl.
  - now apply stock_mutate.
  - destruct (moves p !! k) as [m|] eqn:Hk; [|now exists p].
    eexists. split; [reflexivity|].
    apply (stock_same_fresh p); try reflexivity; try apply Hstock.
    unfold fresh. simpl. f_equal.
    change (fun m0 : Move.t => _) with (fun m0 => set_pp (Move.max_pp m0) m0).
    apply list_eq. intros i. rewrite !list_lookup_fmap.
    destruct (decide (i = k)) as [->|Hne].
    + rewrite list_lookup_insert_eq by (now apply lookup_lt_Some in Hk).
      rewrite Hk. simpl. f_equal. apply reset_use_move.
    + now rewrite list_lookup_insert_ne by congruence.
  - eexists. split; [reflexivity|]. now apply (stock_same_fresh p);
      [| | |apply Hstock|].
  - eexists. split; [reflexivity|]. now apply (stock_same_fresh p);
      [| | |apply Hstock|].
Qed.

Lemma stock_happen_all (es : list event) (p : Pokemon) :
  stock p -> exists p', happen_all es p = Ok p' /\ stock p'.
Proof.
  revert p. induction es as [|e es IH]; intros p Hstock; simpl.
  - now exists p.
  - destruct (stock_happen e p Hstock) as (p1 & -> & H1). simpl.
    now apply IH.
Qed.

Lemma restore_saved_pp (ms : list Move.t) :
  restore_move_pp
    (map (fun m => Move.mk (Move.name m) (Move.type m) (Move.power m)
                     (Move.accuracy m) (Move.max_pp m) (Move.max_pp m)) ms)
    (map (fun m => Saved.mkMove (Move.name m) (Some (Move.pp m))) ms)
  = ms.
Proof.
  induction ms as [|m ms IH]; [reflexivity|].
  simpl. rewrite IH. now destruct m.
Qed.

Lemma stock_round_trip (p : Pokemon) :
  stock p -> dict_to_pokemon (pokemon_to_dict p) = Ok p.
Proof.
  intros (_ & Hst & Hnew). unfold dict_to_pokemon, pokemon_to_dict.
  cbn [Saved.species Saved.level]. rewrite Hnew. simpl.
  rewrite restore_saved_pp. destruct p; simpl in *. now subst.
Qed.

(** X20.  Saving and loading gives the creature back.  Take a creature
    built by the constructor for any species name and a level from 0 to
    100, and let anything happen to it that the game does between two
    saves (damage, healing, experience, level-ups, moves used, a new
    nickname, a catch), in any order and number: nothing of this raises,
    and [dict_to_pokemon] on the dict of [pokemon_to_dict] is then that
    very creature, with its HP, experience, status, PP and catch data. *)
Theorem save_then_load_gives_it_back (s : string) (l : Z) (es : list event) :
  0 <= l <= 100 ->
  exists p0 p,
    new_pokemon s l = Ok p0
    /\ happen_all es p0 = Ok p
    /\ dict_to_pokemon (pokemon_to_dict p) = Ok p.
Proof.
  intros Hl.
  destruct (stock_happen_all es (constructed s l) (stock_constructed s l Hl))
    as (p & Hp & Hstock).
  exists (constructed s l), p.
  split; [now apply new_pokemon_exact|]. split; [exact Hp|].
  now apply stock_round_trip.
Qed.

Lemma save_then_load_gives_it_back_witness :
  0 <= 15 <= 100
  /\ exists p0 p,
       new_pokemon "Bulbasaur" 15 = Ok p0
       /\ happen_all
            [UseMove 2; Mutation (TakeDamage 9); Mutation (GainExperience 300);
             Rename "Bulby"; Caught "Red" "pallet_town";
             Mutation (Heal (Some 3))] p0
          = Ok p
       /\ dict_to_pokemon (pokemon_to_dict p) = Ok p.
Proof.
  assert (H : 0 <= 15 <= 100) by lia. split; [exact H|].
  exact (save_then_load_gives_it_back "Bulbasaur" 15 _ H).
Defined.

(** X21.  An evolved creature does not survive a save: the species table
    has no entry for any evolved form, so loading the saved dict builds it
    with the single move Tackle of an unlisted species, while the creature
    itself had kept the two or three moves of its first form. *)
Theorem evolved_creature_loses_moves_on_load (s : string) (l : Z)
    (ev : Species.evo) :
  0 <= l <= 100 ->
  Species.evolution (get_species_data s) = Some ev ->
  exists p p' q,
    new_pokemon s l = Ok p
    /\ evolve p = Ok (p', Some s)
    /\ dict_to_pokemon (pokemon_to_dict p') = Ok q
    /\ (2 <= length (moves p'))%nat
    /\ map Move.name (moves q) = ["Tackle"].
Proof.
  intros Hl Hev.
  destruct (evolved_species_unlisted s ev Hev) as (Hun & _ & Hmoves & Hlen).
  exists (constructed s l).
  assert (He : exists p',
             evolve (constructed s l) = Ok (p', Some s)
             /\ species p' = Species.evolves_to ev /\ level p' = l
             /\ moves p' = get_initial_moves s).
  { unfold evolve. cbn [constructed species_data]. rewrite Hev, Hun.
    cbn [constructed unlisted_species Species.base_stats Species.types
      Stats.hp Stats.attack Stats.defense Stats.special_attack
      Stats.special_defense Stats.speed level].
    rewrite !calculate_stat_exact by lia.
    eexists. split; [reflexivity|]. repeat split. }
  destruct He as (p' & He & Hsp & Hlv & Hmv).
  exists p'. eexists. split; [now apply new_pokemon_exact|].
  split; [exact He|].
  unfold dict_to_pokemon, pokemon_to_dict.
  cbn [Saved.species Saved.level]. rewrite Hsp, Hlv.
  rewrite new_pokemon_exact by exact Hl. simpl.
  split; [reflexivity|]. rewrite Hmv. split; [exact Hlen|].
  rewrite Hmoves.
  destruct (get_initial_moves s) as [|m ms]; [simpl in Hlen; lia|].
  reflexivity.
Qed.

Lemma evolved_creature_loses_moves_on_load_witness :
  (0 <= 16 <= 100
   /\ Species.evolution (get_species_data "Squirtle")
      = Some (Species.mkEvolution (Some 16) None "Wartortle"))
  /\ exists p p' q,
       new_pokemon "Squirtle" 16 = Ok p
       /\ evolve p = Ok (p', Some "Squirtle")
       /\ dict_to_pokemon (pokemon_to_dict p') = Ok q
       /\ (2 <= length (moves p'))%nat
       /\ map Move.name (moves q) = ["Tackle"].
Proof.
  assert (H : 0 <= 16 <= 100) by lia.
  assert (He : Species.evolution (get_species_data "Squirtle")
               = Some (Species.mkEvolution (Some 16) None "Wartortle"))
    by reflexivity.
  split; [split; [exact H|exact He]|].
  exact (evolved_creature_loses_moves_on_load "Squirtle" 16 _ H He).
Defined.

(* ===================================================================== *)
(** * Further properties: trainers' creatures and starters *)
(* ===================================================================== *)

Lemma trainer_move_database_entry (n : string) (m : Move.t) :
  trainer_move_database n = Some m ->
  Move.name m = n /\ Move.pp m = Move.max_pp m /\ 0 < Move.pp m.
Proof.
  unfold trainer_move_database.
  repeat (match goal with
          | |- context [String.eqb n ?b] =>
              destruct (String.eqb_spec n b) as [->|_];
              [intros [= <-]; simpl; repeat split; lia|]
          end).
  discriminate.
Qed.

(** X22.  [create_trainer_pokemon] with a list of move names gives the
    creature of the constructor with exactly the moves asked for, in the
    order given, each at its full and positive PP: a name the engine's move
    table lacks is not dropped but becomes a NORMAL move of power 40.
    Without a list the creature is the constructor's own. *)
Theorem create_trainer_pokemon_moves (s : string) (l : Z)
    (names : list string) :
  0 <= l <= 100 ->
  exists p0 p,
    new_pokemon s l = Ok p0
    /\ create_trainer_pokemon s l None = Ok p0
    /\ create_trainer_pokemon s l (Some names) = Ok p
    /\ p = set_moves (moves p) p0
    /\ map Move.name (moves p) = names
    /\ Forall (fun m => Move.pp m = Move.max_pp m /\ 0 < Move.pp m) (moves p).
Proof.
  intros Hl. unfold create_trainer_pokemon.
  rewrite new_pokemon_exact by exact Hl. simpl.
  eexists _, _. split; [reflexivity|]. split; [reflexivity|].
  split; [reflexivity|]. simpl. split; [reflexivity|]. split.
  - rewrite map_map. rewrite <- (map_id names) at 2. apply map_ext.
    intros n. destruct (trainer_move_database n) as [m|] eqn:E;
      [now apply trainer_move_database_entry|reflexivity].
  - apply Forall_forall. intros m Hm.
    apply list_elem_of_In, in_map_iff in Hm as (n & <- & _).
    destruct (trainer_move_database n) as [m'|] eqn:E.
    + now apply (trainer_move_database_entry n).
    + simpl. lia.
Qed.

Lemma create_trainer_pokemon_moves_witness :
  0 <= 14 <= 100
  /\ exists p0 p,
       new_pokemon "Onix" 14 = Ok p0
       /\ create_trainer_pokemon "Onix" 14 None = Ok p0
       /\ create_trainer_pokemon "Onix" 14
            (Some ["Tackle"; "Rock Throw"; "Bind"]) = Ok p
       /\ p = set_moves (moves p) p0
       /\ map Move.name (moves p) = ["Tackle"; "Rock Throw"; "Bind"]
       /\ Forall (fun m => Move.pp m = Move.max_pp m /\ 0 < Move.pp m)
            (moves p).
Proof.
  assert (H : 0 <= 14 <= 100) by lia. split; [exact H|].
  exact (create_trainer_pokemon_moves "Onix" 14 _ H).
Defined.

(** X23.  Whatever the choice string, [get_starter_pokemon] raises nothing
    and gives a level-5 Bulbasaur, Charmander or Squirtle (Bulbasaur for any
    string that is not one of the other two names) at full HP with the two
    moves of the starter table.  These are not the moves that the
    constructor gives the species, so a starter does not survive a save:
    loading its saved dict gives a creature with other moves. *)
Theorem starter_is_ready_but_not_saved (choice : string) :
  exists p q,
    get_starter_pokemon choice = Ok p
    /\ species p
       = (if String.eqb choice "Charmander" then "Charmander"
          else if String.eqb choice "Squirtle" then "Squirtle"
          else "Bulbasaur")
    /\ level p = 5 /\ current_hp p = max_hp p /\ 0 < max_hp p
    /\ length (moves p) = 2%nat
    /\ Forall (fun m => Move.pp m = Move.max_pp m /\ 0 < Move.pp m) (moves p)
    /\ dict_to_pokemon (pokemon_to_dict p) = Ok q
    /\ map Move.name (moves q) <> map Move.name (moves p).
Proof.
  unfold get_starter_pokemon.
  destruct (String.eqb choice "Charmander");
    [|destruct (String.eqb choice "Squirtle")];
    (eexists _, _; split; [vm_compute; reflexivity|];
     split; [reflexivity|]; split; [reflexivity|]; split; [reflexivity|];
     split; [reflexivity|]; split; [reflexivity|];
     split; [repeat constructor|]; split; [vm_compute; reflexivity|];
     discriminate).
Qed.

(* ===================================================================== *)
(** * Further properties: the prompts *)
(* ===================================================================== *)

Lemma valid_choices_range (choice : string) (n : Z) :
  InputHandler.valid_choices choice = Some n -> 1 <= n <= 4.
Proof.
  unfold InputHandler.valid_choices.
  repeat (match goal with
          | |- context [if ?c then _ else _] => destruct c
          end); intros [= <-]; lia.
Qed.

(** X24.  The battle menu always answers, with a number from 1 to 4,
    whatever is typed: it skips the lines it does not know and answers with
    the entry of the first line it knows (4, Run, for quit and exit),
    leaving the lines after that one unread; when the input ends first it
    answers 4. *)
Theorem battle_menu_always_answers (input : list string) :
  exists n skipped rest,
    InputHandler.get_battle_choice input = (Some n, rest)
    /\ 1 <= n <= 4
    /\ Forall
         (fun line =>
            InputHandler.valid_choices (Py.lower line) = None
            /\ Py.str_in (Py.lower line) ["quit"; "exit"] = false)
         skipped
    /\ ((input = skipped /\ rest = [] /\ n = 4)
        \/ exists line,
             input = (skipped ++ line :: rest)%list
             /\ (InputHandler.valid_choices (Py.lower line) = Some n
                 \/ (InputHandler.valid_choices (Py.lower line) = None
                     /\ Py.str_in (Py.lower line) ["quit"; "exit"] = true
                     /\ n = 4))).
Proof.
  induction input as [|line input IH]; cbn [InputHandler.get_battle_choice].
  - exists 4, [], []. split; [reflexivity|]. split; [lia|].
    split; [constructor|]. left. repeat split.
  - destruct (InputHandler.valid_choices (Py.lower line)) as [n|] eqn:Hv.
    + exists n, [], input.
      split; [reflexivity|].
      split; [exact (valid_choices_range _ n Hv)|].
      split; [constructor|]. right. exists line. split; [reflexivity|].
      left. exact Hv.
    + destruct (Py.str_in (Py.lower line) ["quit"; "exit"]) eqn:Hq.
      * exists 4, [], input.
        split; [reflexivity|]. split; [lia|]. split; [constructor|].
        right. exists line. split; [reflexivity|]. right.
        split; [exact Hv|split; [exact Hq|reflexivity]].
      * destruct IH as (n & skipped & rest & Hc & Hn & Hskip & Hend).
        exists n, (line :: skipped), rest.
        split; [exact Hc|]. split; [exact Hn|].
        split; [constructor; [split; assumption|exact Hskip]|].
        destruct Hend as [(-> & -> & ->)|(l & -> & Hl)].
        -- left. repeat split.
        -- right. exists l. split; [reflexivity|exact Hl].
Qed.

Lemma item_choice_listed (names : list string) (input : list string)
    (name : string) (input' : list string) :
  InputHandler.item_choice_loop names input = (Some name, input') ->
  exists k, names !! k = Some name.
Proof.
  induction input as [|line rest IH]; cbn [InputHandler.item_choice_loop];
    [discriminate|].
  destruct (Py.isdigit line).
  - destruct ((0 <=? Py.int_of_str line - 1)
              && (Py.int_of_str line - 1 <? Z.of_nat (length names)));
      [|exact IH].
    intros [= H _]. eexists. exact H.
  - destruct (Py.str_in (Py.lower line) ["back"; "cancel"]);
      [discriminate|exact IH].
Qed.

Lemma no_pp_no_choice (p : Pokemon) (input : list string) :
  Forall (fun m => Move.pp m <= 0) (moves p) ->
  fst (InputHandler.get_move_choice p input) = None.
Proof.
  intros Hpp.
  destruct (InputHandler.get_move_choice p input) as [[n|] input'] eqn:Hc;
    [|reflexivity].
  apply move_choice_valid in Hc as (_ & move & Hm & Hpos).
  rewrite Forall_forall in Hpp.
  specialize (Hpp move (list_elem_of_lookup_2 _ _ _ Hm)). lia.
Qed.

(** X25.  The selection prompts answer only with something that can be
    used.  The move prompt answers with the number of a move the creature
    has and that has PP left, and when no move has PP left it can only come
    back empty-handed, whatever is typed.  The creature prompt answers with
    the number of a team member that has not fainted.  The item prompt
    answers with a name of the list it was given. *)
Theorem prompts_answer_with_usable_choices (p : Pokemon)
    (team : list Pokemon) (bag : Inventory.t) (input : list string) :
  (forall n input',
     InputHandler.get_move_choice p input = (Some n, input') ->
     1 <= n <= Z.of_nat (length (moves p))
     /\ exists move,
          moves p !! Z.to_nat (n - 1) = Some move /\ 0 < Move.pp move)
  /\ (Forall (fun m => Move.pp m <= 0) (moves p) ->
      fst (InputHandler.get_move_choice p input) = None)
  /\ (forall n input',
        InputHandler.get_pokemon_choice team input = (Some n, input') ->
        1 <= n <= Z.of_nat (length team)
        /\ exists q,
             team !! Z.to_nat (n - 1) = Some q /\ is_fainted q = false)
  /\ (forall name input',
        InputHandler.get_item_choice bag input = (Some name, input') ->
        exists k quantity, bag !! k = Some (name, quantity)).
Proof.
  split; [intros n input'; apply move_choice_valid|].
  split; [apply no_pp_no_choice|]. split.
  - intros n input' Hc. apply pokemon_choice_valid in Hc as (Hn & q & Hq & Hhp).
    split; [exact Hn|]. exists q. split; [exact Hq|].
    unfold is_fainted. apply Z.leb_gt. exact Hhp.
  - intros name input'. unfold InputHandler.get_item_choice.
    destruct bag as [|e bag0]; [intros [=]|].
    intros Hc. apply item_choice_listed in Hc as (k & Hk).
    exists k. rewrite list_lookup_fmap in Hk.
    destruct ((e :: bag0) !! k) as [[name0 q]|] eqn:He; [|discriminate].
    simpl in Hk. injection Hk as ->. now exists q.
Qed.

Lemma prompts_answer_with_usable_choices_witness :
  InputHandler.get_move_choice charmander5 ["9"; "x"; "2"; "1"]
  = (Some 2, ["1"])
  /\ 1 <= 2 <= Z.of_nat (length (moves charmander5))
  /\ exists move,
       moves charmander5 !! Z.to_nat (2 - 1) = Some move
       /\ 0 < Move.pp move.
Proof.
  assert (H : InputHandler.get_move_choice charmander5 ["9"; "x"; "2"; "1"]
              = (Some 2, ["1"])) by reflexivity.
  split; [exact H|].
  destruct (prompts_answer_with_usable_choices charmander5 [] []
              ["9"; "x"; "2"; "1"]) as (Hmove & _).
  exact (Hmove 2 ["1"] H).
Defined.


(* ===================================================================== *)
(** * Further properties: battles *)
(* ===================================================================== *)

Lemma same_roster_refl (t : Trainer) : same_roster t t.
Proof. unfold same_roster. repeat split. Qed.

Lemma same_roster_trans (t1 t2 t3 : Trainer) :
  same_roster t1 t2 -> same_roster t2 t3 -> same_roster t1 t3.
Proof.
  unfold same_roster. intros H1 H2.
  destruct H1 as (A1 & A2 & A3 & A4 & A5 & A6 & A7 & A8 & A9 & A10).
  destruct H2 as (B1 & B2 & B3 & B4 & B5 & B6 & B7 & B8 & B9 & B10).
  repeat split; congruence.
Qed.

Lemma battle_keeps_refl (t : Trainer) (o : Pokemon) : battle_keeps t o t o.
Proof.
  split; [apply same_roster_refl|]. split; [reflexivity|].
  split; [intros item; lia|]. now destruct o.
Qed.

Lemma battle_keeps_trans (t1 t2 t3 : Trainer) (o1 o2 o3 : Pokemon) :
  battle_keeps t1 o1 t2 o2 -> battle_keeps t2 o2 t3 o3 ->
  battle_keeps t1 o1 t3 o3.
Proof.
  intros (A1 & A2 & A3 & A4) (B1 & B2 & B3 & B4).
  split; [now apply (same_roster_trans t1 t2 t3)|].
  split; [congruence|].
  split; [intros item; specialize (A3 item); specialize (B3 item); lia|].
  rewrite B4, A4. reflexivity.
Qed.

Lemma insert_same_species (team : list Pokemon) (i : nat) (p p' : Pokemon) :
  team !! i = Some p -> species p' = species p ->
  map species (<[i := p']> team) = map species team.
Proof.
  intros Hi Hs. change (species <$> <[i:=p']> team = species <$> team).
  rewrite list_fmap_insert. apply list_insert_id.
  rewrite list_lookup_fmap, Hi. simpl. now rewrite Hs.
Qed.

Lemma put_player_keeps (b : Battle) (p p' : Pokemon) :
  player b = Some p -> species p' = species p ->
  battle_keeps (trainer b) (opponent_pokemon b)
    (trainer (put_player p' b)) (opponent_pokemon (put_player p' b)).
Proof.
  intros Hp Hs. unfold put_player, set_trainer, set_team. simpl.
  split; [|split; [|split]].
  - unfold same_roster. simpl. rewrite length_insert. repeat split.
  - now apply (insert_same_species _ _ p).
  - intros item. apply Z.le_refl.
  - now destruct (opponent_pokemon b).
Qed.

Lemma step_ok_same (b b' : Battle) (fl : flow) :
  trainer b' = trainer b -> opponent_pokemon b' = opponent_pokemon b ->
  is_wild b' = is_wild b ->
  match fl with Return _ => False | _ => True end ->
  step_ok b (b', fl).
Proof.
  intros Ht Ho Hw Hfl. unfold step_ok. simpl. rewrite Ht, Ho.
  split; [apply battle_keeps_refl|]. split; [exact Hw|].
  destruct fl; try exact I. contradiction.
Qed.

Lemma fight_ok (b : Battle) : step_ok b (fight b).
Proof.
  unfold fight.
  destruct (player b) as [p|] eqn:Hp; [|now apply step_ok_same].
  destruct (InputHandler.get_move_choice p (stdin b)) as [[n|] input'];
    [|now apply step_ok_same].
  destruct (negb (n =? 0) && (n <=? Z.of_nat (length (moves p))));
    [|now apply step_ok_same].
  destruct (Py.index (moves p) (n - 1)) as [[k move]|];
    [|now apply step_ok_same].
  destruct (Move.use_move move) as [move' used].
  destruct (negb used); [now apply step_ok_same|].
  set (p1 := set_moves (<[k:=move']> (moves p)) p).
  set (b1 := set_stdin input' b).
  assert (Hp1 : player b1 = Some p) by exact Hp.
  pose proof (put_player_keeps b1 p p1 Hp1 eq_refl) as Hkeep.
  destruct (calculate_damage p1 move' (opponent_pokemon (put_player p1 b1))
              (rng (put_player p1 b1))) as [[damage|e] r'].
  - unfold step_ok. cbn [fst snd]. split; [|split; [reflexivity|exact I]].
    eapply battle_keeps_trans; [exact Hkeep|].
    unfold_setters. cbn [trainer opponent_pokemon].
    split; [apply same_roster_refl|]. split; [reflexivity|].
    split; [intros item; lia|]. reflexivity.
  - unfold step_ok. cbn [fst snd]. split; [exact Hkeep|].
    split; [reflexivity|exact I].
Qed.

Lemma consume_keeps (item : string) (t : Trainer) (o : Pokemon) :
  Inventory.has_item item 1 (inventory t) = true ->
  battle_keeps t o
    (add_items_used
       (set_inventory (fst (Inventory.remove_item item 1 (inventory t))) t))
    o.
Proof.
  intros Hheld. split; [unfold same_roster; simpl; repeat split|].
  split; [reflexivity|]. split; [|now destruct o].
  intros other. simpl.
  rewrite (proj2 (held_remove_item (inventory t) item other Hheld)).
  destruct (String.eqb other item); lia.
Qed.

Lemma items_ok (b : Battle) : step_ok b (items b).
Proof.
  unfold items.
  destruct (player b) as [p|] eqn:Hp; [|now apply step_ok_same].
  destruct (Inventory.get_items_by_type "healing" (inventory (trainer b)))
    as [|e healing]; [now apply step_ok_same|].
  destruct (InputHandler.get_item_choice (e :: healing) (stdin b))
    as [[item|] input']; [|now apply step_ok_same].
  destruct (String.eqb item EmptyString); [now apply step_ok_same|].
  set (b1 := set_stdin input' b).
  destruct (use_item item p (trainer b1)) as [[[t' p'] used]|] eqn:Hu;
    [|now apply step_ok_same].
  destruct used; [|now apply step_ok_same].
  pose proof (use_item_species _ _ _ _ _ _ Hu) as Hs.
  apply use_item_true in Hu as [Hheld ->].
  set (t' := add_items_used _).
  assert (Hp1 : player (set_trainer t' b1) = Some p) by exact Hp.
  unfold step_ok. cbn [fst snd]. split; [|split; [reflexivity|exact I]].
  eapply battle_keeps_trans;
    [|exact (put_player_keeps (set_trainer t' b1) p p' Hp1 Hs)].
  exact (consume_keeps item (trainer b) (opponent_pokemon b) Hheld).
Qed.

Lemma switch_ok (b : Battle) : step_ok b (switch b).
Proof.
  unfold switch.
  destruct (1 <? Z.of_nat (length (pokemon_team (trainer b))));
    [|now apply step_ok_same].
  destruct (InputHandler.get_pokemon_choice _ (stdin b)) as [[n|] input'];
    [|now apply step_ok_same].
  destruct (negb (n =? 0) && _); [|now apply step_ok_same].
  destruct (Py.index _ (n - 1)) as [[k q]|]; [|now apply step_ok_same].
  destruct (negb (k =? player_pokemon (set_stdin input' b))%nat
            && negb (is_fainted q)); now apply step_ok_same.
Qed.

Lemma run_ok (b : Battle) : step_ok b (run b).
Proof.
  unfold run. destruct (is_wild b) eqn:Hw; [|now apply step_ok_same].
  destruct (Random.random (rng b)) as [u r'].
  destruct (u <? 0.8)%float; [|now apply step_ok_same].
  unfold step_ok. cbn [fst snd]. unfold_setters. cbn [trainer opponent_pokemon
    is_wild]. split; [apply battle_keeps_refl|]. split; [reflexivity|exact Hw].
Qed.

Lemma after_action_ok (b : Battle) : step_ok b (after_action b).
Proof.
  unfold after_action.
  destruct (player b) as [p|] eqn:Hp; [|now apply step_ok_same].
  destruct (is_fainted (opponent_pokemon b)) eqn:Hfaint.
  - destruct (calculate_exp_gain p (opponent_pokemon b)) as [gain|];
      [|now apply step_ok_same].
    destruct (gain_experience gain p) as [[p1 fl1]|] eqn:Hg;
      [|now apply step_ok_same].
    pose proof (put_player_keeps b p p1 Hp
                  (gain_experience_species _ _ _ _ Hg)) as Hk1.
    pose proof (player_put_player b p p1 Hp) as Hp1.
    destruct (level_up p1) as [[p2 fl2]|] eqn:Hl.
    + pose proof (put_player_keeps (put_player p1 b) p1 p2 Hp1
                    (level_up_species _ _ _ Hl)) as Hk2.
      unfold step_ok. cbn [fst snd].
      split; [exact (battle_keeps_trans _ _ _ _ _ _ Hk1 Hk2)|].
      split; [reflexivity|exact Hfaint].
    + unfold step_ok. cbn [fst snd].
      split; [exact Hk1|]. split; [reflexivity|exact I].
  - destruct (opponent_turn (opponent_pokemon b) p (rng b)) as [[p1|e] r']
      eqn:Hturn; [|now apply step_ok_same].
    set (b1 := set_rng r' b).
    assert (Hs : species p1 = species p).
    { unfold opponent_turn in Hturn.
      destruct (moves (opponent_pokemon b)); [now injection Hturn as <- _|].
      destruct (Random.choice _ (rng b)) as [[mv r1]|]; [|discriminate].
      destruct (calculate_damage _ mv p r1) as [[d|] r2]; [|discriminate].
      now injection Hturn as <- _. }
    assert (Hpb1 : player b1 = Some p) by exact Hp.
    pose proof (put_player_keeps b1 p p1 Hpb1 Hs) as Hk.
    set (b2 := put_player p1 b1) in *.
    assert (Hleaf : forall b' fl,
               trainer b' = trainer b2 ->
               opponent_pokemon b' = opponent_pokemon b2 ->
               is_wild b' = is_wild b ->
               match fl with
               | Return Defeat | Next | Continue => True
               | _ => False
               end ->
               step_ok b (b', fl)).
    { intros b' fl Ht Ho Hw Hfl. unfold step_ok. cbn [fst snd].
      rewrite Ht, Ho. split; [exact Hk|]. split; [exact Hw|].
      destruct fl as [| |[]]; try exact I; contradiction. }
    destruct (is_fainted p1); [|now apply Hleaf].
    destruct (has_usable_pokemon (trainer b2)); [|now apply Hleaf].
    destruct (InputHandler.get_pokemon_choice _ (stdin b2))
      as [[n|] input']; [|now apply Hleaf].
    destruct (negb (n =? 0) && _); [|now apply Hleaf].
    destruct (Py.index _ (n - 1)) as [[k q]|]; [|now apply Hleaf].
    destruct (negb (is_fainted q)); now apply Hleaf.
Qed.

Lemma step_ok_then (b b1 : Battle) (x : Battle * flow) :
  trainer b1 = trainer b -> opponent_pokemon b1 = opponent_pokemon b ->
  is_wild b1 = is_wild b -> step_ok b1 x -> step_ok b x.
Proof.
  unfold step_ok. intros -> -> ->. exact (fun H => H).
Qed.

Lemma battle_iteration_ok (b : Battle) : step_ok b (battle_iteration b).
Proof.
  unfold battle_iteration.
  destruct (player b) as [p|]; [|now apply step_ok_same].
  destruct ((max_hp (opponent_pokemon b) =? 0) || (max_hp p =? 0));
    [now apply step_ok_same|].
  destruct (InputHandler.get_battle_choice (stdin b)) as [choice input'].
  set (b1 := set_stdin input' b).
  set (c := default 4 choice).
  assert (Hbranch :
    forall x : Battle * flow,
      step_ok b1 x ->
      step_ok b (let '(b2, fl) := x in
                 match fl with
                 | Next => after_action b2
                 | _ => (b2, fl)
                 end)).
  { intros [b2 fl] (Hk & Hw & Hfl). cbn [fst snd] in *.
    apply (step_ok_then b b1); try reflexivity.
    destruct fl; [|split; [exact Hk|split; [exact Hw|exact I]]
                  |split; [exact Hk|split; [exact Hw|exact Hfl]]].
    destruct (after_action_ok b2) as (Hk2 & Hw2 & Hfl2).
    split; [exact (battle_keeps_trans _ _ _ _ _ _ Hk Hk2)|].
    split; [congruence|].
    destruct (snd (after_action b2)) as [| |[]]; try exact I;
      try exact Hfl2. rewrite <- Hw. exact Hfl2. }
  apply Hbranch.
  destruct (c =? 1); [apply fight_ok|].
  destruct (c =? 2); [apply items_ok|].
  destruct (c =? 3); [apply switch_ok|].
  destruct (c =? 4); [apply run_ok|].
  now apply step_ok_same.
Qed.

Lemma battle_loop_from_ok (n : nat) (b : Battle) :
  0 <= battle_turn b <= max_turns ->
  let x := battle_loop_from n b in
  battle_keeps (trainer b) (opponent_pokemon b) (trainer (fst x))
    (opponent_pokemon (fst x))
  /\ is_wild (fst x) = is_wild b
  /\ battle_turn b <= battle_turn (fst x) <= max_turns
  /\ match snd x with
     | Run => is_wild b = true
     | Victory => is_fainted (opponent_pokemon (fst x)) = true
     | Draw => battle_turn (fst x) = max_turns
     | Defeat => True
     end.
Proof.
  revert b. induction n as [|n IH]; intros b Hturn; cbv zeta.
  - cbn [battle_loop_from]. unfold after_loop.
    destruct (max_turns <=? battle_turn b) eqn:Hend; cbn [fst snd];
      (split; [apply battle_keeps_refl|]); (split; [reflexivity|]);
      (split; [lia|]); [apply Z.leb_le in Hend; lia|exact I].
  - cbn [battle_loop_from].
    destruct (loop_condition b) eqn:Hcond.
    + assert (Hlt : battle_turn b < max_turns).
      { unfold loop_condition in Hcond. destruct (player b); [|discriminate].
        apply andb_true_iff in Hcond as [_ Hlt]. now apply Z.ltb_lt. }
      set (b1 := set_battle_turn (battle_turn b + 1) b).
      pose proof (battle_iteration_ok b1) as (Hk & Hw & Hfl).
      pose proof (battle_iteration_battle_turn b1) as Ht.
      destruct (battle_iteration b1) as [b2 fl]. cbn [fst snd] in *.
      assert (Ht2 : battle_turn b2 = battle_turn b + 1) by exact Ht.
      assert (Hw2 : is_wild b2 = is_wild b) by exact Hw.
      clear Hw.
      assert (Hrec :
        let x := battle_loop_from n b2 in
        battle_keeps (trainer b) (opponent_pokemon b) (trainer (fst x))
          (opponent_pokemon (fst x))
        /\ is_wild (fst x) = is_wild b
        /\ battle_turn b <= battle_turn (fst x) <= max_turns
        /\ match snd x with
           | Run => is_wild b = true
           | Victory => is_fainted (opponent_pokemon (fst x)) = true
           | Draw => battle_turn (fst x) = max_turns
           | Defeat => True
           end).
      { destruct (IH b2 ltac:(lia)) as (Hk' & Hw' & Ht' & Hres').
        cbv zeta. split; [exact (battle_keeps_trans _ _ _ _ _ _ Hk Hk')|].
        split; [congruence|]. split; [lia|].
        destruct (snd (battle_loop_from n b2)); try exact Hres'.
        rewrite <- Hw2. exact Hres'. }
      destruct fl as [| |r]; [exact Hrec|exact Hrec|]. cbn [fst snd].
      split; [exact Hk|]. split; [exact Hw2|]. split; [lia|].
      destruct r; try exact Hfl; try exact I. contradiction.
    + unfold after_loop.
      destruct (max_turns <=? battle_turn b) eqn:Hend; cbn [fst snd];
        (split; [apply battle_keeps_refl|]); (split; [reflexivity|]);
        (split; [lia|]); [apply Z.leb_le in Hend; lia|exact I].
Qed.

(** X26.  A battle ends within the ceiling of 100 turns, whatever is typed
    and whatever the generator draws: the turn counter ends between 0 and
    100, a draw is declared only at turn 100, "run" is returned only from a
    battle against a wild creature, and "victory" only with the opponent
    fainted. *)
Theorem battle_ends_within_the_ceiling (t : Trainer) (i : nat) (o : Pokemon)
    (w : bool) (r : Rng) (input : list string) :
  let '(b, result) := battle_loop t i o w r input in
  0 <= battle_turn b <= 100
  /\ (result = Draw -> battle_turn b = 100)
  /\ (result = Run -> w = true)
  /\ (result = Victory -> is_fainted (opponent_pokemon b) = true).
Proof.
  unfold battle_loop.
  pose proof (battle_loop_from_ok (Z.to_nat max_turns)
                (mkBattle t i o w 0 r input)) as H.
  cbv zeta in H. unfold max_turns in H at 1. simpl battle_turn in H at 1 2.
  specialize (H ltac:(lia)).
  destruct (battle_loop_from _ _) as [b result]. cbn [fst snd] in H.
  destruct H as (_ & _ & Hturn & Hres). unfold max_turns in Hturn.
  simpl in Hturn. split; [lia|].
  destruct result; repeat split; try discriminate; intros _; exact Hres.
Qed.

Lemma battle_ends_within_the_ceiling_witness :
  snd (battle_loop red 0 rattata3 true (mkRng [0.5; 0.5; 0.5]%float [0%nat])
         ["1"; "1"; "1"; "1"]) = Victory
  /\ is_fainted
       (opponent_pokemon
          (fst (battle_loop red 0 rattata3 true
                  (mkRng [0.5; 0.5; 0.5]%float [0%nat])
                  ["1"; "1"; "1"; "1"]))) = true.
Proof.
  pose proof (battle_ends_within_the_ceiling red 0 rattata3 true
                (mkRng [0.5; 0.5; 0.5]%float [0%nat]) ["1"; "1"; "1"; "1"])
    as H.
  assert (Hs : snd (battle_loop red 0 rattata3 true
                      (mkRng [0.5; 0.5; 0.5]%float [0%nat])
                      ["1"; "1"; "1"; "1"]) = Victory)
    by (vm_compute; reflexivity).
  destruct (battle_loop red 0 rattata3 true
              (mkRng [0.5; 0.5; 0.5]%float [0%nat]) ["1"; "1"; "1"; "1"])
    as [b result].
  cbn [fst snd] in *. destruct H as (_ & _ & _ & Hv).
  split; [exact Hs|exact (Hv Hs)].
Defined.


(** X27.  A battle leaves alone all it has no business with.  Of the
    trainer, the box, the name, the location, the Pokedex, the size of the
    team and the counters of catches and of battles won and lost are as
    before; every team member is still of its species (no evolution happens
    in a battle); and no item is gained.  Of the opponent, everything but
    its current HP is as before: in particular it never spends PP. *)
Theorem battle_keeps_roster_and_opponent (t : Trainer) (i : nat)
    (o : Pokemon) (w : bool) (r : Rng) (input : list string) :
  let '(b, _) := battle_loop t i o w r input in
  battle_keeps t o (trainer b) (opponent_pokemon b)
  /\ moves (opponent_pokemon b) = moves o
  /\ max_hp (opponent_pokemon b) = max_hp o
  /\ level (opponent_pokemon b) = level o.
Proof.
  unfold battle_loop.
  pose proof (battle_loop_from_ok (Z.to_nat max_turns)
                (mkBattle t i o w 0 r input)) as H.
  cbv zeta in H. unfold max_turns in H at 1. simpl battle_turn in H at 1 2.
  specialize (H ltac:(lia)).
  destruct (battle_loop_from _ _) as [b result]. cbn [fst snd] in H.
  destruct H as (Hk & _). simpl in Hk. split; [exact Hk|].
  destruct Hk as (_ & _ & _ & ->). repeat split.
Qed.

(** ** Floats in order *)

Lemma SFle_le_not_lt (x c y : spec_float) :
  SFleb x c = true -> SFleb c y = true -> SFltb y x = false.
Proof.
  unfold SFleb, SFltb, SFcompare.
  destruct x as [sx|sx| |sx mx ex], c as [sc|sc| |sc mc ec],
    y as [sy|sy| |sy my ey];
    repeat match goal with s : bool |- _ => destruct s end;
    try (intros; congruence);
    change (PosDef.Pos.compare_cont Eq) with Pos.compare;
    destruct (Z.compare_spec ex ec), (Z.compare_spec ec ey),
      (Z.compare_spec ey ex); try lia; subst;
    try (intros; congruence);
    destruct (Pos.compare_spec mx mc), (Pos.compare_spec mc my),
      (Pos.compare_spec my mx); try lia; subst; simpl;
    intros; congruence.
Qed.

Lemma float_le_le_not_lt (x c y : float) :
  (x <=? c)%float = true -> (c <=? y)%float = true -> (y <? x)%float = false.
Proof.
  rewrite !leb_spec, ltb_spec. apply SFle_le_not_lt.
Qed.

Lemma float_lt_le (x y : float) :
  (x <? y)%float = true -> (x <=? y)%float = true.
Proof.
  rewrite leb_spec, ltb_spec. unfold SFltb, SFleb.
  destruct (SFcompare (Prim2SF x) (Prim2SF y)) as [[]|]; congruence.
Qed.

Lemma fmin_le (a x : float) :
  (a <=? a)%float = true -> (Py.fmin a x <=? a)%float = true.
Proof.
  intros Ha. unfold Py.fmin. destruct (x <? a)%float eqn:Hlt.
  - now apply float_lt_le.
  - exact Ha.
Qed.

Lemma catch_pokemon_counters (wild : Pokemon) (ball : string) (t : Trainer)
    (r : Rng) (t' : Trainer) (wild' : Pokemon) (r' : Rng) (ok : bool) :
  catch_pokemon wild ball t r = Ok (t', wild', r', ok) ->
  stats_battles_won t' = stats_battles_won t
  /\ stats_battles_lost t' = stats_battles_lost t
  /\ stats_items_used t' = stats_items_used t
  /\ stats_pokemon_caught t'
     = stats_pokemon_caught t + (if ok then 1 else 0).
Proof.
  destruct ok.
  - intros H. apply catch_pokemon_true in H as (_ & Hadd & _).
    cbv zeta in Hadd. unfold add_pokemon in Hadd.
    cbn [set_pokedex pokemon_team max_team_size add_pokemon_caught set_stats
         set_inventory] in Hadd.
    destruct (_ <? _) in Hadd; injection Hadd as -> _; simpl;
      repeat split.
  - unfold catch_pokemon.
    destruct (negb (Inventory.has_item ball 1 (inventory t)));
      [intros [= <- _ _]; repeat split; lia|].
    unfold mbind, res_bind.
    destruct (catch_probability wild ball) as [pr|]; [|discriminate].
    destruct (Random.random r) as [u r1].
    destruct (u <? pr)%float.
    + destruct (add_pokemon _ true _) as [[t2 st] fl]. discriminate.
    + intros [= <- _ _]. simpl. repeat split; lia.
Qed.

Lemma attempt_catch_counters (wild : Pokemon) (t : Trainer) (r : Rng)
    (input : list string) (t' : Trainer) (wild' : Pokemon) (r' : Rng)
    (input' : list string) (outcome : catch_outcome) :
  attempt_catch wild t r input = Ok (t', wild', r', input', outcome) ->
  stats_battles_won t' = stats_battles_won t
  /\ stats_battles_lost t' = stats_battles_lost t
  /\ stats_items_used t' = stats_items_used t
  /\ stats_pokemon_caught t'
     = stats_pokemon_caught t
       + (match outcome with Gotcha => 2 | _ => 0 end).
Proof.
  unfold attempt_catch.
  destruct (InputHandler.get_yes_no input) as [yes input1].
  destruct yes; [|intros [= <- _ _ _ <-]; repeat split; lia].
  destruct (Inventory.get_items_by_type "pokeball" (inventory t))
    as [|[ball q] balls]; [intros [= <- _ _ _ <-]; repeat split; lia|].
  unfold mbind, res_bind.
  destruct (calculate_catch_rate wild) as [gate|]; [|discriminate].
  destruct (Random.random r) as [u r1].
  destruct (u <? gate)%float;
    [|intros [= <- _ _ _ <-]; simpl; repeat split; lia].
  destruct (catch_pokemon wild ball t r1) as [[[[t1 wild1] r2] ok]|] eqn:Hc;
    [|discriminate].
  apply catch_pokemon_counters in Hc as (Hwon & Hlost & Hused & Hcaught).
  destruct ok; [|intros [= <- _ _ _ <-]; repeat split; lia].
  destruct (InputHandler.get_pokemon_nickname (species wild1) input1)
    as [nickname input2].
  destruct (String.eqb nickname EmptyString).
  - intros [= <- _ _ _ <-]. simpl. repeat split; lia.
  - intros [= <- _ _ _ <-]. unfold rename_caught.
    destruct (_ <? _); simpl; repeat split; lia.
Qed.

(** X28.  A catch is counted twice.  Whenever [attempt_catch] ends with
    "Gotcha!", the trainer's counter of creatures caught has grown by two,
    once in [add_pokemon] and once more in [attempt_catch] itself; in every
    other outcome it has not moved.  The counters of battles and of items
    used are never touched. *)
Theorem catch_is_counted_twice (wild : Pokemon) (t : Trainer) (r : Rng)
    (input : list string) (t' : Trainer) (wild' : Pokemon) (r' : Rng)
    (input' : list string) (outcome : catch_outcome) :
  attempt_catch wild t r input = Ok (t', wild', r', input', outcome) ->
  stats_pokemon_caught t'
  = stats_pokemon_caught t + (match outcome with Gotcha => 2 | _ => 0 end)
  /\ stats_battles_won t' = stats_battles_won t
  /\ stats_battles_lost t' = stats_battles_lost t
  /\ stats_items_used t' = stats_items_used t.
Proof.
  intros H. apply attempt_catch_counters in H as (H1 & H2 & H3 & H4).
  repeat split; assumption.
Qed.

Lemma catch_is_counted_twice_witness :
  exists t' wild' r' input',
    attempt_catch rattata3 red (mkRng [0.1; 0.2]%float []) ["y"; "Ratty"]
    = Ok (t', wild', r', input', Gotcha)
    /\ stats_pokemon_caught t' = 2.
Proof.
  destruct (attempt_catch rattata3 red (mkRng [0.1; 0.2]%float [])
              ["y"; "Ratty"]) as [[[[[t' wild'] r'] input'] outcome]|] eqn:H.
  - assert (Ho : outcome = Gotcha).
    { assert (Hs : (fun x => match x with
                            | Ok (_, _, _, _, o) => o
                            | Raise _ => Declined
                            end)
                     (attempt_catch rattata3 red (mkRng [0.1; 0.2]%float [])
                        ["y"; "Ratty"]) = Gotcha)
        by (vm_compute; reflexivity).
      rewrite H in Hs. exact Hs. }
    subst outcome. exists t', wild', r', input'. split; [reflexivity|].
    exact (proj1 (catch_is_counted_twice _ _ _ _ _ _ _ _ _ H)).
  - exfalso.
    assert (Hs : (fun x => match x with
                          | Ok (_, _, _, _, _) => true
                          | Raise _ => false
                          end)
                   (attempt_catch rattata3 red (mkRng [0.1; 0.2]%float [])
                      ["y"; "Ratty"]) = true)
      by (vm_compute; reflexivity).
    rewrite H in Hs. discriminate Hs.
Defined.

(** X29.  No catch is certain, whatever the ball.  When the player accepts
    and some ball is held, a first draw of 0.9 or more always lets a
    creature of the game break free: the engine's own gate is capped at 0.9 and is
    tested before the ball's catch rate is looked at, so a Master Ball
    fails as any other.  The ball is spent and nothing else changes. *)
Theorem no_catch_is_certain (wild : Pokemon) (t : Trainer) (r : Rng)
    (input input1 : list string) (ball : string) (q : Z)
    (balls : Inventory.t) :
  InputHandler.get_yes_no input = (true, input1) ->
  Inventory.get_items_by_type "pokeball" (inventory t)
  = (ball, q) :: balls ->
  well_formed wild ->
  (0.9 <=? fst (Random.random r))%float = true ->
  attempt_catch wild t r input
  = Ok (set_inventory
          (fst (Inventory.remove_item ball 1 (inventory t))) t,
        wild, snd (Random.random r), input1, BrokeFree).
Proof.
  intros Hyes Hballs (Hl & Hb & Hmax & _) Hdraw.
  assert (Hmax0 : max_hp wild <> 0).
  { destruct Hb as (Hhp & _).
    pose proof (stat_at_least_5 (Stats.hp (base_stats wild)) (level wild)
                  (proj1 Hhp) (proj1 Hl)). lia. }
  unfold attempt_catch.
  rewrite Hyes, Hballs, calculate_catch_rate_spec by exact Hmax0.
  unfold mbind, res_bind. destruct (Random.random r) as [u r1].
  cbn [fst snd] in *.
  assert (Hgate : (u <? spec_gate (current_hp wild) (max_hp wild)
                          (level wild))%float = false).
  { apply (float_le_le_not_lt _ 0.9%float); [|exact Hdraw].
    unfold spec_gate. apply fmin_le. reflexivity. }
  now rewrite Hgate.
Qed.

Lemma no_catch_is_certain_witness :
  (InputHandler.get_yes_no ["yes"] = (true, [])
   /\ Inventory.get_items_by_type "pokeball"
        (inventory (set_inventory [("Master Ball", 1)] red))
      = [("Master Ball", 1)]
   /\ well_formed rattata3
   /\ (0.9 <=? fst (Random.random (mkRng [0.95]%float [])))%float = true)
  /\ attempt_catch rattata3 (set_inventory [("Master Ball", 1)] red)
       (mkRng [0.95]%float []) ["yes"]
     = Ok (set_inventory [] red, rattata3, mkRng [] [], [], BrokeFree).
Proof.
  assert (H1 : InputHandler.get_yes_no ["yes"] = (true, [])) by reflexivity.
  assert (H2 : Inventory.get_items_by_type "pokeball"
                 (inventory (set_inventory [("Master Ball", 1)] red))
               = [("Master Ball", 1)]) by reflexivity.
  assert (H3 : well_formed rattata3)
    by (unfold well_formed, base_in_range, hp_invariant; simpl;
        repeat split; try lia; reflexivity).
  assert (H4 : (0.9 <=? fst (Random.random (mkRng [0.95]%float [])))%float
               = true) by reflexivity.
  split; [split; [exact H1|split; [exact H2|split; [exact H3|exact H4]]]|].
  exact (no_catch_is_certain rattata3
           (set_inventory [("Master Ball", 1)] red) (mkRng [0.95]%float [])
           ["yes"] [] "Master Ball" 1 [] H1 H2 H3 H4).
Defined.

Lemma first_usable_none (team : list Pokemon) (k : nat) :
  first_usable team k = None
  <-> existsb (fun p => negb (is_fainted p)) team = false.
Proof.
  pose proof (first_usable_spec team k) as H.
  destruct (first_usable team k) as [i|].
  - destruct H as (_ & Hex & _). rewrite Hex. split; discriminate.
  - destruct H as (Hex & _). rewrite Hex. split; reflexivity.
Qed.

(** X30.  [start_battle] keeps the score.  It answers "no_pokemon" exactly
    when no team member can fight, and then nothing at all has changed and
    nothing was read or drawn; otherwise the counter of battles won grows
    by one exactly on a victory and the counter of battles lost by one
    exactly on a defeat, and neither moves on a draw or a run. *)
Theorem start_battle_keeps_the_score (opponent : Pokemon) (is_wild : bool)
    (t : Trainer) (r : Rng) (input : list string) (t' : Trainer)
    (opponent' : Pokemon) (r' : Rng) (input' : list string)
    (result : start_result) :
  start_battle opponent is_wild t r input
  = Ok (t', opponent', r', input', result) ->
  (result = NoPokemon <-> has_usable_pokemon t = false)
  /\ (result = NoPokemon ->
      t' = t /\ opponent' = opponent /\ r' = r /\ input' = input)
  /\ stats_battles_won t'
     = stats_battles_won t
       + (match result with Ended Victory => 1 | _ => 0 end)
  /\ stats_battles_lost t'
     = stats_battles_lost t
       + (match result with Ended Defeat => 1 | _ => 0 end).
Proof.
  unfold start_battle, get_active_pokemon, has_usable_pokemon.
  pose proof (first_usable_none (pokemon_team t) 0) as Hnone.
  destruct (first_usable (pokemon_team t) 0) as [i|].
  - assert (Husable : existsb (fun p => negb (is_fainted p)) (pokemon_team t)
                      <> false).
    { intros H. apply Hnone in H. discriminate H. }
    pose proof (battle_loop_from_ok (Z.to_nat max_turns)
                  (mkBattle t i opponent is_wild 0 r input)) as Hloop.
    cbv zeta in Hloop. unfold max_turns in Hloop at 1.
    simpl battle_turn in Hloop at 1 2. specialize (Hloop ltac:(lia)).
    unfold battle_loop.
    destruct (battle_loop_from _ _) as [b res]. cbn [fst snd] in Hloop.
    destruct Hloop as ((Hroster & _) & _).
    destruct Hroster as (_ & _ & _ & _ & _ & _ & _ & _ & Hwon & Hlost).
    simpl in Hwon, Hlost.
    assert (Hno : forall res0,
               Ended res0 = NoPokemon
               <-> existsb (fun p => negb (is_fainted p)) (pokemon_team t)
                   = false)
      by (intros res0; split; [discriminate|intros H; contradiction]).
    destruct res.
    + cbn [set_stats pokemon_team].
      destruct (pokemon_team (trainer b) !! i) as [p|].
      * unfold mbind, res_bind.
        destruct (calculate_exp_gain p (opponent_pokemon b)) as [gain|];
          [|discriminate].
        destruct (gain_experience gain p) as [[p1 fl]|]; [|discriminate].
        destruct is_wild.
        -- destruct (attempt_catch _ _ _ _)
             as [[[[[t4 o2] r4] input4] outcome]|] eqn:Hcatch;
             [|discriminate].
           apply attempt_catch_counters in Hcatch as (H1 & H2 & _).
           simpl in H1, H2. intros [= <- _ _ _ <-].
           split; [apply Hno|]. split; [discriminate|]. lia.
        -- intros [= <- _ _ _ <-]. simpl.
           split; [apply Hno|]. split; [discriminate|]. lia.
      * intros [= <- _ _ _ <-]. simpl.
        split; [apply Hno|]. split; [discriminate|]. lia.
    + intros [= <- _ _ _ <-]. simpl.
      split; [apply Hno|]. split; [discriminate|]. lia.
    + intros [= <- _ _ _ <-].
      split; [apply Hno|]. split; [discriminate|]. lia.
    + intros [= <- _ _ _ <-].
      split; [apply Hno|]. split; [discriminate|]. lia.
  - intros [= <- <- <- <- <-].
    split; [split; [intros _; now apply Hnone|reflexivity]|].
    split; [intros _; repeat split|]. lia.
Qed.

Lemma start_battle_keeps_the_score_witness :
  exists t' opponent' r' input',
    start_battle rattata3 true red (mkRng [0.5; 0.5; 0.5]%float [0%nat])
      ["1"; "1"; "1"; "1"]
    = Ok (t', opponent', r', input', Ended Victory)
    /\ stats_battles_won t' = 1 /\ stats_battles_lost t' = 0.
Proof.
  destruct (start_battle rattata3 true red
              (mkRng [0.5; 0.5; 0.5]%float [0%nat]) ["1"; "1"; "1"; "1"])
    as [[[[[t' o'] r'] input'] result]|] eqn:H.
  - assert (Hr : result = Ended Victory).
    { assert (Hs : (fun x => match x with
                            | Ok (_, _, _, _, res) => res
                            | Raise _ => NoPokemon
                            end)
                     (start_battle rattata3 true red
                        (mkRng [0.5; 0.5; 0.5]%float [0%nat])
                        ["1"; "1"; "1"; "1"]) = Ended Victory)
        by (vm_compute; reflexivity).
      rewrite H in Hs. exact Hs. }
    subst result. exists t', o', r', input'. split; [reflexivity|].
    destruct (start_battle_keeps_the_score _ _ _ _ _ _ _ _ _ _ H)
      as (_ & _ & Hwon & Hlost).
    split; [exact Hwon|exact Hlost].
  - exfalso.
    assert (Hs : (fun x => match x with
                          | Ok (_, _, _, _, _) => true
                          | Raise _ => false
                          end)
                   (start_battle rattata3 true red
                      (mkRng [0.5; 0.5; 0.5]%float [0%nat])
                      ["1"; "1"; "1"; "1"]) = true)
      by (vm_compute; reflexivity).
    rewrite H in Hs. discriminate Hs.
Defined.
